(** * The ping algorithm of libparistraceroute (algorithms/ping.c)

    A shallow embedding of the event handler [ping_loop_handler], of the
    ICMP / ICMPv6 reply classification it relies on, of the probe
    dispatcher ([send_ping_probe], [send_ping_probes]) and of the
    end-of-run statistics, followed by the properties established about
    them.

    Conventions.
    - A C [double] is a binary64 primitive float; the arithmetic is the
      IEEE 754 one, so that [0 / 0] is a NaN and products are rounded.
    - A [size_t] is an integer modulo [2^64], an [int] a signed 32-bit
      integer; the wrap-around is written out at every operation.
    - A pointer that may be NULL is an [option]; reading through NULL, or
      converting a [double] that does not fit to [int], has no defined
      behaviour in C and is reported as a [fault].
    - The probes created by the algorithm live in a [memory] (a list of
      cells addressed by their index), because the dispatcher writes to the
      clone it has just made and must leave the skeleton alone.
    - What the handler asks the framework to do ([pt_raise_event],
      [pt_send_probe], ...) is recorded, in order, as a list of [effect]s.
    - What may fail fails as the environment ([env_t]) decides: the
      creation of the data of an instance, [probe_dup],
      [dynarray_push_element] and [pt_send_probe] in a dispatch, whose
      results the source tests, and the [malloc] of [ping_handler], whose
      result it writes through untested. *)

From Stdlib Require Import ZArith Lia String Floats.
From stdpp Require Import base list.

Open Scope Z_scope.

(* ================================================================== *)
(** * Part I. The model *)

(* ------------------------------------------------------------------ *)
(** ** Machine integers and doubles *)

Definition double := float.

Definition SIZE_MAX_plus_1 : Z := 2 ^ 64.
Definition INT_MIN : Z := - 2 ^ 31.
Definition INT_MAX : Z := 2 ^ 31 - 1.
Definition EINVAL : Z := 22.

(** Arithmetic on [size_t]. *)
Definition to_size_t (z : Z) : Z := z mod SIZE_MAX_plus_1.
Definition size_add (a b : Z) : Z := to_size_t (a + b).
Definition size_sub (a b : Z) : Z := to_size_t (a - b).

(** [(int) z] for an unsigned [z]: the low 32 bits, read as signed. *)
Definition to_int (z : Z) : Z := (z + 2 ^ 31) mod 2 ^ 32 - 2 ^ 31.

(** [MIN] of common.h: [((x) < (y) ? (x) : (y))]. *)
Definition MIN (x y : Z) : Z := if x <? y then x else y.

Inductive fault :=
| NullDereference        (* read or write through a NULL pointer *)
| InvalidRead            (* element of a dynarray that does not exist *)
| InvalidPointer         (* probe address outside the memory *)
| UndefinedConversion.   (* double -> int out of range, abs(INT_MIN) *)

Inductive result (A : Type) :=
| Ok (a : A)
| Fault (f : fault).
Arguments Ok {A} a.
Arguments Fault {A} f.

#[global] Instance result_bind : MBind result :=
  fun A B (k : A -> result B) (r : result A) =>
    match r with
    | Ok a => k a
    | Fault f => Fault f
    end.

(** The integer part of a finite double, towards zero. *)
Definition truncate (d : double) : option Z :=
  match Prim2SF d with
  | S754_zero _ => Some 0
  | S754_finite s m e =>
      let a := match e with
               | Zneg p => Z.shiftr (Zpos m) (Zpos p)
               | _ => Z.shiftl (Zpos m) e
               end in
      Some (if s then - a else a)
  | S754_infinity _ | S754_nan => None
  end.


(** [(int) d]: defined when the integer part is representable. *)
Definition double_to_int (d : double) : result Z :=
  match truncate d with
  | Some z => if (INT_MIN <=? z) && (z <=? INT_MAX) then Ok z
              else Fault UndefinedConversion
  | None => Fault UndefinedConversion
  end.

(** [(double) z], rounded to nearest even. *)
Definition Z_to_double (z : Z) : double :=
  SF2Prim (binary_normalize prec emax z 0 false).

(** [abs] of stdlib.h: [int abs(int)]. *)
Definition c_abs (i : Z) : result Z :=
  if i =? INT_MIN then Fault UndefinedConversion else Ok (Z.abs i).

(** [d != e] on doubles. *)
Definition double_neq (d e : double) : bool := negb (PrimFloat.eqb d e).

(* ------------------------------------------------------------------ *)
(** ** Constants of <netinet/ip_icmp.h> and <netinet/icmp6.h> *)

Definition ICMP_UNREACH : Z := 3.
Definition ICMP_UNREACH_NET : Z := 0.
Definition ICMP_UNREACH_HOST : Z := 1.
Definition ICMP_UNREACH_PROTOCOL : Z := 2.
Definition ICMP_UNREACH_PORT : Z := 3.
Definition ICMP_REDIRECT : Z := 5.
Definition ICMP_REDIRECT_NET : Z := 0.
Definition ICMP_TIMXCEED : Z := 11.
Definition ICMP_TIMXCEED_INTRANS : Z := 0.
Definition ICMP_TIMXCEED_REASS : Z := 1.
Definition ICMP_PARAMPROB : Z := 12.

Definition ICMP6_DST_UNREACH : Z := 1.
Definition ICMP6_DST_UNREACH_NOROUTE : Z := 0.
Definition ICMP6_DST_UNREACH_ADDR : Z := 3.
Definition ICMP6_DST_UNREACH_NOPORT : Z := 4.
Definition ICMP6_TIME_EXCEEDED : Z := 3.
Definition ICMP6_TIME_EXCEED_TRANSIT : Z := 0.
Definition ICMP6_TIME_EXCEED_REASSEMBLY : Z := 1.
Definition ICMP6_PARAM_PROB : Z := 4.
Definition ICMP6_PARAMPROB_HEADER : Z := 0.
Definition ICMP6_PARAMPROB_NEXTHEADER : Z := 1.
Definition ICMP6_PARAMPROB_OPTION : Z := 2.
Definition ND_REDIRECT : Z := 137.

(* ------------------------------------------------------------------ *)
(** ** Data model *)

(** address.h and probe.h are not part of the sources at hand: the type
    of network addresses, their comparison ([address_compare], which
    returns 0 on equal addresses) and the sentinel [DELAY_BEST_EFFORT] are
    taken as given. *)
Class Library (address_t : Type) := {
  address_compare : address_t -> address_t -> Z;
  DELAY_BEST_EFFORT : double
}.

Section Model.

Context {address_t : Type} {library : Library address_t}.

(** A probe, as far as ping.c looks into it: its delay and timestamps, and
    the header fields read with [probe_extract]; a field is [None] when
    [probe_extract] fails on its key. *)
Record probe_t := {
  probe_get_delay : double;
  probe_get_sending_time : double;
  probe_get_recv_time : double;
  field_version : option Z;      (* "version" *)
  field_type : option Z;         (* "type" *)
  field_code : option Z;         (* "code" *)
  field_src_ip : option address_t  (* "src_ip" *)
}.

Definition probe_set_delay (p : probe_t) (delay : double) : probe_t :=
  {| probe_get_delay := delay;
     probe_get_sending_time := probe_get_sending_time p;
     probe_get_recv_time := probe_get_recv_time p;
     field_version := field_version p;
     field_type := field_type p;
     field_code := field_code p;
     field_src_ip := field_src_ip p |}.

(** [probe_extract(p, key, &v)] into a [uint8_t v] initialised to 0. *)
Definition probe_extract_uint8 (field : option Z) : Z :=
  match field with
  | Some v => v mod 256
  | None => 0
  end.

Record probe_reply_t := {
  probe : probe_t;
  reply : probe_t
}.

(** Events of the framework (event.h), with the data they carry. *)
Inductive event_t :=
| ALGORITHM_INIT
| PROBE_REPLY (probe_reply : probe_reply_t)
| PROBE_TIMEOUT (probe : probe_t)
| ALGORITHM_TERMINATED
| ALGORITHM_ERROR
| OTHER_EVENT (type : Z).   (* any other event type of the framework *)

(** Events raised by the algorithm (ping.h). *)
Inductive ping_event_type_t :=
| PING_PROBE_REPLY
| PING_DST_NET_UNREACHABLE
| PING_DST_HOST_UNREACHABLE
| PING_DST_PROT_UNREACHABLE
| PING_DST_PORT_UNREACHABLE
| PING_TTL_EXCEEDED_TRANSIT
| PING_TIME_EXCEEDED_REASSEMBLY
| PING_REDIRECT
| PING_PARAMETER_PROBLEM
| PING_GEN_ERROR
| PING_ALL_PROBES_SENT
| PING_TIMEOUT
| PING_WAIT.

Inductive event_data_t :=
| data_probe_reply (pr : probe_reply_t)
| data_probe (p : probe_t)
| data_NULL.

Record ping_event_t := event_create {
  ping_event_type : ping_event_type_t;
  ping_event_data : event_data_t
}.

Record ping_options_t := {
  dst_addr : address_t;
  interval : double;
  count : Z
}.

(** A dynarray is the list of its elements; the two dynarrays of
    [ping_data_t] are held through pointers. [probes] holds the addresses
    of the clones. *)
Definition dynarray_t (A : Type) := list A.

Record ping_data_t := {
  num_replies : Z;
  num_losses : Z;
  num_probes_in_flight : Z;
  probes : option (dynarray_t nat);
  rtt_results : option (dynarray_t double)
}.

Definition memory := list probe_t.

(** What the handler does to the outside, in order. *)
Inductive effect :=
| fprintf_stderr (msg : string)
| set_errno (e : Z)
| pt_raise_event (e : ping_event_t)
| pt_algorithm_throw (e : event_t)       (* forward to the caller *)
| pt_send_probe (p : nat)
| pt_raise_terminated
| pt_raise_error
| ping_data_free
| event_free.

(** What the environment decides. *)
Inductive dispatch_fate :=
| probe_dup_fails
| push_element_fails
| send_fails
| send_succeeds.

Record env_t := {
  options_network_get_timeout : double;
  ping_data_create_succeeds : bool;
  fate : Z -> dispatch_fate;    (* of the i-th probe of a batch *)
  malloc_succeeds : bool        (* the [malloc] of [ping_handler] *)
}.

(* ------------------------------------------------------------------ *)
(** ** Statistics *)

Definition compute_minimum (array : dynarray_t double) : result double :=
  match array with
  | [] => Fault InvalidRead      (* element 0 *)
  | x0 :: rest =>
      Ok (fold_left (fun current_min x =>
                       if PrimFloat.ltb x current_min then x else current_min)
                    rest x0)
  end.

Definition compute_maximum (array : dynarray_t double) : result double :=
  match array with
  | [] => Fault InvalidRead      (* element 0 *)
  | x0 :: rest =>
      Ok (fold_left (fun current_max x =>
                       if PrimFloat.ltb current_max x then x else current_max)
                    rest x0)
  end.

Definition compute_mean (array : dynarray_t double) : double :=
  let array_length := Z.of_nat (length array) in
  let sum := fold_left PrimFloat.add array 0%float in
  PrimFloat.div sum (Z_to_double array_length).

(** The loop body of [compute_mean_deviation]: [sum += abs(x - mean)],
    where [abs] takes and returns an [int]. *)
Definition add_abs_deviation (mean : double) (sum : result double) (x : double)
  : result double :=
  s ← sum;
  i ← double_to_int (PrimFloat.sub x mean);
  a ← c_abs i;
  Ok (PrimFloat.add s (Z_to_double a)).

Definition compute_mean_deviation (array : dynarray_t double) : result double :=
  let array_length := Z.of_nat (length array) in
  let mean := compute_mean array in
  sum ← fold_left (add_abs_deviation mean) array (Ok 0%float);
  Ok (PrimFloat.div sum (Z_to_double array_length)).

Inductive statistics_t :=
| statistics_error     (* "An error occured while computing statistics..." *)
| statistics (transmitted received loss : Z) (max min avg mdev : double).

Definition ping_dump_statistics (ping_data : ping_data_t) : result statistics_t :=
  match rtt_results ping_data with
  | None => Ok statistics_error
  | Some rtt =>
      max ← compute_maximum rtt;
      min ← compute_minimum rtt;
      let avg := compute_mean rtt in
      mdev ← compute_mean_deviation rtt;
      loss ← double_to_int
               (PrimFloat.mul
                  (PrimFloat.div (Z_to_double (num_losses ping_data))
                                 (Z_to_double (num_replies ping_data)))
                  100%float);
      Ok (statistics (num_replies ping_data)
                     (size_sub (num_replies ping_data) (num_losses ping_data))
                     loss max min avg mdev)
  end.

(** The mean deviation in the words of the specification:
    [Σ|xᵢ − mean| / n], with the absolute value of doubles. *)
Definition mean_deviation_spec (array : dynarray_t double) : double :=
  let mean := compute_mean array in
  PrimFloat.div
    (fold_left (fun sum x => PrimFloat.add sum (PrimFloat.abs (PrimFloat.sub x mean)))
               array 0%float)
    (Z_to_double (Z.of_nat (length array))).

(* ------------------------------------------------------------------ *)
(** ** ICMP error analysing *)

Definition destination_network_unreachable (reply : probe_t) : bool :=
  let version := probe_extract_uint8 (field_version reply) in
  let code := probe_extract_uint8 (field_code reply) in
  let type := probe_extract_uint8 (field_type reply) in
  if version =? 4
  then (type =? ICMP_UNREACH) && (code =? ICMP_UNREACH_HOST)
  else (type =? ICMP6_DST_UNREACH) && (code =? ICMP6_DST_UNREACH_ADDR).

Definition destination_host_unreachable (reply : probe_t) : bool :=
  let version := probe_extract_uint8 (field_version reply) in
  let code := probe_extract_uint8 (field_code reply) in
  let type := probe_extract_uint8 (field_type reply) in
  if version =? 4
  then (type =? ICMP_UNREACH) && (code =? ICMP_UNREACH_NET)
  else (type =? ICMP6_DST_UNREACH) && (code =? ICMP6_DST_UNREACH_NOROUTE).

Definition destination_port_unreachable (reply : probe_t) : bool :=
  let version := probe_extract_uint8 (field_version reply) in
  let code := probe_extract_uint8 (field_code reply) in
  let type := probe_extract_uint8 (field_type reply) in
  if version =? 4
  then (type =? ICMP_UNREACH) && (code =? ICMP_UNREACH_PORT)
  else (type =? ICMP6_DST_UNREACH) && (code =? ICMP6_DST_UNREACH_NOPORT).

Definition destination_protocol_unreachable (reply : probe_t) : bool :=
  let version := probe_extract_uint8 (field_version reply) in
  let code := probe_extract_uint8 (field_code reply) in
  let type := probe_extract_uint8 (field_type reply) in
  if version =? 4
  then (type =? ICMP_UNREACH) && (code =? ICMP_UNREACH_PROTOCOL)
  else (type =? ICMP6_PARAM_PROB) && (code =? ICMP6_PARAMPROB_NEXTHEADER).

Definition ttl_exceeded (reply : probe_t) : bool :=
  let version := probe_extract_uint8 (field_version reply) in
  let code := probe_extract_uint8 (field_code reply) in
  let type := probe_extract_uint8 (field_type reply) in
  if version =? 4
  then (type =? ICMP_TIMXCEED) && (code =? ICMP_TIMXCEED_INTRANS)
  else (type =? ICMP6_TIME_EXCEEDED) && (code =? ICMP6_TIME_EXCEED_TRANSIT).

Definition fragment_reassembly_time_exceeded (reply : probe_t) : bool :=
  let version := probe_extract_uint8 (field_version reply) in
  let code := probe_extract_uint8 (field_code reply) in
  let type := probe_extract_uint8 (field_type reply) in
  if version =? 4
  then (type =? ICMP_TIMXCEED) && (code =? ICMP_TIMXCEED_REASS)
  else (type =? ICMP6_TIME_EXCEEDED) && (code =? ICMP6_TIME_EXCEED_REASSEMBLY).

Definition redirect (reply : probe_t) : bool :=
  let version := probe_extract_uint8 (field_version reply) in
  let code := probe_extract_uint8 (field_code reply) in
  let type := probe_extract_uint8 (field_type reply) in
  if version =? 4
  then (type =? ICMP_REDIRECT) && (code =? ICMP_REDIRECT_NET)
  else (type =? ND_REDIRECT).

Definition parameter_problem (reply : probe_t) : bool :=
  let version := probe_extract_uint8 (field_version reply) in
  let code := probe_extract_uint8 (field_code reply) in
  let type := probe_extract_uint8 (field_type reply) in
  if version =? 4
  then (type =? ICMP_PARAMPROB)
  else (type =? ICMP6_PARAM_PROB)
       && ((code =? ICMP6_PARAMPROB_HEADER) || (code =? ICMP6_PARAMPROB_OPTION)).

Definition destination_reached (dst_addr : address_t) (reply : probe_t) : bool :=
  match field_src_ip reply with
  | Some discovered_addr => address_compare dst_addr discovered_addr =? 0
  | None => false
  end.

(* ------------------------------------------------------------------ *)
(** ** Ping algorithm's data and default handler *)

Definition ping_data_create (env : env_t) : option ping_data_t :=
  if ping_data_create_succeeds env
  then Some {| num_replies := 0; num_losses := 0; num_probes_in_flight := 0;
               probes := Some []; rtt_results := Some [] |}
  else None.

Definition delay_get (probe reply : probe_t) : double :=
  PrimFloat.sub (probe_get_recv_time reply) (probe_get_sending_time probe).

Definition set_rtt_results (d : ping_data_t) (rtt : option (dynarray_t double))
  : ping_data_t :=
  {| num_replies := num_replies d; num_losses := num_losses d;
     num_probes_in_flight := num_probes_in_flight d;
     probes := probes d; rtt_results := rtt |}.

(** The pair behind [ping_event->data]. *)
Definition event_probe_reply (ping_event : ping_event_t) : result probe_reply_t :=
  match ping_event_data ping_event with
  | data_probe_reply pr => Ok pr
  | data_probe _ | data_NULL => Fault NullDereference
  end.

(** [ping_handler], the handler of the events raised by the algorithm;
    what it prints is left out, what it stores is kept: on
    [PING_PROBE_REPLY] the round-trip time is pushed on [rtt_results].
    The [double] that holds it comes from a [malloc] whose result is
    written through without a test: when the [malloc] fails, the write
    goes through NULL. The result of [dynarray_push_element] is not
    looked at either; the push is taken to succeed. *)
Definition ping_handler (env : env_t) (ping_event : ping_event_t)
    (ping_data : ping_data_t) : result ping_data_t :=
  match ping_event_type ping_event with
  | PING_PROBE_REPLY =>
      pr ← event_probe_reply ping_event;
      if malloc_succeeds env
      then
        let delay := delay_get (probe pr) (reply pr) in
        match rtt_results ping_data with
        | Some rtt => Ok (set_rtt_results ping_data (Some (rtt ++ [delay])))
        | None => Fault NullDereference
        end
      else Fault NullDereference     (* [*delay = ...] *)
  | PING_DST_NET_UNREACHABLE | PING_DST_HOST_UNREACHABLE
  | PING_DST_PROT_UNREACHABLE | PING_DST_PORT_UNREACHABLE
  | PING_TTL_EXCEEDED_TRANSIT | PING_TIME_EXCEEDED_REASSEMBLY
  | PING_REDIRECT | PING_PARAMETER_PROBLEM | PING_GEN_ERROR =>
      _ ← event_probe_reply ping_event;
      Ok ping_data
  | PING_ALL_PROBES_SENT | PING_TIMEOUT | PING_WAIT => Ok ping_data
  end.

(* ------------------------------------------------------------------ *)
(** ** Probe dispatcher *)

Definition load (mem : memory) (p : nat) : result probe_t :=
  match mem !! p with
  | Some v => Ok v
  | None => Fault InvalidPointer
  end.

(** [probe_dup]: a fresh cell holding a copy, or NULL. *)
Definition probe_dup (succeeds : bool) (mem : memory) (p : nat)
  : result (option nat * memory) :=
  v ← load mem p;
  if succeeds then Ok (Some (length mem), mem ++ [v]) else Ok (None, mem).

Definition set_probes (d : ping_data_t) (ps : option (dynarray_t nat))
  : ping_data_t :=
  {| num_replies := num_replies d; num_losses := num_losses d;
     num_probes_in_flight := num_probes_in_flight d;
     probes := ps; rtt_results := rtt_results d |}.

Definition send_ping_probe_error : list effect :=
  [fprintf_stderr "Error in send_ping_probe"].

(** The state left by a dispatch: the value returned, the memory, the
    algorithm's data and what was asked of the framework. *)
Definition dispatch_t : Type := bool * memory * ping_data_t * list effect.

Definition send_ping_probe (env : env_t) (mem : memory) (ping_data : ping_data_t)
    (probe_skel : nat) (i : Z) : result dispatch_t :=
  let f := fate env i in
  '(dup, mem) ← probe_dup (match f with probe_dup_fails => false | _ => true end)
                          mem probe_skel;
  match dup with
  | None => Ok (false, mem, ping_data, send_ping_probe_error)
  | Some probe =>
      clone ← load mem probe;
      mem ← (if double_neq (probe_get_delay clone) DELAY_BEST_EFFORT
             then skel ← load mem probe_skel;
                  let delay := PrimFloat.mul (Z_to_double i) (probe_get_delay skel) in
                  Ok (<[probe := probe_set_delay clone delay]> mem)
             else Ok mem);
      match probes ping_data with
      | None => Fault NullDereference
      | Some ps =>
          match f with
          | push_element_fails => Ok (false, mem, ping_data, send_ping_probe_error)
          | _ =>
              Ok (match f with send_succeeds => true | _ => false end,
                  mem, set_probes ping_data (Some (ps ++ [probe])),
                  [pt_send_probe probe])
          end
      end
  end.

(** The loop of [send_ping_probes], [n] iterations from index [i]; the
    index stays below [num_probes], so [i + 1] does not wrap. *)
Fixpoint send_ping_probes_from (n : nat) (i : Z) (env : env_t) (mem : memory)
    (ping_data : ping_data_t) (probe_skel : nat) : result dispatch_t :=
  match n with
  | O => Ok (true, mem, ping_data, [])
  | S n' =>
      '(sent, mem, ping_data, out) ←
        send_ping_probe env mem ping_data probe_skel (i + 1);
      if sent : bool
      then '(ret, mem, ping_data, out') ←
             send_ping_probes_from n' (i + 1) env mem ping_data probe_skel;
           Ok (ret, mem, ping_data, out ++ out')
      else Ok (false, mem, ping_data, out)
  end.

Definition send_ping_probes (env : env_t) (mem : memory) (ping_data : ping_data_t)
    (probe_skel : nat) (num_probes : Z) : result dispatch_t :=
  send_ping_probes_from (Z.to_nat num_probes) 0 env mem ping_data probe_skel.

(** The delays of the probes recorded at the addresses [ps]. *)
Definition recorded_delays (mem : memory) (ps : dynarray_t nat)
  : list (option double) :=
  map (fun p => probe_get_delay <$> mem !! p) ps.

(** The clone of index [i] made from the skeleton [s]. *)
Definition clone_of (s : probe_t) (i : Z) : probe_t :=
  if double_neq (probe_get_delay s) DELAY_BEST_EFFORT
  then probe_set_delay s (PrimFloat.mul (Z_to_double i) (probe_get_delay s))
  else s.

(* ------------------------------------------------------------------ *)
(** ** The event handler *)

(** How the handler is left: by a [return], with the value of [*pdata],
    or on a fault, with what had been done before. *)
Inductive handler_exit :=
| Returned (code : Z) (mem : memory) (pdata : option ping_data_t)
           (out : list effect)
| Crashed (f : fault) (out : list effect).

(** How the [switch] is left. [data] is the local pointer of the handler
    (it starts as NULL and is the same pointer as [*pdata] in the cases
    that set it), [pdata] is [*pdata]. *)
Inductive switch_exit :=
| Break (data pdata : option ping_data_t) (num_probes_to_send : Z)
        (out : list effect)
| FAILURE (out : list effect)
| SwitchFault (f : fault) (out : list effect).

Definition count_reply (d : ping_data_t) : ping_data_t :=
  {| num_replies := size_add (num_replies d) 1;
     num_losses := num_losses d;
     num_probes_in_flight := size_sub (num_probes_in_flight d) 1;
     probes := probes d; rtt_results := rtt_results d |}.

Definition count_timeout (d : ping_data_t) : ping_data_t :=
  {| num_replies := size_add (num_replies d) 1;
     num_losses := size_add (num_losses d) 1;
     num_probes_in_flight := size_sub (num_probes_in_flight d) 1;
     probes := probes d; rtt_results := rtt_results d |}.

Definition add_probes_in_flight (d : ping_data_t) (n : Z) : ping_data_t :=
  {| num_replies := num_replies d; num_losses := num_losses d;
     num_probes_in_flight := size_add (num_probes_in_flight d) n;
     probes := probes d; rtt_results := rtt_results d |}.

(** [(int)(options->count - data->num_replies) > 0] *)
Definition one_more (options : ping_options_t) (data : ping_data_t) : Z :=
  if to_int (size_sub (count options) (num_replies data)) >? 0 then 1 else 0.

(** The event raised for a reply, by the chain of tests of the handler. *)
Definition reply_event_type (options : ping_options_t) (reply : probe_t)
  : ping_event_type_t :=
  if destination_reached (dst_addr options) reply then PING_PROBE_REPLY
  else if destination_network_unreachable reply then PING_DST_NET_UNREACHABLE
  else if destination_host_unreachable reply then PING_DST_HOST_UNREACHABLE
  else if destination_protocol_unreachable reply then PING_DST_PROT_UNREACHABLE
  else if destination_port_unreachable reply then PING_DST_PORT_UNREACHABLE
  else if ttl_exceeded reply then PING_TTL_EXCEEDED_TRANSIT
  else if fragment_reassembly_time_exceeded reply then PING_TIME_EXCEEDED_REASSEMBLY
  else if redirect reply then PING_REDIRECT
  else if parameter_problem reply then PING_PARAMETER_PROBLEM
  else PING_GEN_ERROR.

Definition handler_switch (env : env_t) (event : event_t)
    (pdata : option ping_data_t) (opts : option ping_options_t) : switch_exit :=
  match event with
  | ALGORITHM_INIT =>
      match opts with
      | None => FAILURE [fprintf_stderr "Invalid ping options"; set_errno EINVAL]
      | Some options =>
          match ping_data_create env with
          | None => FAILURE []
          | Some data =>
              match double_to_int (PrimFloat.div (options_network_get_timeout env)
                                                 (interval options)) with
              | Fault f => SwitchFault f []
              | Ok q => Break (Some data) (Some data)
                              (MIN (to_size_t q) (count options)) []
              end
          end
      end
  | PROBE_REPLY probe_reply =>
      match pdata, opts with
      | Some data, Some options =>
          let data := count_reply data in
          Break (Some data) (Some data) (one_more options data)
                [pt_raise_event
                   (event_create (reply_event_type options (reply probe_reply))
                                 (data_probe_reply probe_reply))]
      | _, _ => SwitchFault NullDereference []
      end
  | PROBE_TIMEOUT probe =>
      match pdata, opts with
      | Some data, Some options =>
          let data := count_timeout data in
          Break (Some data) (Some data) (one_more options data)
                [pt_raise_event (event_create PING_TIMEOUT (data_probe probe))]
      | None, _ => SwitchFault NullDereference []
      | Some _, None =>
          SwitchFault NullDereference
            [pt_raise_event (event_create PING_TIMEOUT (data_probe probe))]
      end
  | ALGORITHM_TERMINATED => Break None None 0 [ping_data_free]
  | ALGORITHM_ERROR => FAILURE []
  | OTHER_EVENT _ => Break None pdata 0 []
  end.

(** After the [switch]: the event is forwarded to the caller, then probes
    are sent, or [PING_ALL_PROBES_SENT] or [PING_WAIT] is raised. *)
Definition handler_epilogue (env : env_t) (mem : memory) (event : event_t)
    (probe_skel : nat) (opts : option ping_options_t)
    (data : option ping_data_t) (num_probes_to_send : Z) (out : list effect)
  : handler_exit :=
  let out := out ++ [pt_algorithm_throw event] in
  match data with
  | None => Crashed NullDereference out
  | Some d =>
      let nothing_to_send :=
        if num_probes_in_flight d =? 0
        then Returned 0 mem (Some d)
               (out ++ [pt_raise_event (event_create PING_ALL_PROBES_SENT data_NULL);
                        pt_raise_terminated; event_free])
        else Returned 0 mem (Some d)
               (out ++ [pt_raise_event (event_create PING_WAIT data_NULL);
                        event_free]) in
      if 0 <? num_probes_to_send then
        match opts with
        | None => Crashed NullDereference out
        | Some options =>
            if negb (size_add (num_replies d) (num_probes_in_flight d)
                     =? to_size_t (count options))
            then
              match send_ping_probes env mem d probe_skel num_probes_to_send with
              | Fault f => Crashed f out
              | Ok (_, mem, d, sent) =>
                  Returned 0 mem
                    (Some (add_probes_in_flight d num_probes_to_send))
                    (out ++ sent ++ [event_free])
              end
            else nothing_to_send
        end
      else nothing_to_send
  end.

Definition ping_loop_handler (env : env_t) (mem : memory) (event : event_t)
    (pdata : option ping_data_t) (probe_skel : nat)
    (opts : option ping_options_t) : handler_exit :=
  match handler_switch env event pdata opts with
  | Break data pdata num_probes_to_send out =>
      handler_epilogue env mem event probe_skel opts data num_probes_to_send out
  | FAILURE out => Returned EINVAL mem pdata (out ++ [event_free; pt_raise_error])
  | SwitchFault f out => Crashed f out
  end.

(* ------------------------------------------------------------------ *)
(** ** An instance at work *)

Definition effects_of (x : handler_exit) : list effect :=
  match x with
  | Returned _ _ _ out => out
  | Crashed _ out => out
  end.

(** The events raised among the effects, in order. *)
Definition raised (out : list effect) : list ping_event_t :=
  omap (fun e => match e with pt_raise_event ev => Some ev | _ => None end) out.

(** The probes handed to the framework among the effects, in order. *)
Definition sent (out : list effect) : list nat :=
  omap (fun e => match e with pt_send_probe p => Some p | _ => None end) out.

(** The caller of the algorithm (the loop handler of the ping program,
    which is not part of the sources at hand) passes every event the
    algorithm raises to [ping_handler], with the data of the instance. *)
Fixpoint deliver_events (env : env_t) (raised : list ping_event_t)
    (d : ping_data_t) : result ping_data_t :=
  match raised with
  | [] => Ok d
  | e :: raised => d ← ping_handler env e d; deliver_events env raised d
  end.

Definition deliver (env : env_t) (out : list effect) (d : ping_data_t)
  : result ping_data_t :=
  deliver_events env (raised out) d.

Definition expects_outcome (event : event_t) : bool :=
  match event with
  | PROBE_REPLY _ | PROBE_TIMEOUT _ => true
  | _ => false
  end.

(** The states an instance goes through: [ALGORITHM_INIT] first, then
    replies and timeouts, each for a probe that is in flight. [running
    probe_skel options events mem data out]: after [events], the memory
    is [mem], the data of the instance [data], and [out] was done. *)
Inductive running (probe_skel : nat) (options : ping_options_t)
  : list event_t -> memory -> ping_data_t -> list effect -> Prop :=
| running_init env mem mem' pdata data data' out :
    ping_loop_handler env mem ALGORITHM_INIT pdata probe_skel (Some options)
      = Returned 0 mem' (Some data) out ->
    deliver env out data = Ok data' ->
    running probe_skel options [ALGORITHM_INIT] mem' data' out
| running_next env events event mem mem' data data1 data2 out out' :
    running probe_skel options events mem data out ->
    expects_outcome event = true ->
    num_probes_in_flight data <> 0 ->
    ping_loop_handler env mem event (Some data) probe_skel (Some options)
      = Returned 0 mem' (Some data1) out' ->
    deliver env out' data1 = Ok data2 ->
    running probe_skel options (events ++ [event]) mem' data2 (out ++ out').

(** One invocation followed by the delivery of what it raised; [None]
    when the handler does not return 0 with the data of the instance. *)
Definition invoke (env : env_t) (mem : memory) (event : event_t)
    (pdata : option ping_data_t) (skel : nat) (options : ping_options_t)
  : option (memory * ping_data_t * list effect) :=
  match ping_loop_handler env mem event pdata skel (Some options) with
  | Returned 0 mem (Some d) out =>
      match deliver env out d with
      | Ok d => Some (mem, d, out)
      | Fault _ => None
      end
  | _ => None
  end.

Fixpoint run_events (env : env_t) (skel : nat) (options : ping_options_t)
    (events : list event_t) (mem : memory) (d : ping_data_t)
    (out : list effect) : option (memory * ping_data_t * list effect) :=
  match events with
  | [] => Some (mem, d, out)
  | event :: events =>
      if expects_outcome event && negb (num_probes_in_flight d =? 0)
      then match invoke env mem event (Some d) skel options with
           | Some (mem, d, out') =>
               run_events env skel options events mem d (out ++ out')
           | None => None
           end
      else None
  end.

(** [run env mem skel options events]: the instance started in the
    memory [mem] on [events], which are [ALGORITHM_INIT] and then replies
    and timeouts for probes in flight. *)
Definition run (env : env_t) (mem : memory) (skel : nat)
    (options : ping_options_t) (events : list event_t)
  : option (memory * ping_data_t * list effect) :=
  match events with
  | ALGORITHM_INIT :: events =>
      match invoke env mem ALGORITHM_INIT None skel options with
      | Some (mem, d, out) => run_events env skel options events mem d out
      | None => None
      end
  | _ => None
  end.

(* ------------------------------------------------------------------ *)
(** ** What is observed of an instance *)

Definition all_probes_sent : ping_event_t :=
  event_create PING_ALL_PROBES_SENT data_NULL.
Definition wait : ping_event_t := event_create PING_WAIT data_NULL.

(** What the handler may raise after the outcome of the event. *)
Definition closing (tail : list ping_event_t) : Prop :=
  tail = [] \/ tail = [all_probes_sent] \/ tail = [wait].

(** [raises_first env mem probe_reply data skel options type]: on the
    reply [probe_reply], the instance raises first an event of type
    [type] carrying the (probe, reply) pair, and then only what closes the
    invocation. *)
Definition raises_first (env : env_t) (mem : memory)
    (probe_reply : probe_reply_t) (data : ping_data_t) (skel : nat)
    (options : ping_options_t) (type : ping_event_type_t) : Prop :=
  exists tail,
    raised (effects_of (ping_loop_handler env mem (PROBE_REPLY probe_reply)
                          (Some data) skel (Some options)))
      = event_create type (data_probe_reply probe_reply) :: tail
    /\ closing tail.

Definition is_all_probes_sent (e : ping_event_t) : bool :=
  match ping_event_type e with
  | PING_ALL_PROBES_SENT => true
  | _ => false
  end.

(** The two marks of the end of an instance among the effects. *)
Inductive mark := AllProbesSent | Terminated.

Definition marks (out : list effect) : list mark :=
  omap (fun e => match e with
                 | pt_raise_event ev =>
                     if is_all_probes_sent ev then Some AllProbesSent else None
                 | pt_raise_terminated => Some Terminated
                 | _ => None
                 end) out.

(** The counters after the [switch], on a reply or on a timeout. *)
Definition counted (event : event_t) (d : ping_data_t) : ping_data_t :=
  match event with
  | PROBE_TIMEOUT _ => count_timeout d
  | _ => count_reply d
  end.

(** The test that leads to [send_ping_probes]. *)
Definition refills (options : ping_options_t) (d : ping_data_t) (n : Z) : bool :=
  (0 <? n)
  && negb (size_add (num_replies d) (num_probes_in_flight d)
           =? to_size_t (count options)).

Definition same_counters (d d' : ping_data_t) : Prop :=
  num_replies d' = num_replies d
  /\ num_losses d' = num_losses d
  /\ num_probes_in_flight d' = num_probes_in_flight d
  /\ rtt_results d' = rtt_results d.

Definition in_size_t (z : Z) : Prop := 0 <= z < SIZE_MAX_plus_1.

(** The mark left by an invocation tells whether probes remain in flight. *)
Definition marked (d : ping_data_t) : list mark :=
  if num_probes_in_flight d =? 0 then [AllProbesSent; Terminated] else [].

(** The sample that an event adds to [rtt_results]: the delay of a reply
    that comes from the destination. *)
Definition samples_of (options : ping_options_t) (event : event_t) : list double :=
  match event with
  | PROBE_REPLY pr =>
      if destination_reached (dst_addr options) (reply pr)
      then [delay_get (probe pr) (reply pr)]
      else []
  | _ => []
  end.

Definition is_timeout (event : event_t) : bool :=
  match event with
  | PROBE_TIMEOUT _ => true
  | _ => false
  end.

(** A reply that does not come from the destination. *)
Definition is_error_reply (options : ping_options_t) (event : event_t) : bool :=
  match event with
  | PROBE_REPLY pr => negb (destination_reached (dst_addr options) (reply pr))
  | _ => false
  end.

Definition count_events (f : event_t -> bool) (events : list event_t) : Z :=
  Z.of_nat (length (List.filter f events)).

(** What a batch leaves: [c] clones recorded, at the addresses that
    follow the memory it started from, in the order of their indices;
    the cells that existed are untouched and so are the counters. *)
Definition batch_leaves (mem : memory) (d : ping_data_t) (ps : list nat)
    (s : probe_t) (i : Z) (c : nat) (mem' : memory) (d' : ping_data_t)
    (out : list effect) : Prop :=
  (forall a, (a < length mem)%nat -> mem' !! a = mem !! a)
  /\ (forall j, (j < c)%nat ->
        mem' !! (length mem + j)%nat = Some (clone_of s (i + 1 + Z.of_nat j)))
  /\ probes d' = Some (ps ++ seq (length mem) c)
  /\ sent out = seq (length mem) c
  /\ num_replies d' = num_replies d
  /\ num_losses d' = num_losses d
  /\ num_probes_in_flight d' = num_probes_in_flight d
  /\ rtt_results d' = rtt_results d.

(* ------------------------------------------------------------------ *)
(** ** Further observations *)

(** A cell that is the probe [s] but for its delay. *)
Definition copy_of (s c : probe_t) : Prop :=
  probe_set_delay s (probe_get_delay c) = c.

(** The copies made by a batch that starts after the index [i]: the
    [j]-th one has the index [i + 1 + j]. *)
Definition clones_from (s : probe_t) (i : Z) (k : nat) : list probe_t :=
  map (fun j => clone_of s (i + 1 + Z.of_nat j)) (seq 0 k).

Definition is_event_free (e : effect) : bool :=
  match e with
  | event_free => true
  | _ => false
  end.

Definition is_raise_error (e : effect) : bool :=
  match e with
  | pt_raise_error => true
  | _ => false
  end.

Definition count_effects (f : effect -> bool) (out : list effect) : nat :=
  length (List.filter f out).

(** The events forwarded to the caller among the effects, in order. *)
Definition thrown (out : list effect) : list event_t :=
  omap (fun e => match e with pt_algorithm_throw ev => Some ev | _ => None end) out.

(** The events after which the handler goes to [FAILURE]. *)
Definition fails (env : env_t) (event : event_t) (opts : option ping_options_t)
  : bool :=
  match event with
  | ALGORITHM_INIT =>
      match opts with
      | None => true
      | Some _ => negb (ping_data_create_succeeds env)
      end
  | ALGORITHM_ERROR => true
  | _ => false
  end.

(** What [ping_data_create] returns when it succeeds. *)
Definition initial_data : ping_data_t :=
  {| num_replies := 0; num_losses := 0; num_probes_in_flight := 0;
     probes := Some []; rtt_results := Some [] |}.

(** The event that the [switch] raises for a reply or a timeout. *)
Definition outcome_of (options : ping_options_t) (event : event_t)
  : option ping_event_t :=
  match event with
  | PROBE_REPLY pr =>
      Some (event_create (reply_event_type options (reply pr))
                         (data_probe_reply pr))
  | PROBE_TIMEOUT p => Some (event_create PING_TIMEOUT (data_probe p))
  | _ => None
  end.

(** A reply that comes from the destination: the event for which
    [ping_handler] stores a round-trip time. *)
Definition from_the_destination (options : ping_options_t) (event : event_t)
  : bool :=
  match event with
  | PROBE_REPLY pr => destination_reached (dst_addr options) (reply pr)
  | _ => false
  end.

(** The two events that close an invocation. *)
Definition is_closing (e : ping_event_t) : bool :=
  match ping_event_type e with
  | PING_ALL_PROBES_SENT | PING_WAIT => true
  | _ => false
  end.

(** The events raised that are outcomes of probes, in order. *)
Definition outcomes (out : list effect) : list ping_event_t :=
  List.filter (fun e => negb (is_closing e)) (raised out).

(** A probe recorded at the address [p]: a cell other than the skeleton,
    which holds a copy of the skeleton but for its delay. *)
Definition recorded_clone (skel : nat) (mem : memory) (p : nat) : Prop :=
  (skel < p < length mem)%nat
  /\ exists s c, mem !! skel = Some s /\ mem !! p = Some c /\ copy_of s c.

(** The counters within the budget of [count] probes: what was sent is
    counted as answered or in flight, and no more than [count] are. *)
Definition within_budget (options : ping_options_t) (d : ping_data_t)
    (out : list effect) : Prop :=
  Z.of_nat (length (sent out)) <= num_replies d + num_probes_in_flight d
  /\ num_replies d + num_probes_in_flight d <= count options
  /\ 0 <= num_probes_in_flight d
  /\ 0 <= num_losses d <= num_replies d.

(** The ICMP errors that a reply is, by the eight tests of the handler,
    each with the event it raises. *)
Definition icmp_errors (reply : probe_t) : list ping_event_type_t :=
  (if destination_network_unreachable reply then [PING_DST_NET_UNREACHABLE] else [])
  ++ (if destination_host_unreachable reply then [PING_DST_HOST_UNREACHABLE] else [])
  ++ (if destination_protocol_unreachable reply then [PING_DST_PROT_UNREACHABLE] else [])
  ++ (if destination_port_unreachable reply then [PING_DST_PORT_UNREACHABLE] else [])
  ++ (if ttl_exceeded reply then [PING_TTL_EXCEEDED_TRANSIT] else [])
  ++ (if fragment_reassembly_time_exceeded reply
      then [PING_TIME_EXCEEDED_REASSEMBLY] else [])
  ++ (if redirect reply then [PING_REDIRECT] else [])
  ++ (if parameter_problem reply then [PING_PARAMETER_PROBLEM] else []).

(** [reply] with another "version" field. *)
Definition with_version (reply : probe_t) (version : option Z) : probe_t :=
  {| probe_get_delay := probe_get_delay reply;
     probe_get_sending_time := probe_get_sending_time reply;
     probe_get_recv_time := probe_get_recv_time reply;
     field_version := version;
     field_type := field_type reply;
     field_code := field_code reply;
     field_src_ip := field_src_ip reply |}.

(** What is left of the dispatch that fails, after [k] that succeeded:
    the copies made and the clones pushed and passed to [pt_send_probe]. *)
Definition copies_until (f : dispatch_fate) (k : nat) : nat :=
  match f with
  | probe_dup_fails => k
  | _ => S k
  end.

Definition pushes_until (f : dispatch_fate) (k : nat) : nat :=
  match f with
  | send_fails | send_succeeds => S k
  | _ => k
  end.

Definition message_until (f : dispatch_fate) : list effect :=
  match f with
  | send_fails | send_succeeds => []
  | _ => send_ping_probe_error
  end.

(** The counters of [*pdata], when there is one. *)
Definition same_counters_opt (a b : option ping_data_t) : Prop :=
  match a, b with
  | Some a, Some b => same_counters a b
  | None, None => True
  | _, _ => False
  end.

(** The place of a number in the order of the doubles: its class (the
    infinities, the negative, zero, the positive), then its exponent and
    its mantissa. *)
Definition SFrank (f : spec_float) : Z * Z * Z :=
  match f with
  | S754_zero _ | S754_nan => (0, 0, 0)
  | S754_infinity s => (if s then -2 else 2, 0, 0)
  | S754_finite s m e => if s then (-1, - e, - Zpos m) else (1, e, Zpos m)
  end.

Definition rank_lt (a b : Z * Z * Z) : Prop :=
  let '(a1, a2, a3) := a in
  let '(b1, b2, b3) := b in
  a1 < b1 \/ (a1 = b1 /\ (a2 < b2 \/ (a2 = b2 /\ a3 < b3))).

Definition SFis_nan (f : spec_float) : bool :=
  match f with
  | S754_nan => true
  | _ => false
  end.

(** A sample less than one away from the mean. *)
Definition close_to (mean x : double) : Prop :=
  PrimFloat.ltb (PrimFloat.abs (PrimFloat.sub x mean)) 1 = true.

Definition is_reply (event : event_t) : bool :=
  match event with
  | PROBE_REPLY _ => true
  | _ => false
  end.

End Model.

(* ------------------------------------------------------------------ *)
(** ** A setting to run the handler in *)

(** IPv4 addresses as numbers, compared by difference, and -1 for the
    best-effort delay. *)
Definition ipv4 (a b c d : Z) : Z := ((a * 256 + b) * 256 + c) * 256 + d.

#[global] Instance ipv4_library : Library Z := {
  address_compare x y := x - y;
  DELAY_BEST_EFFORT := (-1)%float
}.

(** A framework with the given timeout, in which nothing fails. *)
Definition framework (timeout : double) : env_t :=
  {| options_network_get_timeout := timeout;
     ping_data_create_succeeds := true;
     fate := fun _ => send_succeeds;
     malloc_succeeds := true |}.

Definition skeleton (delay : double) : @probe_t Z :=
  {| probe_get_delay := delay;
     probe_get_sending_time := 0%float; probe_get_recv_time := 0%float;
     field_version := None; field_type := None; field_code := None;
     field_src_ip := None |}.

(** A probe sent at [sent] and its reply, received at [received] from
    [src] with the given version, type and code. *)
Definition reply_from (src version type code : Z) (sent received : double)
  : @probe_reply_t Z :=
  {| probe := {| probe_get_delay := 0%float;
                 probe_get_sending_time := sent; probe_get_recv_time := 0%float;
                 field_version := None; field_type := None; field_code := None;
                 field_src_ip := None |};
     reply := {| probe_get_delay := 0%float;
                 probe_get_sending_time := 0%float; probe_get_recv_time := received;
                 field_version := Some version; field_type := Some type;
                 field_code := Some code; field_src_ip := Some src |} |}.

Definition ping (options : @ping_options_t Z) (timeout delay : double)
    (events : list (@event_t Z)) :=
  run (framework timeout) [skeleton delay] 0 options events.

Definition raised_types (out : list (@effect Z)) : list ping_event_type_t :=
  map ping_event_type (raised out).

Definition destination : Z := ipv4 10 0 0 1.
Definition router : Z := ipv4 198 51 100 9.

(** Three probes, one second apart, within a timeout of three seconds. *)
Definition three_probes : @ping_options_t Z :=
  {| dst_addr := destination; interval := 1%float; count := 3 |}.

(** The data of an instance with one probe in flight. *)
Definition one_in_flight : ping_data_t :=
  {| num_replies := 0; num_losses := 0; num_probes_in_flight := 1;
     probes := Some [1%nat]; rtt_results := Some [] |}.

(** Two replies from the destination, after 0.25 s and 0.75 s, around a
    timeout. *)
Definition reply_timeout_reply : list (@event_t Z) :=
  [ALGORITHM_INIT;
   PROBE_REPLY (reply_from destination 4 0 0 1%float 1.25%float);
   PROBE_TIMEOUT (skeleton 0.5%float);
   PROBE_REPLY (reply_from destination 4 0 0 2%float 2.75%float)].

(** A single probe, answered by a router on the way with "time exceeded
    in transit". *)
Definition one_probe : @ping_options_t Z :=
  {| dst_addr := destination; interval := 1%float; count := 1 |}.

Definition ttl_exceeded_on_the_way : list (@event_t Z) :=
  [ALGORITHM_INIT;
   PROBE_REPLY (reply_from router 4 ICMP_TIMXCEED ICMP_TIMXCEED_INTRANS
                           1%float 1.25%float)].

(** Three probes, two seconds apart, within a timeout of one second. *)
Definition too_slow : @ping_options_t Z :=
  {| dst_addr := destination; interval := 2%float; count := 3 |}.

Definition final_data (r : option (@memory Z * ping_data_t * list (@effect Z)))
  : option ping_data_t :=
  (fun '(_, d, _) => d) <$> r.

Definition final_raised (r : option (@memory Z * ping_data_t * list (@effect Z)))
  : option (list ping_event_type_t) :=
  (fun '(_, _, out) => raised_types out) <$> r.

Definition redirect_reply : @probe_reply_t Z :=
  reply_from destination 4 ICMP_REDIRECT ICMP_REDIRECT_NET 1%float 1.25%float.

Definition next_header_reply : @probe_reply_t Z :=
  reply_from router 6 ICMP6_PARAM_PROB ICMP6_PARAMPROB_NEXTHEADER
             1%float 1.25%float.

(** Five probes, one second apart. *)
Definition five_probes : @ping_options_t Z :=
  {| dst_addr := destination; interval := 1%float; count := 5 |}.

(** A framework in which the third dispatch cannot push its clone. *)
Definition third_push_fails : env_t :=
  {| options_network_get_timeout := 3%float;
     ping_data_create_succeeds := true;
     fate := fun i => if i =? 3 then push_element_fails else send_succeeds;
     malloc_succeeds := true |}.

(** A framework in which [probe_dup] always fails. *)
Definition no_copy : env_t :=
  {| options_network_get_timeout := 3%float;
     ping_data_create_succeeds := true;
     fate := fun _ => probe_dup_fails;
     malloc_succeeds := true |}.

(** A framework in which nothing fails but the [malloc] of
    [ping_handler]. *)
Definition out_of_memory : env_t :=
  {| options_network_get_timeout := 3%float;
     ping_data_create_succeeds := true;
     fate := fun _ => send_succeeds;
     malloc_succeeds := false |}.

(** A skeleton to be sent as soon as possible. *)
Definition best_effort_skeleton : @probe_t Z := skeleton (-1)%float.

(** Five probes, with a negative interval. *)
Definition backwards : @ping_options_t Z :=
  {| dst_addr := destination; interval := (-1)%float; count := 5 |}.

(** Three probes, with no interval between them. *)
Definition no_interval : @ping_options_t Z :=
  {| dst_addr := destination; interval := 0%float; count := 3 |}.

(** The memory and the data after a first burst of three probes. *)
Definition after_the_burst : @memory Z :=
  [skeleton 0.5%float; skeleton 0.5%float; skeleton 1%float; skeleton 1.5%float].

Definition three_in_flight : ping_data_t :=
  {| num_replies := 0; num_losses := 0; num_probes_in_flight := 3;
     probes := Some [1; 2; 3]%nat; rtt_results := Some [] |}.

Definition first_reply : @event_t Z :=
  PROBE_REPLY (reply_from destination 4 0 0 1%float 1.25%float).

(** The replies to five probes, the same reply each time. *)
Definition five_replies : list (@event_t Z) :=
  [ALGORITHM_INIT; first_reply; first_reply; first_reply; first_reply;
   first_reply].

(* ================================================================== *)
(** * Part II. Properties *)

Section Properties.

Context {address_t : Type} {library : Library address_t}.

Ltac unfold_bind := unfold mbind, result_bind in *.

(** Closes a goal in which every dispatch succeeds and one has failed. *)
Ltac fate_contradiction :=
  match goal with
  | H : forall x, fate _ x = send_succeeds, E : fate _ _ = _ |- _ =>
      rewrite H in E; discriminate
  end.

(* ------------------------------------------------------------------ *)
(** ** What the dispatcher leaves alone *)

Lemma send_ping_probe_raises_nothing env mem d skel i ret mem' d' out :
  send_ping_probe env mem d skel i = Ok (ret, mem', d', out) ->
  raised out = [].
Proof.
  unfold send_ping_probe, probe_dup, load. unfold_bind.
  intros H. repeat case_match; simplify_eq; reflexivity.
Qed.

Lemma send_ping_probes_from_raises_nothing n : forall i env mem d skel ret mem' d' out,
  send_ping_probes_from n i env mem d skel = Ok (ret, mem', d', out) ->
  raised out = [].
Proof.
  induction n as [|n IH]; simpl; intros i env mem d skel ret mem' d' out H.
  - simplify_eq. reflexivity.
  - unfold_bind.
    destruct (send_ping_probe env mem d skel (i + 1)) as [[[[s m1] d1] o1]|] eqn:E1;
      [|discriminate].
    apply send_ping_probe_raises_nothing in E1.
    destruct s.
    + destruct (send_ping_probes_from n (i + 1) env m1 d1 skel)
        as [[[[s2 m2] d2] o2]|] eqn:E2; [|discriminate].
      apply IH in E2. simplify_eq.
      unfold raised in *. rewrite omap_app, E1, E2. reflexivity.
    + simplify_eq. assumption.
Qed.

Lemma send_ping_probe_quiet env mem d skel i ret mem' d' out :
  send_ping_probe env mem d skel i = Ok (ret, mem', d', out) ->
  marks out = [] /\ same_counters d d'.
Proof.
  unfold send_ping_probe, probe_dup, load, same_counters. unfold_bind.
  intros H. repeat case_match; simplify_eq; auto.
Qed.

Lemma send_ping_probes_from_quiet n : forall i env mem d skel ret mem' d' out,
  send_ping_probes_from n i env mem d skel = Ok (ret, mem', d', out) ->
  marks out = [] /\ same_counters d d'.
Proof.
  induction n as [|n IH]; simpl; intros i env mem d skel ret mem' d' out H.
  - simplify_eq. unfold same_counters. auto.
  - unfold_bind.
    destruct (send_ping_probe env mem d skel (i + 1)) as [[[[s m1] d1] o1]|] eqn:E1;
      [|discriminate].
    apply send_ping_probe_quiet in E1. destruct E1 as (M1 & C1).
    destruct s.
    + destruct (send_ping_probes_from n (i + 1) env m1 d1 skel)
        as [[[[s2 m2] d2] o2]|] eqn:E2; [|discriminate].
      apply IH in E2. destruct E2 as (M2 & C2). simplify_eq.
      unfold marks, same_counters in *. rewrite omap_app, M1, M2.
      intuition congruence.
    + simplify_eq. auto.
Qed.

(* ------------------------------------------------------------------ *)
(** ** What a reply raises *)

Lemma epilogue_raised env mem event skel opts d n out :
  exists tail,
    raised (effects_of (handler_epilogue env mem event skel opts (Some d) n out))
      = raised out ++ tail /\ closing tail.
Proof.
  assert (Hnothing : forall x,
    x = (if num_probes_in_flight d =? 0
         then Returned 0 mem (Some d)
                ((out ++ [pt_algorithm_throw event])
                 ++ [pt_raise_event all_probes_sent; pt_raise_terminated; event_free])
         else Returned 0 mem (Some d)
                ((out ++ [pt_algorithm_throw event])
                 ++ [pt_raise_event wait; event_free])) ->
    exists tail, raised (effects_of x) = raised out ++ tail /\ closing tail).
  { intros x ->. unfold closing, raised.
    destruct (num_probes_in_flight d =? 0); simpl; rewrite !omap_app; simpl;
      rewrite app_nil_r; eauto. }
  unfold handler_epilogue.
  destruct (0 <? n); [|apply Hnothing; reflexivity].
  destruct opts as [options|].
  - destruct (negb _); [|apply Hnothing; reflexivity].
    destruct (send_ping_probes env mem d skel n) as [[[[ret mem'] d'] out']|f] eqn:E.
    + apply send_ping_probes_from_raises_nothing in E.
      exists []. unfold closing, raised in *. simpl.
      rewrite !omap_app, E. simpl. rewrite !app_nil_r. auto.
    + exists []. unfold closing, raised. simpl.
      rewrite omap_app. simpl. auto.
  - exists []. unfold closing, raised. simpl. rewrite omap_app. simpl. auto.
Qed.

(** On a reply, an instance with its data and its options raises first the
    event chosen by the chain of tests. *)
Lemma reply_raised env mem probe_reply data skel options :
  raises_first env mem probe_reply data skel options
    (reply_event_type options (reply probe_reply)).
Proof.
  unfold raises_first, ping_loop_handler, handler_switch. cbv zeta.
  destruct (epilogue_raised env mem (PROBE_REPLY probe_reply) skel (Some options)
              (count_reply data) (one_more options (count_reply data))
              [pt_raise_event
                 (event_create (reply_event_type options (reply probe_reply))
                               (data_probe_reply probe_reply))])
    as (tail & E & C).
  exists tail. split; [|exact C]. rewrite E. reflexivity.
Qed.

Lemma closing_types (tail : list (@ping_event_t address_t)) type :
  closing tail -> In type (map ping_event_type tail) ->
  type = PING_ALL_PROBES_SENT \/ type = PING_WAIT.
Proof.
  intros [-> | [-> | ->]]; simpl; intuition.
Qed.

(** C1. A reply whose extracted [src_ip] compares equal to the configured
    destination makes the handler raise [PING_PROBE_REPLY], whatever the
    version, type and code fields of the reply are: the destination test
    comes first, and no event of the ICMP classification is raised. *)
Theorem destination_reached_raises_probe_reply
    env mem probe_reply data skel options discovered_addr :
  field_src_ip (reply probe_reply) = Some discovered_addr ->
  address_compare (dst_addr options) discovered_addr = 0 ->
  raises_first env mem probe_reply data skel options PING_PROBE_REPLY.
Proof.
  intros Hsrc Hcmp.
  pose proof (reply_raised env mem probe_reply data skel options) as H.
  unfold reply_event_type, destination_reached in H.
  rewrite Hsrc, Hcmp in H. exact H.
Qed.

(** C2. For a reply with version 4 that does not come from the
    destination, type [ICMP_UNREACH] with code [ICMP_UNREACH_HOST] raises
    [PING_DST_NET_UNREACHABLE], and type [ICMP_UNREACH] with code
    [ICMP_UNREACH_NET] raises [PING_DST_HOST_UNREACHABLE]. *)
Theorem ipv4_unreachable_mapping env mem probe_reply data skel options :
  destination_reached (dst_addr options) (reply probe_reply) = false ->
  probe_extract_uint8 (field_version (reply probe_reply)) = 4 ->
  probe_extract_uint8 (field_type (reply probe_reply)) = ICMP_UNREACH ->
  (probe_extract_uint8 (field_code (reply probe_reply)) = ICMP_UNREACH_HOST ->
     raises_first env mem probe_reply data skel options PING_DST_NET_UNREACHABLE)
  /\ (probe_extract_uint8 (field_code (reply probe_reply)) = ICMP_UNREACH_NET ->
     raises_first env mem probe_reply data skel options PING_DST_HOST_UNREACHABLE).
Proof.
  intros Hdst Hv Ht.
  pose proof (reply_raised env mem probe_reply data skel options) as H.
  unfold reply_event_type, destination_network_unreachable,
    destination_host_unreachable in H.
  rewrite Hdst, Hv, Ht in H.
  split; intros Hc; rewrite Hc in H; exact H.
Qed.

(** C3. For a reply whose version is not 4 and that does not come from
    the destination, type [ICMP6_PARAM_PROB] with code
    [ICMP6_PARAMPROB_NEXTHEADER] raises [PING_DST_PROT_UNREACHABLE], and
    [PING_PARAMETER_PROBLEM] is not among the events raised. *)
Theorem ipv6_next_header_is_protocol_unreachable
    env mem probe_reply data skel options :
  destination_reached (dst_addr options) (reply probe_reply) = false ->
  probe_extract_uint8 (field_version (reply probe_reply)) <> 4 ->
  probe_extract_uint8 (field_type (reply probe_reply)) = ICMP6_PARAM_PROB ->
  probe_extract_uint8 (field_code (reply probe_reply)) = ICMP6_PARAMPROB_NEXTHEADER ->
  raises_first env mem probe_reply data skel options PING_DST_PROT_UNREACHABLE
  /\ ~ In PING_PARAMETER_PROBLEM
         (map ping_event_type
            (raised (effects_of (ping_loop_handler env mem (PROBE_REPLY probe_reply)
                                   (Some data) skel (Some options))))).
Proof.
  intros Hdst Hv Ht Hc.
  pose proof (reply_raised env mem probe_reply data skel options) as H.
  unfold reply_event_type, destination_network_unreachable,
    destination_host_unreachable, destination_protocol_unreachable in H.
  apply Z.eqb_neq in Hv. rewrite Hdst, Ht, Hc, Hv in H. simpl in H.
  split; [exact H|].
  destruct H as (tail & -> & C). simpl. intros [E | HIn]; [discriminate|].
  destruct (closing_types _ _ C HIn); discriminate.
Qed.

(* ------------------------------------------------------------------ *)
(** ** Events the handler has no case for *)

(** C6. On an event whose type has no case in the [switch], the handler
    forwards the event to the caller and then reads
    [data->num_probes_in_flight] through the local pointer [data], which
    is still NULL: it does not come back. The claim that such an event is
    ignored, the handler returning without error, does not hold of the
    code. *)
Theorem unrecognized_event_dereferences_null env mem type pdata skel opts :
  ping_loop_handler env mem (OTHER_EVENT type) pdata skel opts
  = Crashed NullDereference [pt_algorithm_throw (OTHER_EVENT type)].
Proof. reflexivity. Qed.

(** The same read follows [ALGORITHM_TERMINATED], once the data is freed. *)
Lemma terminated_event_dereferences_null env mem pdata skel opts :
  ping_loop_handler env mem ALGORITHM_TERMINATED pdata skel opts
  = Crashed NullDereference [ping_data_free; pt_algorithm_throw ALGORITHM_TERMINATED].
Proof. reflexivity. Qed.

(* ------------------------------------------------------------------ *)
(** ** Statistics *)

(** C9. On the samples 0.25 and 0.75 (mean 0.5, both deviations 0.25),
    [compute_mean_deviation] returns 0, because [abs] truncates each
    deviation to an [int]; the mean deviation [Σ|xᵢ − mean| / n] is 0.25.
    The claim does not hold of the code. *)
Theorem mean_deviation_truncates :
  compute_mean [0.25; 0.75]%float = 0.5%float
  /\ compute_mean_deviation [0.25; 0.75]%float = Ok 0%float
  /\ mean_deviation_spec [0.25; 0.75]%float = 0.25%float.
Proof. repeat split; vm_compute; reflexivity. Qed.

(** C10. The statistics need a sample. On the empty array
    [compute_minimum] and [compute_maximum] read element 0, which does
    not exist, and [compute_mean] divides the sum 0 by the length 0, which
    yields a NaN; on an array with an element the first two return a
    value. [ping_dump_statistics] only tests [rtt_results] against NULL:
    with an empty array it goes on and reads element 0. *)
Theorem statistics_need_a_sample (ping_data : ping_data_t) :
  (forall array, array <> [] <-> exists m, compute_minimum array = Ok m)
  /\ (forall array, array <> [] <-> exists m, compute_maximum array = Ok m)
  /\ compute_minimum [] = Fault InvalidRead
  /\ compute_maximum [] = Fault InvalidRead
  /\ Z_to_double (Z.of_nat (length (@nil double))) = 0%float
  /\ compute_mean [] = PrimFloat.div 0 0
  /\ PrimFloat.is_nan (compute_mean []) = true
  /\ (rtt_results ping_data = None ->
      ping_dump_statistics ping_data = Ok statistics_error)
  /\ (rtt_results ping_data = Some [] ->
      ping_dump_statistics ping_data = Fault InvalidRead).
Proof.
  repeat split; try reflexivity.
  - destruct array; [congruence | eexists; reflexivity].
  - intros [m H] ->. discriminate.
  - destruct array; [congruence | eexists; reflexivity].
  - intros [m H] ->. discriminate.
  - unfold ping_dump_statistics. intros ->. reflexivity.
  - unfold ping_dump_statistics. intros ->. reflexivity.
Qed.

(* ------------------------------------------------------------------ *)
(** ** The delays of the clones *)

Lemma send_ping_probe_spec env mem d skel i s ps :
  mem !! skel = Some s ->
  probes d = Some ps ->
  send_ping_probe env mem d skel i =
  Ok (match fate env i with
      | probe_dup_fails => (false, mem, d, send_ping_probe_error)
      | push_element_fails =>
          (false, mem ++ [clone_of s i], d, send_ping_probe_error)
      | send_fails =>
          (false, mem ++ [clone_of s i],
           set_probes d (Some (ps ++ [length mem])), [pt_send_probe (length mem)])
      | send_succeeds =>
          (true, mem ++ [clone_of s i],
           set_probes d (Some (ps ++ [length mem])), [pt_send_probe (length mem)])
      end).
Proof.
  intros Hs Hps.
  assert (Hlt : (skel < length mem)%nat) by (eapply lookup_lt_Some; eassumption).
  assert (Hclone : (mem ++ [s]) !! length mem = Some s)
    by (rewrite lookup_app_r, Nat.sub_diag by lia; reflexivity).
  assert (Hskel : (mem ++ [s]) !! skel = Some s)
    by (rewrite lookup_app_l by lia; assumption).
  assert (Hins : forall v, <[length mem := v]> (mem ++ [s]) = mem ++ [v])
    by (intros v; rewrite insert_app_r_alt, Nat.sub_diag by lia; reflexivity).
  unfold send_ping_probe, probe_dup, load, clone_of, memory in *. unfold_bind.
  rewrite Hs.
  destruct (fate env i); cbv beta iota; try reflexivity;
    rewrite Hclone; cbv beta iota;
    (destruct (double_neq (probe_get_delay s) DELAY_BEST_EFFORT);
     [rewrite Hskel; cbv beta iota; rewrite Hins, Hps; reflexivity
     |rewrite Hps; reflexivity]).
Qed.

Lemma send_ping_probes_from_spec n : forall i env mem d skel s ps,
  mem !! skel = Some s ->
  probes d = Some ps ->
  exists ret mem' d' out c,
    send_ping_probes_from n i env mem d skel = Ok (ret, mem', d', out)
    /\ (c <= n)%nat
    /\ batch_leaves mem d ps s i c mem' d' out
    /\ ((forall x, fate env x = send_succeeds) -> ret = true /\ c = n).
Proof.
  induction n as [|n IH]; intros i env mem d skel s ps Hs Hps.
  - exists true, mem, d, [], 0%nat. simpl. unfold batch_leaves. simpl.
    rewrite app_nil_r. repeat split; auto; intros; lia.
  - simpl. rewrite (send_ping_probe_spec env mem d skel (i + 1) s ps Hs Hps).
    unfold_bind.
    assert (Hlt : (skel < length mem)%nat) by (eapply lookup_lt_Some; eassumption).
    destruct (fate env (i + 1)) eqn:Efate.
    + exists false, mem, d, send_ping_probe_error, 0%nat.
      unfold batch_leaves. simpl. rewrite app_nil_r.
      repeat split; auto; try (intros; lia); fate_contradiction.
    + exists false, (mem ++ [clone_of s (i + 1)]), d, send_ping_probe_error, 0%nat.
      unfold batch_leaves. simpl. rewrite app_nil_r.
      repeat split; auto; try (intros; lia); try fate_contradiction.
      intros a Ha. apply lookup_app_l; assumption.
    + exists false, (mem ++ [clone_of s (i + 1)]),
        (set_probes d (Some (ps ++ [length mem]))), [pt_send_probe (length mem)], 1%nat.
      unfold batch_leaves. simpl.
      repeat split; auto; try lia; try fate_contradiction.
      * intros a Ha. apply lookup_app_l; assumption.
      * intros j Hj. assert (j = 0%nat) as -> by lia.
        rewrite Nat.add_0_r, Z.add_0_r. unfold memory.
        rewrite lookup_app_r, Nat.sub_diag by lia. reflexivity.
    + set (mem1 := mem ++ [clone_of s (i + 1)]).
      set (d1 := set_probes d (Some (ps ++ [length mem]))).
      assert (Hs1 : mem1 !! skel = Some s)
        by (unfold mem1, memory in *; rewrite lookup_app_l by lia; assumption).
      assert (Hlen : length mem1 = S (length mem))
        by (unfold mem1; rewrite length_app; simpl; lia).
      destruct (IH (i + 1) env mem1 d1 skel s (ps ++ [length mem]) Hs1 eq_refl)
        as (ret & mem' & d' & out & c & E & Hc & L & Hall).
      cbv beta iota. rewrite E. cbv beta iota.
      exists ret, mem', d', ([pt_send_probe (length mem)] ++ out), (S c).
      destruct L as (Lold & Lnew & Lps & Lsent & L1 & L2 & L3 & L4).
      split; [reflexivity|]. split; [lia|]. split.
      * unfold batch_leaves. repeat split.
        -- intros a Ha. rewrite Lold by lia. apply lookup_app_l. assumption.
        -- intros [|j] Hj.
           ++ rewrite Nat.add_0_r, Z.add_0_r, Lold by lia.
              unfold mem1, memory. rewrite lookup_app_r, Nat.sub_diag by lia.
              reflexivity.
           ++ replace (length mem + S j)%nat with (length mem1 + j)%nat by lia.
              rewrite Lnew by lia. f_equal. f_equal. lia.
        -- rewrite Lps, Hlen, <- app_assoc. reflexivity.
        -- unfold sent in *. rewrite omap_app, Lsent, Hlen. reflexivity.
        -- rewrite L1. reflexivity.
        -- rewrite L2. reflexivity.
        -- rewrite L3. reflexivity.
        -- rewrite L4. reflexivity.
      * intros Hsucc. destruct (Hall Hsucc) as [-> ->]. auto.
Qed.

Lemma map_seq_ext {A} (f g : nat -> A) c : forall a b,
  (forall j, (j < c)%nat -> f (a + j)%nat = g (b + j)%nat) ->
  map f (seq a c) = map g (seq b c).
Proof.
  induction c as [|c IH]; intros a b H; simpl; [reflexivity|].
  f_equal.
  - specialize (H 0%nat). rewrite !Nat.add_0_r in H. apply H. lia.
  - apply IH. intros j Hj. specialize (H (S j)).
    rewrite !Nat.add_succ_r in H. apply H. lia.
Qed.

Lemma recorded_delays_of_batch (mem' : memory) (s : probe_t) (base c : nat) :
  double_neq (probe_get_delay s) DELAY_BEST_EFFORT = true ->
  (forall j, (j < c)%nat ->
     mem' !! (base + j)%nat = Some (clone_of s (0 + 1 + Z.of_nat j))) ->
  recorded_delays mem' (seq base c)
  = map (fun i => Some (PrimFloat.mul (Z_to_double (Z.of_nat i)) (probe_get_delay s)))
        (seq 1 c).
Proof.
  intros Hneq H. unfold recorded_delays. apply map_seq_ext.
  intros j Hj. rewrite H by lia. unfold clone_of. rewrite Hneq. simpl.
  do 3 f_equal. lia.
Qed.

(** C8. A batch of [num_probes] probes sent from a skeleton [s] whose
    delay differs from [DELAY_BEST_EFFORT] records clones whose delays
    are, in order, 1 × the delay of [s], 2 × the delay of [s], ...: the
    i-th clone (from 1) has the delay [i × probe_get_delay s]; the cell of
    the skeleton is left as it was. When no dispatch fails the batch
    records and sends [num_probes] clones; in particular 4 probes from a
    skeleton of delay 0.5 get the delays 0.5, 1, 1.5 and 2. *)
Theorem clones_are_staggered env mem d skel num_probes s ps :
  mem !! skel = Some s ->
  double_neq (probe_get_delay s) DELAY_BEST_EFFORT = true ->
  probes d = Some ps ->
  exists ret mem' d' out clones,
    send_ping_probes env mem d skel num_probes = Ok (ret, mem', d', out)
    /\ mem' !! skel = Some s
    /\ probes d' = Some (ps ++ clones)
    /\ (length clones <= Z.to_nat num_probes)%nat
    /\ recorded_delays mem' clones
       = map (fun i => Some (PrimFloat.mul (Z_to_double (Z.of_nat i))
                                           (probe_get_delay s)))
             (seq 1 (length clones))
    /\ ((forall i, fate env i = send_succeeds) ->
        ret = true /\ length clones = Z.to_nat num_probes /\ sent out = clones)
    /\ (probe_get_delay s = 0.5%float -> num_probes = 4 ->
        (forall i, fate env i = send_succeeds) ->
        recorded_delays mem' clones = [Some 0.5; Some 1; Some 1.5; Some 2]%float).
Proof.
  intros Hs Hneq Hps. unfold send_ping_probes.
  destruct (send_ping_probes_from_spec (Z.to_nat num_probes) 0 env mem d skel s ps
              Hs Hps)
    as (ret & mem' & d' & out & c & E & Hc & L & Hall).
  destruct L as (Lold & Lnew & Lps & Lsent & _).
  assert (Hlt : (skel < length mem)%nat) by (eapply lookup_lt_Some; eassumption).
  assert (Hdelays := recorded_delays_of_batch mem' s (length mem) c Hneq Lnew).
  exists ret, mem', d', out, (seq (length mem) c).
  rewrite length_seq.
  repeat split; auto.
  - rewrite Lold by lia. assumption.
  - apply Hall; assumption.
  - apply Hall; assumption.
  - intros Hhalf -> Hsucc. destruct (Hall Hsucc) as [_ ->].
    rewrite Hdelays, Hhalf. vm_compute. reflexivity.
Qed.

(* ------------------------------------------------------------------ *)
(** ** The first burst *)






Lemma MIN_is_min x y : MIN x y = Z.min x y.
Proof. unfold MIN. destruct (Z.ltb_spec x y); lia. Qed.

Lemma to_size_t_small z : 0 <= z < SIZE_MAX_plus_1 -> to_size_t z = z.
Proof. intros H. unfold to_size_t. apply Z.mod_small. exact H. Qed.



(* ------------------------------------------------------------------ *)
(** ** The life of an instance *)

(** The three ways out of the epilogue, for an instance with its data
    and its options. *)
Lemma epilogue_cases env mem event skel options d n out :
  let x := handler_epilogue env mem event skel (Some options) (Some d) n out in
  let out := out ++ [pt_algorithm_throw event] in
  (refills options d n = true
   /\ ((exists f, x = Crashed f out)
       \/ exists mem' d' sent,
            x = Returned 0 mem' (Some (add_probes_in_flight d' n))
                  (out ++ sent ++ [event_free])
            /\ raised sent = [] /\ marks sent = [] /\ same_counters d d'))
  \/ (refills options d n = false /\ num_probes_in_flight d = 0
      /\ x = Returned 0 mem (Some d)
               (out ++ [pt_raise_event all_probes_sent; pt_raise_terminated;
                        event_free]))
  \/ (refills options d n = false /\ num_probes_in_flight d <> 0
      /\ x = Returned 0 mem (Some d)
               (out ++ [pt_raise_event wait; event_free])).
Proof.
  cbv zeta. unfold handler_epilogue, refills.
  assert (Hnothing :
    (num_probes_in_flight d = 0
     /\ (if num_probes_in_flight d =? 0
         then Returned 0 mem (Some d)
                ((out ++ [pt_algorithm_throw event])
                 ++ [pt_raise_event (event_create PING_ALL_PROBES_SENT data_NULL);
                     pt_raise_terminated; event_free])
         else Returned 0 mem (Some d)
                ((out ++ [pt_algorithm_throw event])
                 ++ [pt_raise_event (event_create PING_WAIT data_NULL); event_free]))
        = Returned 0 mem (Some d)
            ((out ++ [pt_algorithm_throw event])
             ++ [pt_raise_event all_probes_sent; pt_raise_terminated; event_free]))
    \/ (num_probes_in_flight d <> 0
     /\ (if num_probes_in_flight d =? 0
         then Returned 0 mem (Some d)
                ((out ++ [pt_algorithm_throw event])
                 ++ [pt_raise_event (event_create PING_ALL_PROBES_SENT data_NULL);
                     pt_raise_terminated; event_free])
         else Returned 0 mem (Some d)
                ((out ++ [pt_algorithm_throw event])
                 ++ [pt_raise_event (event_create PING_WAIT data_NULL); event_free]))
        = Returned 0 mem (Some d)
            ((out ++ [pt_algorithm_throw event])
             ++ [pt_raise_event wait; event_free]))).
  { destruct (Z.eqb_spec (num_probes_in_flight d) 0); [left|right]; auto. }
  destruct (0 <? n); simpl andb.
  - destruct (negb _).
    + left. split; [reflexivity|].
      destruct (send_ping_probes env mem d skel n) as [[[[ret mem'] d'] sent']|f] eqn:E.
      * right. exists mem', d', sent'. split; [reflexivity|].
        pose proof (send_ping_probes_from_raises_nothing _ _ _ _ _ _ _ _ _ _ E).
        pose proof (send_ping_probes_from_quiet _ _ _ _ _ _ _ _ _ _ E).
        tauto.
      * left. eauto.
    + right. destruct Hnothing as [[H E] | [H E]]; [left|right]; auto.
  - right. destruct Hnothing as [[H E] | [H E]]; [left|right]; auto.
Qed.

Lemma deliver_counters env (out : list (@effect address_t)) : forall d d',
  deliver env out d = Ok d' ->
  num_replies d' = num_replies d
  /\ num_losses d' = num_losses d
  /\ num_probes_in_flight d' = num_probes_in_flight d.
Proof.
  unfold deliver. induction (raised out) as [|e evs IH]; simpl; intros d d' H.
  - simplify_eq. auto.
  - unfold_bind. destruct (ping_handler env e d) as [d1|] eqn:E; [|discriminate].
    apply IH in H.
    assert (num_replies d1 = num_replies d
            /\ num_losses d1 = num_losses d
            /\ num_probes_in_flight d1 = num_probes_in_flight d) as (? & ? & ?).
    { unfold ping_handler in E. unfold_bind.
      repeat case_match; simplify_eq; auto. }
    intuition congruence.
Qed.

Lemma marks_app (a b : list (@effect address_t)) :
  marks (a ++ b) = marks a ++ marks b.
Proof. apply omap_app. Qed.

Lemma raised_app (a b : list (@effect address_t)) :
  raised (a ++ b) = raised a ++ raised b.
Proof. apply omap_app. Qed.

Lemma reply_event_is_an_outcome options r (d : @event_data_t address_t) :
  is_all_probes_sent (event_create (reply_event_type options r) d) = false.
Proof.
  unfold reply_event_type, is_all_probes_sent. simpl.
  repeat match goal with
         | |- context [if ?b then _ else _] => destruct b
         end; reflexivity.
Qed.

Lemma to_size_t_range z : in_size_t (to_size_t z).
Proof.
  unfold in_size_t, to_size_t, SIZE_MAX_plus_1. apply Z.mod_pos_bound. lia.
Qed.

Lemma one_more_cases (options : @ping_options_t address_t) d :
  one_more options d = 0 \/ one_more options d = 1.
Proof. unfold one_more. destruct (_ >? 0); auto. Qed.

Lemma init_marks env mem mem' pdata skel options d out :
  ping_loop_handler env mem ALGORITHM_INIT pdata skel (Some options)
    = Returned 0 mem' (Some d) out ->
  in_size_t (num_probes_in_flight d)
  /\ marks out = marked d
  /\ raised out = (if num_probes_in_flight d =? 0 then [all_probes_sent] else []).
Proof.
  unfold ping_loop_handler, handler_switch, ping_data_create.
  destruct (ping_data_create_succeeds env); [|discriminate].
  destruct (double_to_int _) as [q|]; [|discriminate].
  set (n := MIN (to_size_t q) (count options)).
  set (d0 := {| num_replies := 0; num_losses := 0; num_probes_in_flight := 0;
                probes := Some []; rtt_results := Some [] |}).
  destruct (epilogue_cases env mem ALGORITHM_INIT skel options d0 n [])
    as [(R & [(f & ->) | (m1 & d1 & sent1 & -> & Rs & M & C)])
       | [(R & F & ->) | (R & F & ->)]]; try discriminate.
  - intros [= <- <- <-]. unfold marked. simpl.
    destruct C as (_ & _ & -> & _). simpl.
    assert (Hn : 0 < n < SIZE_MAX_plus_1).
    { unfold refills in R. apply andb_true_iff in R. destruct R as [R _].
      apply Z.ltb_lt in R. split; [exact R|].
      pose proof (to_size_t_range q) as Hq. unfold in_size_t in Hq.
      assert (n <= to_size_t q) by (unfold n; rewrite MIN_is_min; lia).
      lia. }
    unfold size_add. rewrite Z.add_0_l, to_size_t_small by lia.
    split; [unfold in_size_t; lia|].
    rewrite !marks_app, !raised_app, M, Rs. simpl.
    destruct (Z.eqb_spec n 0); [lia|split; reflexivity].
  - intros [= <- <- <-]. unfold marked, in_size_t, SIZE_MAX_plus_1. simpl.
    split; [lia|split; reflexivity].
  - exfalso. apply F. reflexivity.
Qed.

Lemma event_marks env mem mem' event skel options d d1 out :
  expects_outcome event = true ->
  in_size_t (num_probes_in_flight d) ->
  num_probes_in_flight d <> 0 ->
  ping_loop_handler env mem event (Some d) skel (Some options)
    = Returned 0 mem' (Some d1) out ->
  in_size_t (num_probes_in_flight d1) /\ marks out = marked d1.
Proof.
  intros Hev Hrange Hflight.
  assert (Hswitch : exists outcome,
            is_all_probes_sent outcome = false
            /\ handler_switch env event (Some d) (Some options)
               = Break (Some (counted event d)) (Some (counted event d))
                       (one_more options (counted event d))
                       [pt_raise_event outcome]).
  { destruct event; try discriminate; simpl; eexists; (split; [|reflexivity]).
    - apply reply_event_is_an_outcome.
    - reflexivity. }
  destruct Hswitch as (outcome & Hout & Hswitch).
  unfold ping_loop_handler. rewrite Hswitch.
  assert (Hcounted : num_probes_in_flight (counted event d)
                     = num_probes_in_flight d - 1).
  { unfold in_size_t in Hrange.
    destruct event; simpl; unfold size_sub; apply to_size_t_small; lia. }
  destruct (epilogue_cases env mem event skel options (counted event d)
              (one_more options (counted event d)) [pt_raise_event outcome])
    as [(R & [(f & ->) | (m1 & d2 & sent1 & -> & _ & M & C)])
       | [(R & F & ->) | (R & F & ->)]]; try discriminate.
  - intros [= <- <- <-]. unfold marked. simpl.
    destruct C as (_ & _ & -> & _). rewrite Hcounted.
    assert (Hone : one_more options (counted event d) = 1).
    { unfold refills in R. apply andb_true_iff in R. destruct R as [R _].
      apply Z.ltb_lt in R.
      destruct (one_more_cases options (counted event d)); lia. }
    rewrite Hone. unfold size_add, in_size_t in *.
    replace (num_probes_in_flight d - 1 + 1) with (num_probes_in_flight d) by lia.
    rewrite to_size_t_small by lia.
    split; [lia|].
    rewrite !marks_app, M. simpl. rewrite Hout. simpl.
    destruct (Z.eqb_spec (num_probes_in_flight d) 0); [lia|reflexivity].
  - intros [= <- <- <-]. unfold marked. rewrite F. simpl.
    split; [unfold in_size_t, SIZE_MAX_plus_1; lia|].
    rewrite Hout. reflexivity.
  - intros [= <- <- <-]. unfold marked.
    split; [rewrite Hcounted; unfold in_size_t in *; lia|].
    destruct (Z.eqb_spec (num_probes_in_flight (counted event d)) 0); [lia|].
    simpl. rewrite Hout. reflexivity.
Qed.

Lemma running_marks skel options events mem d out :
  running skel options events mem d out ->
  in_size_t (num_probes_in_flight d) /\ marks out = marked d.
Proof.
  induction 1 as [env mem mem' pdata d d' out Hh Hd
                 |env events event mem mem' d d1 d2 out out' Hrun IH Hev Hfl Hh Hd].
  - apply init_marks in Hh. apply deliver_counters in Hd.
    destruct Hd as (_ & _ & Hd). destruct Hh as (Hr & Hm & _).
    unfold marked in *. rewrite Hd. auto.
  - destruct IH as (Hrange & Hmarks).
    apply (event_marks _ _ _ _ _ _ _ _ _ Hev Hrange Hfl) in Hh.
    apply deliver_counters in Hd. destruct Hd as (_ & _ & Hd).
    unfold marked in *. rewrite Hd, marks_app, Hmarks.
    destruct (Z.eqb_spec (num_probes_in_flight d) 0); [contradiction|].
    exact Hh.
Qed.

Lemma event_raised env mem event skel options d :
  expects_outcome event = true ->
  exists outcome,
    raised (effects_of (ping_loop_handler env mem event (Some d) skel (Some options)))
    = outcome :: (if refills options (counted event d)
                       (one_more options (counted event d))
                  then []
                  else if num_probes_in_flight (counted event d) =? 0
                       then [all_probes_sent]
                       else [wait])
    /\ is_all_probes_sent outcome = false.
Proof.
  intros Hev.
  assert (Hswitch : exists outcome,
            is_all_probes_sent outcome = false
            /\ handler_switch env event (Some d) (Some options)
               = Break (Some (counted event d)) (Some (counted event d))
                       (one_more options (counted event d))
                       [pt_raise_event outcome]).
  { destruct event; try discriminate; simpl; eexists; (split; [|reflexivity]).
    - apply reply_event_is_an_outcome.
    - reflexivity. }
  destruct Hswitch as (outcome & Hout & Hswitch).
  exists outcome. split; [|exact Hout].
  unfold ping_loop_handler. rewrite Hswitch.
  destruct (epilogue_cases env mem event skel options (counted event d)
              (one_more options (counted event d)) [pt_raise_event outcome])
    as [(R & [(f & ->) | (m1 & d2 & sent1 & -> & Rs & _ & _)])
       | [(R & F & ->) | (R & F & ->)]]; rewrite R; simpl effects_of;
    repeat rewrite raised_app; simpl.
  - reflexivity.
  - rewrite raised_app, Rs. reflexivity.
  - rewrite F. reflexivity.
  - destruct (Z.eqb_spec (num_probes_in_flight (counted event d)) 0);
      [contradiction|reflexivity].
Qed.

Lemma running_starts skel options events mem d out :
  running skel options events mem d out ->
  exists rest, events = ALGORITHM_INIT :: rest.
Proof.
  induction 1 as [|? ? ? ? ? ? ? ? ? ? ? (rest & ->)].
  - exists []. reflexivity.
  - eexists. reflexivity.
Qed.


(* ------------------------------------------------------------------ *)
(** ** The round-trip times stored *)

Lemma count_events_app f (a b : list (@event_t address_t)) :
  count_events f (a ++ b) = count_events f a + count_events f b.
Proof.
  unfold count_events. rewrite List.filter_app, length_app. lia.
Qed.

(** What [ping_handler] does with the event raised for a reply: it
    stores the round-trip time when the reply is from the destination,
    unless its [malloc] fails, and stores nothing otherwise. *)
Lemma ping_handler_reply env options pr d rtt :
  rtt_results d = Some rtt ->
  ping_handler env (event_create (reply_event_type options (reply pr))
                                 (data_probe_reply pr)) d
  = if destination_reached (dst_addr options) (reply pr)
    then if malloc_succeeds env
         then Ok (set_rtt_results d
                    (Some (rtt ++ samples_of options (PROBE_REPLY pr))))
         else Fault NullDereference
    else Ok d.
Proof.
  intros Hrtt. unfold ping_handler, reply_event_type, samples_of. simpl.
  destruct (destination_reached (dst_addr options) (reply pr)).
  - unfold_bind. simpl. rewrite Hrtt. reflexivity.
  - repeat match goal with
           | |- context [if ?b then _ else _] => destruct b
           end; reflexivity.
Qed.

Lemma ping_handler_reply_rtt env options pr d d' rtt :
  rtt_results d = Some rtt ->
  ping_handler env (event_create (reply_event_type options (reply pr))
                                 (data_probe_reply pr)) d = Ok d' ->
  rtt_results d' = Some (rtt ++ samples_of options (PROBE_REPLY pr)).
Proof.
  intros Hrtt. rewrite (ping_handler_reply env options pr d rtt Hrtt).
  unfold samples_of.
  destruct (destination_reached (dst_addr options) (reply pr)).
  - destruct (malloc_succeeds env); [|discriminate].
    intros H. injection H as <-. reflexivity.
  - intros H. injection H as <-. rewrite app_nil_r. exact Hrtt.
Qed.

Lemma deliver_closing env (tail : list (@ping_event_t address_t)) d :
  tail = [] \/ tail = [all_probes_sent] \/ tail = [wait] ->
  deliver_events env tail d = Ok d.
Proof. intros [-> | [-> | ->]]; reflexivity. Qed.

Lemma event_counts env mem mem' event skel options d d1 d2 out rtt :
  expects_outcome event = true ->
  ping_loop_handler env mem event (Some d) skel (Some options)
    = Returned 0 mem' (Some d1) out ->
  deliver env out d1 = Ok d2 ->
  rtt_results d = Some rtt ->
  num_replies d2 = size_add (num_replies d) 1
  /\ num_losses d2 = (if is_timeout event then size_add (num_losses d) 1
                      else num_losses d)
  /\ rtt_results d2 = Some (rtt ++ samples_of options event).
Proof.
  intros Hev Hh Hd Hrtt.
  assert (Hswitch : exists outcome,
            handler_switch env event (Some d) (Some options)
            = Break (Some (counted event d)) (Some (counted event d))
                    (one_more options (counted event d))
                    [pt_raise_event outcome]
            /\ forall d1 d', rtt_results d1 = Some rtt ->
                 ping_handler env outcome d1 = Ok d' ->
                 rtt_results d' = Some (rtt ++ samples_of options event)).
  { destruct event; try discriminate; simpl; eexists; (split; [reflexivity|]).
    - intros d0 d' H0. apply ping_handler_reply_rtt. exact H0.
    - intros d0 d' H0 H. injection H as <-. rewrite app_nil_r. auto. }
  destruct Hswitch as (outcome & Hswitch & Hhandler).
  assert (Hcounted : num_replies (counted event d) = size_add (num_replies d) 1
            /\ num_losses (counted event d)
               = (if is_timeout event then size_add (num_losses d) 1
                  else num_losses d)
            /\ rtt_results (counted event d) = rtt_results d).
  { destruct event; try discriminate; simpl; auto. }
  destruct Hcounted as (C1 & C2 & C3).
  unfold ping_loop_handler in Hh. rewrite Hswitch in Hh.
  assert (Hshape : exists tail,
            raised out = outcome :: tail
            /\ (tail = [] \/ tail = [all_probes_sent] \/ tail = [wait])
            /\ num_replies d1 = num_replies (counted event d)
            /\ num_losses d1 = num_losses (counted event d)
            /\ rtt_results d1 = rtt_results (counted event d)).
  { destruct (epilogue_cases env mem event skel options (counted event d)
                (one_more options (counted event d)) [pt_raise_event outcome])
      as [(R & [(f & E) | (m1 & d3 & sent1 & E & Rs & _ & S1 & S2 & _ & S4)])
         | [(R & F & E) | (R & F & E)]];
      rewrite E in Hh; try discriminate; injection Hh as <- <- <-.
    - exists []. change (raised (pt_raise_event outcome :: pt_algorithm_throw event
                                  :: sent1 ++ [event_free]))
        with (outcome :: raised (sent1 ++ [event_free])).
      rewrite raised_app, Rs. simpl. auto.
    - exists [all_probes_sent]. simpl. auto 10.
    - exists [wait]. simpl. auto 10. }
  destruct Hshape as (tail & Hraised & Htail & S1 & S2 & S4).
  unfold deliver in Hd. rewrite Hraised in Hd. simpl in Hd. unfold_bind.
  destruct (ping_handler env outcome d1) as [d'|] eqn:Hd'; [|discriminate].
  assert (Hrtt' : rtt_results d' = Some (rtt ++ samples_of options event))
    by (apply (Hhandler d1 d'); congruence).
  rewrite (deliver_closing _ _ _ Htail) in Hd. injection Hd as <-.
  assert (num_replies d' = num_replies d1 /\ num_losses d' = num_losses d1)
    as (? & ?).
  { assert (Hdel : deliver env [pt_raise_event outcome] d1 = Ok d')
      by (unfold deliver; simpl; unfold_bind; rewrite Hd'; reflexivity).
    apply deliver_counters in Hdel. tauto. }
  repeat split; congruence.
Qed.

Lemma init_counts env mem mem' pdata skel options d d' out :
  ping_loop_handler env mem ALGORITHM_INIT pdata skel (Some options)
    = Returned 0 mem' (Some d) out ->
  deliver env out d = Ok d' ->
  num_replies d' = 0 /\ num_losses d' = 0 /\ rtt_results d' = Some [].
Proof.
  intros Hh Hd. pose proof (init_marks _ _ _ _ _ _ _ _ Hh) as (_ & _ & Hraised).
  assert (d' = d) as ->.
  { unfold deliver in Hd. rewrite Hraised in Hd.
    destruct (_ =? 0); simpl in Hd; congruence. }
  revert Hh. unfold ping_loop_handler, handler_switch, ping_data_create.
  destruct (ping_data_create_succeeds env); [|discriminate].
  destruct (double_to_int _) as [q|]; [|discriminate].
  set (d0 := {| num_replies := 0; num_losses := 0; num_probes_in_flight := 0;
                probes := Some []; rtt_results := Some [] |}).
  destruct (epilogue_cases env mem ALGORITHM_INIT skel options d0
              (MIN (to_size_t q) (count options)) [])
    as [(R & [(f & ->) | (m1 & d1 & sent1 & -> & _ & _ & S1 & S2 & _ & S4)])
       | [(R & F & ->) | (R & F & ->)]]; try discriminate;
    intros [= <- <- <-]; simpl; auto.
Qed.

Lemma size_add_count z : size_add (to_size_t z) 1 = to_size_t (z + 1).
Proof.
  unfold size_add, to_size_t, SIZE_MAX_plus_1.
  rewrite Zplus_mod_idemp_l. reflexivity.
Qed.

(** Every event but the first is a reply from the destination, a reply
    from elsewhere or a timeout. *)
Lemma samples_count options events :
  Z.of_nat (length (flat_map (samples_of options) events))
  = count_events expects_outcome events
    - count_events is_timeout events
    - count_events (is_error_reply options) events.
Proof.
  unfold count_events.
  induction events as [|event events IH]; simpl; [reflexivity|].
  rewrite length_app.
  destruct event as [|pr|p| | |t]; simpl; try lia.
  destruct (destination_reached (dst_addr options) (reply pr)); simpl; lia.
Qed.

Lemma count_events_bound f (events : list (@event_t address_t)) :
  0 <= count_events f events <= Z.of_nat (length events).
Proof.
  unfold count_events. pose proof (List.filter_length_le f events). lia.
Qed.

(** C5, as the code has it. Over the events delivered to an instance,
    once the events raised have reached [ping_handler], [rtt_results]
    holds the delays of the replies that came from the destination, in
    order: one sample for each such reply, none for a timeout and none
    for a reply that came from elsewhere. [num_replies] counts the
    replies and the timeouts, [num_losses] the timeouts; so the number of
    samples is [num_replies - num_losses] less the number of replies that
    did not come from the destination. *)
Theorem rtt_samples_are_destination_replies skel options events mem d out :
  running skel options events mem d out ->
  rtt_results d = Some (flat_map (samples_of options) events)
  /\ num_replies d = to_size_t (count_events expects_outcome events)
  /\ num_losses d = to_size_t (count_events is_timeout events)
  /\ (Z.of_nat (length events) < SIZE_MAX_plus_1 ->
      Z.of_nat (length (flat_map (samples_of options) events))
      = num_replies d - num_losses d
        - count_events (is_error_reply options) events).
Proof.
  intros Hrun.
  assert (H : rtt_results d = Some (flat_map (samples_of options) events)
              /\ num_replies d = to_size_t (count_events expects_outcome events)
              /\ num_losses d = to_size_t (count_events is_timeout events)).
  { induction Hrun as [env mem mem' pdata d d' out Hh Hd
                      |env events event mem mem' d d1 d2 out out' Hrun IH Hev Hfl Hh Hd].
    - destruct (init_counts _ _ _ _ _ _ _ _ _ Hh Hd) as (-> & -> & ->).
      repeat split; reflexivity.
    - destruct IH as (Irtt & Irep & Ilos).
      destruct (event_counts _ _ _ _ _ _ _ _ _ _ _ Hev Hh Hd Irtt) as (-> & -> & ->).
      rewrite List.flat_map_app, !count_events_app. simpl. rewrite app_nil_r.
      rewrite Irep, Ilos, size_add_count.
      assert (E1 : count_events expects_outcome [event] = 1)
        by (unfold count_events; simpl; rewrite Hev; reflexivity).
      assert (E2 : count_events is_timeout [event]
                   = if is_timeout event then 1 else 0)
        by (unfold count_events; simpl; destruct (is_timeout event); reflexivity).
      rewrite E1, E2. repeat split; try reflexivity.
      destruct (is_timeout event).
      + rewrite size_add_count. reflexivity.
      + rewrite Z.add_0_r. reflexivity. }
  destruct H as (Hrtt & Hrep & Hlos). repeat split; try assumption.
  intros Hlen. rewrite Hrep, Hlos, !to_size_t_small.
  - apply samples_count.
  - pose proof (count_events_bound is_timeout events). lia.
  - pose proof (count_events_bound expects_outcome events). lia.
Qed.

(* ------------------------------------------------------------------ *)
(** ** Running an instance on a list of events *)

Lemma invoke_inv env mem event pdata skel options mem' d out :
  invoke env mem event pdata skel options = Some (mem', d, out) ->
  exists d1,
    ping_loop_handler env mem event pdata skel (Some options)
      = Returned 0 mem' (Some d1) out
    /\ deliver env out d1 = Ok d.
Proof.
  unfold invoke.
  destruct (ping_loop_handler _ _ _ _ _ _) as [code m [d1|] o|]; try discriminate;
    destruct code; try discriminate.
  destruct (deliver env o d1) eqn:E; [|discriminate].
  intros [= <- <- <-]. eauto.
Qed.

Lemma run_events_running env skel options events :
  forall before mem d out mem' d' out',
    running skel options before mem d out ->
    run_events env skel options events mem d out = Some (mem', d', out') ->
    running skel options (before ++ events) mem' d' out'.
Proof.
  induction events as [|event events IH]; simpl;
    intros before mem d out mem' d' out' Hrun H.
  - injection H as <- <- <-. rewrite app_nil_r. exact Hrun.
  - destruct (expects_outcome event) eqn:Hev; [|discriminate].
    destruct (Z.eqb_spec (num_probes_in_flight d) 0) as [|Hfl]; [discriminate|].
    simpl in H.
    destruct (invoke env mem event (Some d) skel options) as [[[m1 d1] o1]|] eqn:E;
      [|discriminate].
    apply invoke_inv in E. destruct E as (d0 & Hh & Hd).
    replace (before ++ event :: events) with ((before ++ [event]) ++ events)
      by (rewrite <- app_assoc; reflexivity).
    eapply IH; [|exact H].
    eapply running_next; eassumption.
Qed.

Lemma run_running env mem skel options events mem' d out :
  run env mem skel options events = Some (mem', d, out) ->
  running skel options events mem' d out.
Proof.
  unfold run. destruct events as [|[] events]; try discriminate.
  destruct (invoke env mem ALGORITHM_INIT None skel options)
    as [[[m1 d1] o1]|] eqn:E; [|discriminate].
  apply invoke_inv in E. destruct E as (d0 & Hh & Hd).
  apply (run_events_running env skel options events [ALGORITHM_INIT]).
  eapply running_init; eassumption.
Qed.

(* ------------------------------------------------------------------ *)
(** ** What a dispatch allocates *)

Lemma copy_of_refl (s : @probe_t address_t) : copy_of s s.
Proof. destruct s. reflexivity. Qed.

Lemma copy_of_clone (s : @probe_t address_t) i : copy_of s (clone_of s i).
Proof.
  unfold clone_of. destruct (double_neq _ _); [reflexivity|apply copy_of_refl].
Qed.

Lemma clones_from_S (s : @probe_t address_t) i k :
  clones_from s i (S k) = clone_of s (i + 1) :: clones_from s (i + 1) k.
Proof.
  unfold clones_from. simpl. rewrite Z.add_0_r. f_equal.
  rewrite <- seq_shift, map_map. apply map_ext. intros j. f_equal. lia.
Qed.

Lemma clones_from_copies (s : @probe_t address_t) i k :
  Forall (copy_of s) (clones_from s i k).
Proof.
  revert i. induction k as [|k IH]; intros i; [constructor|].
  rewrite clones_from_S. constructor; [apply copy_of_clone|apply IH].
Qed.

(** A dispatch that returns has read the skeleton; unless the copy
    failed, it has also found the dynarray of the probes. *)
Lemma send_ping_probe_inv env mem d skel i r :
  send_ping_probe env mem d skel i = Ok r ->
  exists s, mem !! skel = Some s
    /\ ((fate env i = probe_dup_fails /\ r = (false, mem, d, send_ping_probe_error))
        \/ exists ps, probes d = Some ps).
Proof.
  unfold send_ping_probe, probe_dup, load, memory in *. unfold_bind.
  destruct (mem !! skel) as [s|] eqn:Hs; [|discriminate].
  intros H. exists s. split; [reflexivity|].
  destruct (fate env i) eqn:Ef.
  - left. split; [reflexivity|]. simpl in H. congruence.
  - right. destruct (probes d) as [ps|]; [eauto|].
    exfalso. repeat case_match; simplify_eq.
  - right. destruct (probes d) as [ps|]; [eauto|].
    exfalso. repeat case_match; simplify_eq.
  - right. destruct (probes d) as [ps|]; [eauto|].
    exfalso. repeat case_match; simplify_eq.
Qed.

(** What a batch that returns has done, whatever fails in it: the memory
    has grown by the copies of the skeleton of the first indices, at
    most one more than the clones recorded; the clones recorded are the probes handed to the framework,
    at fresh addresses; the event is not freed and no error is raised. *)
Lemma send_ping_probes_from_allocates n : forall i env mem d skel ret mem' d' out,
  send_ping_probes_from n i env mem d skel = Ok (ret, mem', d', out) ->
  exists fresh,
    mem' = mem ++ fresh
    /\ (forall s, mem !! skel = Some s -> fresh = clones_from s i (length fresh))
    /\ (length fresh <= n)%nat
    /\ (exists c, sent out = seq (length mem) c /\ (c <= length fresh)%nat)
    /\ (forall ps, probes d = Some ps -> probes d' = Some (ps ++ sent out))
    /\ (probes d = None -> probes d' = None /\ sent out = [])
    /\ count_effects is_event_free out = 0%nat
    /\ count_effects is_raise_error out = 0%nat
    /\ thrown out = []
    /\ ((forall x, fate env x = send_succeeds) -> length (sent out) = n).
Proof.
  induction n as [|n IH]; simpl; intros i env mem d skel ret mem' d' out H.
  - injection H as <- <- <- <-. exists []. rewrite app_nil_r.
    repeat split; auto.
    + exists 0%nat. auto.
    + intros ps ->. rewrite app_nil_r. reflexivity.
  - unfold_bind.
    destruct (send_ping_probe env mem d skel (i + 1)) as [r|] eqn:E1;
      [|discriminate].
    destruct (send_ping_probe_inv _ _ _ _ _ _ E1) as (s & Hs & Hcase).
    assert (Hskel : forall s', mem !! skel = Some s' -> s' = s) by congruence.
    destruct Hcase as [(Ef & ->) | (ps & Hps)].
    + injection H as <- <- <- <-. exists []. rewrite app_nil_r.
      repeat split; auto.
      * simpl; lia.
      * exists 0%nat. auto.
      * intros ps ->. rewrite app_nil_r. reflexivity.
      * intros Hall. rewrite Hall in Ef. discriminate.
    + rewrite (send_ping_probe_spec env mem d skel (i + 1) s ps Hs Hps) in E1.
      injection E1 as <-.
      assert (Hlt : (skel < length mem)%nat) by (eapply lookup_lt_Some; eassumption).
      destruct (fate env (i + 1)) eqn:Ef.
      * injection H as <- <- <- <-. exists []. rewrite app_nil_r.
        repeat split; auto; try congruence;
          try (intros Hall; rewrite Hall in Ef; discriminate).
        -- simpl; lia.
        -- exists 0%nat. auto.
        -- intros ? ->. rewrite app_nil_r. reflexivity.
      * injection H as <- <- <- <-. exists [clone_of s (i + 1)].
        repeat split; auto; try congruence;
          try (intros Hall; rewrite Hall in Ef; discriminate).
        -- intros s' Hs'. rewrite (Hskel s' Hs'). simpl length.
           rewrite clones_from_S. reflexivity.
        -- simpl; lia.
        -- exists 0%nat. simpl. split; [reflexivity|lia].
        -- intros ? ->. rewrite app_nil_r. reflexivity.
      * injection H as <- <- <- <-. exists [clone_of s (i + 1)].
        repeat split; auto; try congruence;
          try (intros Hall; rewrite Hall in Ef; discriminate).
        -- intros s' Hs'. rewrite (Hskel s' Hs'). simpl length.
           rewrite clones_from_S. reflexivity.
        -- simpl; lia.
        -- exists 1%nat. simpl. split; [reflexivity|lia].
        -- intros ps' Hps'. simpl. congruence.
      * cbv beta iota in H.
        set (mem1 := mem ++ [clone_of s (i + 1)]) in *.
        set (d1 := set_probes d (Some (ps ++ [length mem]))) in *.
        destruct (send_ping_probes_from n (i + 1) env mem1 d1 skel)
          as [[[[r2 m2] d2] o2]|] eqn:E2; [|discriminate].
        injection H as <- <- <- <-.
        destruct (IH _ _ _ _ _ _ _ _ _ E2)
          as (fresh & -> & Hcopies & Hn & (c & Hsent & Hc) & Hprobes & _
              & Hfree & Herr & Hthrown & Hall).
        assert (Hs1 : mem1 !! skel = Some s)
          by (unfold mem1, memory in *; rewrite lookup_app_l by lia; assumption).
        assert (Hlen : length mem1 = S (length mem))
          by (unfold mem1; rewrite length_app; simpl; lia).
        exists (clone_of s (i + 1) :: fresh).
        assert (Hsent' : sent ([pt_send_probe (length mem)] ++ o2)
                         = seq (length mem) (S c)).
        { unfold sent in *. rewrite omap_app, Hsent, Hlen. reflexivity. }
        repeat split.
        -- unfold mem1. rewrite <- app_assoc. reflexivity.
        -- intros s' Hs'. rewrite (Hskel s' Hs'). simpl length.
           rewrite clones_from_S. f_equal. apply Hcopies. exact Hs1.
        -- simpl; lia.
        -- exists (S c). split; [exact Hsent'|simpl; lia].
        -- intros ps' Hps'. assert (ps' = ps) as -> by congruence.
           rewrite (Hprobes (ps ++ [length mem]) eq_refl).
           change (sent ([pt_send_probe (length mem)] ++ o2))
             with (length mem :: sent o2).
           rewrite <- app_assoc. reflexivity.
        -- congruence.
        -- congruence.
        -- unfold count_effects in *. simpl. exact Hfree.
        -- unfold count_effects in *. simpl. exact Herr.
        -- exact Hthrown.
        -- intros Hok. change (sent ([pt_send_probe (length mem)] ++ o2))
             with (length mem :: sent o2). simpl. f_equal. apply Hall, Hok.
Qed.

(* ------------------------------------------------------------------ *)
(** ** The return paths of the handler *)

Lemma sent_app (a b : list (@effect address_t)) :
  sent (a ++ b) = sent a ++ sent b.
Proof. apply omap_app. Qed.

Lemma count_effects_app f (a b : list (@effect address_t)) :
  count_effects f (a ++ b) = (count_effects f a + count_effects f b)%nat.
Proof. unfold count_effects. rewrite List.filter_app, length_app. reflexivity. Qed.

(** What the [switch] leaves: when it breaks with the data of the
    instance, what it has done is at most one event raised; when it goes
    to [FAILURE], at most a message and [errno]. *)
Lemma handler_switch_cases env event pdata opts :
  match handler_switch env event pdata opts with
  | Break data pdata' n out =>
      fails env event opts = false
      /\ sent out = [] /\ count_effects is_event_free out = 0%nat
      /\ count_effects is_raise_error out = 0%nat
      /\ (length (raised out) <= 1)%nat
      /\ (data = None \/ data = pdata')
  | FAILURE out =>
      fails env event opts = true
      /\ sent out = [] /\ raised out = []
      /\ count_effects is_event_free out = 0%nat
      /\ count_effects is_raise_error out = 0%nat
  | SwitchFault _ _ => True
  end.
Proof.
  unfold handler_switch, fails, ping_data_create.
  destruct event; repeat case_match; simplify_eq; simpl; auto 10.
Qed.

(** Every way the handler returns: from [FAILURE], or after the [switch]
    has set the data of the instance, with nothing to send or after a
    batch. *)
Lemma handler_returns env mem event pdata skel opts code mem' pdata' out :
  ping_loop_handler env mem event pdata skel opts
    = Returned code mem' pdata' out ->
  (fails env event opts = true /\ code = EINVAL /\ mem' = mem /\ pdata' = pdata
   /\ exists pre, out = pre ++ [event_free; pt_raise_error]
        /\ handler_switch env event pdata opts = FAILURE pre
        /\ sent pre = [] /\ raised pre = []
        /\ count_effects is_event_free pre = 0%nat
        /\ count_effects is_raise_error pre = 0%nat)
  \/ (fails env event opts = false /\ code = 0
      /\ exists d n pre,
           handler_switch env event pdata opts = Break (Some d) (Some d) n pre
           /\ sent pre = [] /\ count_effects is_event_free pre = 0%nat
           /\ count_effects is_raise_error pre = 0%nat
           /\ ((mem' = mem /\ pdata' = Some d
                /\ (n <= 0
                    \/ exists options,
                         opts = Some options
                         /\ size_add (num_replies d) (num_probes_in_flight d)
                            = to_size_t (count options))
                /\ ((num_probes_in_flight d = 0
                     /\ out = pre ++ [pt_algorithm_throw event]
                                 ++ [pt_raise_event all_probes_sent;
                                     pt_raise_terminated; event_free])
                    \/ (num_probes_in_flight d <> 0
                        /\ out = pre ++ [pt_algorithm_throw event]
                                    ++ [pt_raise_event wait; event_free])))
               \/ (0 < n
                   /\ exists options r d2 o,
                        opts = Some options
                        /\ size_add (num_replies d) (num_probes_in_flight d)
                           <> to_size_t (count options)
                        /\ send_ping_probes env mem d skel n = Ok (r, mem', d2, o)
                        /\ pdata' = Some (add_probes_in_flight d2 n)
                        /\ out = pre ++ [pt_algorithm_throw event]
                                   ++ o ++ [event_free]))).
Proof.
  unfold ping_loop_handler.
  pose proof (handler_switch_cases env event pdata opts) as Hsw.
  destruct (handler_switch env event pdata opts) as [data pd n pre|pre|f pre];
    [| |discriminate].
  - destruct Hsw as (Hf & Hsent & Hfree & Herr & _ & Hdata).
    intros H. right. split; [exact Hf|].
    unfold handler_epilogue in H.
    destruct data as [d|]; [|discriminate].
    destruct Hdata as [|<-]; [discriminate|].
    assert (Hquiet :
      (n <= 0
       \/ exists options,
            opts = Some options
            /\ size_add (num_replies d) (num_probes_in_flight d)
               = to_size_t (count options)) ->
      (if num_probes_in_flight d =? 0
       then Returned 0 mem (Some d)
              ((pre ++ [pt_algorithm_throw event])
               ++ [pt_raise_event (event_create PING_ALL_PROBES_SENT data_NULL);
                   pt_raise_terminated; event_free])
       else Returned 0 mem (Some d)
              ((pre ++ [pt_algorithm_throw event])
               ++ [pt_raise_event (event_create PING_WAIT data_NULL); event_free]))
      = Returned code mem' pdata' out ->
      code = 0 /\ exists d0 n0 pre0,
        Break (Some d) (Some d) n pre = Break (Some d0) (Some d0) n0 pre0
        /\ sent pre0 = [] /\ count_effects is_event_free pre0 = 0%nat
        /\ count_effects is_raise_error pre0 = 0%nat
        /\ ((mem' = mem /\ pdata' = Some d0
             /\ (n0 <= 0
                 \/ exists options,
                      opts = Some options
                      /\ size_add (num_replies d0) (num_probes_in_flight d0)
                         = to_size_t (count options))
             /\ ((num_probes_in_flight d0 = 0
                  /\ out = pre0 ++ [pt_algorithm_throw event]
                               ++ [pt_raise_event all_probes_sent;
                                   pt_raise_terminated; event_free])
                 \/ (num_probes_in_flight d0 <> 0
                     /\ out = pre0 ++ [pt_algorithm_throw event]
                                  ++ [pt_raise_event wait; event_free])))
            \/ (0 < n0
                /\ exists options r d2 o,
                     opts = Some options
                     /\ size_add (num_replies d0) (num_probes_in_flight d0)
                        <> to_size_t (count options)
                     /\ send_ping_probes env mem d0 skel n0 = Ok (r, mem', d2, o)
                     /\ pdata' = Some (add_probes_in_flight d2 n0)
                     /\ out = pre0 ++ [pt_algorithm_throw event]
                                ++ o ++ [event_free]))).
    { intros Hno Hq. destruct (Z.eqb_spec (num_probes_in_flight d) 0) as [Hz|Hz];
        injection Hq as <- <- <- <-; (split; [reflexivity|]);
        exists d, n, pre; rewrite <- !app_assoc;
        (split; [reflexivity|]); (split; [exact Hsent|]);
        (split; [exact Hfree|]); (split; [exact Herr|]);
        left; (split; [reflexivity|]); (split; [reflexivity|]);
        (split; [exact Hno|]); [left|right]; split; auto. }
    destruct (Z.ltb_spec 0 n) as [Hn|Hn]; [|apply Hquiet; [left; lia|exact H]].
    destruct opts as [options|]; [|discriminate].
    destruct (Z.eqb_spec (size_add (num_replies d) (num_probes_in_flight d))
                         (to_size_t (count options))) as [Hsum|Hsum];
      [apply Hquiet; [right; eauto|exact H]|].
    simpl in H.
    destruct (send_ping_probes env mem d skel n) as [[[[r m2] d2] o]|] eqn:Eb;
      [|discriminate].
    injection H as <- <- <- <-. split; [reflexivity|].
    exists d, n, pre. repeat split; auto.
    right. split; [lia|]. exists options, r, d2, o. rewrite <- !app_assoc. auto.
  - destruct Hsw as (Hf & Hsent & Hraised & Hfree & Herr).
    intros H. injection H as <- <- <- <-. left.
    repeat split; auto. exists pre. repeat split; auto.
Qed.

(** X1. The handler never writes to a probe that exists: it leaves every
    cell of the memory as it is, the skeleton among them; what it adds
    are the copies of the skeleton made by one batch, whose indices start
    at 1 again, and the probes it hands to the framework are among them. *)
Theorem handler_only_allocates env mem event pdata skel opts :
  match ping_loop_handler env mem event pdata skel opts with
  | Returned _ mem' _ out =>
      exists fresh,
        mem' = mem ++ fresh
        /\ (forall s, mem !! skel = Some s ->
              fresh = clones_from s 0 (length fresh))
        /\ exists c, sent out = seq (length mem) c /\ (c <= length fresh)%nat
  | Crashed _ _ => True
  end.
Proof.
  destruct (ping_loop_handler env mem event pdata skel opts)
    as [code mem' pdata' out|] eqn:E; [|exact I].
  apply handler_returns in E.
  destruct E as [(_ & _ & -> & _ & pre & -> & _ & Hs & _)
                |(_ & _ & d & n & pre & _ & Hs & _ & _ & Hcase)].
  - exists []. rewrite app_nil_r, sent_app, Hs. repeat split; auto.
    exists 0%nat. auto.
  - destruct Hcase as [(-> & _ & _ & Hout)
                      |(_ & options & r & d2 & o & _ & _ & Hb & _ & ->)].
    + exists []. rewrite app_nil_r. repeat split; auto.
      exists 0%nat. destruct Hout as [(_ & ->) | (_ & ->)];
        rewrite sent_app, Hs; auto.
    + apply send_ping_probes_from_allocates in Hb.
      destruct Hb as (fresh & -> & Hcopies & _ & (c & Hsent & Hc) & _).
      exists fresh. repeat split; auto.
      exists c. rewrite !sent_app, Hs, Hsent. simpl. rewrite app_nil_r. auto.
Qed.

(** X2. Every return path of the handler frees the event, once. It
    returns [EINVAL] from [FAILURE], which is reached for
    [ALGORITHM_ERROR] and for an [ALGORITHM_INIT] without options or whose
    data cannot be created, and then it has raised the error after
    freeing the event, changed neither the memory nor [*pdata], raised
    no event and sent no probe. It returns 0 otherwise, has raised no
    error, and the event is freed last. *)
Theorem handler_return_paths env mem event pdata skel opts :
  match ping_loop_handler env mem event pdata skel opts with
  | Returned code mem' pdata' out =>
      count_effects is_event_free out = 1%nat
      /\ (if fails env event opts
          then code = EINVAL /\ mem' = mem /\ pdata' = pdata
               /\ raised out = [] /\ sent out = []
               /\ exists pre, out = pre ++ [event_free; pt_raise_error]
          else code = 0 /\ count_effects is_raise_error out = 0%nat
               /\ exists pre, out = pre ++ [event_free])
  | Crashed _ _ => True
  end.
Proof.
  destruct (ping_loop_handler env mem event pdata skel opts)
    as [code mem' pdata' out|] eqn:E; [|exact I].
  apply handler_returns in E.
  destruct E as [(-> & -> & -> & -> & pre & -> & _ & Hs & Hr & Hf & He)
                |(-> & -> & d & n & pre & _ & Hs & Hf & He & Hcase)].
  - rewrite count_effects_app, Hf, raised_app, sent_app, Hr, Hs.
    repeat split; eauto.
  - destruct Hcase as [(-> & _ & _ & [(_ & ->) | (_ & ->)])
                      |(_ & options & r & d2 & o & _ & _ & Hb & _ & ->)].
    + rewrite !count_effects_app, Hf, He. repeat split; auto.
      exists (pre ++ [pt_algorithm_throw event; pt_raise_event all_probes_sent;
                      pt_raise_terminated]).
      rewrite <- app_assoc. reflexivity.
    + rewrite !count_effects_app, Hf, He. repeat split; auto.
      exists (pre ++ [pt_algorithm_throw event; pt_raise_event wait]).
      rewrite <- app_assoc. reflexivity.
    + apply send_ping_probes_from_allocates in Hb.
      destruct Hb as (_ & _ & _ & _ & _ & _ & _ & Hof & Hoe & _).
      rewrite !count_effects_app, Hf, He, Hof, Hoe. repeat split; auto.
      exists (pre ++ [pt_algorithm_throw event] ++ o).
      rewrite <- !app_assoc. reflexivity.
Qed.

(* ------------------------------------------------------------------ *)
(** ** One invocation, unfolded *)

Lemma thrown_app (a b : list (@effect address_t)) :
  thrown (a ++ b) = thrown a ++ thrown b.
Proof. apply omap_app. Qed.

Lemma outcomes_app (a b : list (@effect address_t)) :
  outcomes (a ++ b) = outcomes a ++ outcomes b.
Proof. unfold outcomes. rewrite raised_app. apply List.filter_app. Qed.

Lemma deliver_probes env (out : list (@effect address_t)) : forall d d',
  deliver env out d = Ok d' -> probes d' = probes d.
Proof.
  unfold deliver. induction (raised out) as [|e evs IH]; simpl; intros d d' H.
  - simplify_eq. auto.
  - unfold_bind. destruct (ping_handler env e d) as [d1|] eqn:E; [|discriminate].
    apply IH in H. rewrite H.
    unfold ping_handler in E. unfold_bind.
    repeat case_match; simplify_eq; auto.
Qed.

(** A batch of at least one probe that returns. *)
Lemma batch_facts env mem d skel n r mem' d2 o :
  0 < n ->
  send_ping_probes env mem d skel n = Ok (r, mem', d2, o) ->
  exists s fresh c,
    mem !! skel = Some s
    /\ mem' = mem ++ fresh
    /\ fresh = clones_from s 0 (length fresh)
    /\ sent o = seq (length mem) c
    /\ (c <= length fresh)%nat
    /\ Z.of_nat (length fresh) <= n
    /\ (forall ps, probes d = Some ps -> probes d2 = Some (ps ++ sent o))
    /\ same_counters d d2
    /\ raised o = [] /\ thrown o = []
    /\ ((forall x, fate env x = send_succeeds) -> Z.of_nat c = n).
Proof.
  intros Hn H. unfold send_ping_probes in H.
  assert (exists s, mem !! skel = Some s) as (s & Hs).
  { destruct (Z.to_nat n) as [|k] eqn:Ek; [lia|].
    simpl in H. unfold_bind.
    destruct (send_ping_probe env mem d skel (0 + 1)) as [x|] eqn:E1;
      [|discriminate].
    apply send_ping_probe_inv in E1 as (s & Hs & _). eauto. }
  pose proof (send_ping_probes_from_quiet _ _ _ _ _ _ _ _ _ _ H) as (_ & Hsame).
  pose proof (send_ping_probes_from_raises_nothing _ _ _ _ _ _ _ _ _ _ H) as Hr.
  apply send_ping_probes_from_allocates in H.
  destruct H as (fresh & -> & Hfresh & Hlen & (c & Hsent & Hc) & Hps & _ & _ & _
                 & Hthrown & Hall).
  exists s, fresh, c. repeat split; auto; try apply Hsame; try lia.
  intros Hok. apply Hall in Hok. rewrite Hsent, length_seq in Hok. lia.
Qed.

(** [ALGORITHM_INIT], when the handler returns 0. *)
Lemma init_step env mem pdata skel options mem' d out :
  ping_loop_handler env mem ALGORITHM_INIT pdata skel (Some options)
    = Returned 0 mem' (Some d) out ->
  exists q,
    let n := MIN (to_size_t q) (count options) in
    (mem' = mem /\ d = initial_data
     /\ (n <= 0 \/ to_size_t (count options) = 0)
     /\ out = [pt_algorithm_throw ALGORITHM_INIT; pt_raise_event all_probes_sent;
               pt_raise_terminated; event_free])
    \/ (0 < n /\ to_size_t (count options) <> 0
        /\ exists r d2 o,
             send_ping_probes env mem initial_data skel n = Ok (r, mem', d2, o)
             /\ d = add_probes_in_flight d2 n
             /\ out = [pt_algorithm_throw ALGORITHM_INIT] ++ o ++ [event_free]).
Proof.
  intros H. apply handler_returns in H.
  destruct H as [(_ & H & _)|(_ & _ & d0 & n & pre & Hsw & _ & _ & _ & Hcase)];
    [discriminate|].
  assert (exists q, d0 = initial_data /\ n = MIN (to_size_t q) (count options)
                    /\ pre = []) as (q & -> & -> & ->).
  { unfold handler_switch, ping_data_create in Hsw.
    destruct (ping_data_create_succeeds env); [|discriminate].
    destruct (double_to_int _) as [q|]; [|discriminate].
    exists q. inversion Hsw. auto. }
  exists q. cbv zeta.
  change (size_add (num_replies initial_data) (num_probes_in_flight initial_data))
    with 0 in Hcase.
  destruct Hcase as [(-> & Hd & Hno & Hout)
                    |(Hn & o' & r & d2 & o & Ho & Hsum & Hb & Hd & ->)].
  - left. injection Hd as ->. repeat split; auto.
    + destruct Hno as [|(o' & Ho & Hsum)]; [auto|].
      injection Ho as <-. auto.
    + destruct Hout as [(_ & ->)|(Hz & _)]; [reflexivity|].
      exfalso. apply Hz. reflexivity.
  - right. injection Ho as <-. injection Hd as ->.
    repeat split; auto. exists r, d2, o. auto.
Qed.

(** A reply or a timeout, when the handler returns 0. *)
Lemma outcome_step env mem event d skel options mem' d1 out :
  expects_outcome event = true ->
  ping_loop_handler env mem event (Some d) skel (Some options)
    = Returned 0 mem' (Some d1) out ->
  exists ev,
    outcome_of options event = Some ev
    /\ is_closing ev = false
    /\ let dc := counted event d in
       (mem' = mem /\ d1 = dc
        /\ (one_more options dc = 0
            \/ size_add (num_replies dc) (num_probes_in_flight dc)
               = to_size_t (count options))
        /\ ((num_probes_in_flight dc = 0
             /\ out = [pt_raise_event ev; pt_algorithm_throw event;
                       pt_raise_event all_probes_sent; pt_raise_terminated;
                       event_free])
            \/ (num_probes_in_flight dc <> 0
                /\ out = [pt_raise_event ev; pt_algorithm_throw event;
                          pt_raise_event wait; event_free])))
       \/ (one_more options dc = 1
           /\ size_add (num_replies dc) (num_probes_in_flight dc)
              <> to_size_t (count options)
           /\ exists r d2 o,
                send_ping_probes env mem dc skel 1 = Ok (r, mem', d2, o)
                /\ d1 = add_probes_in_flight d2 1
                /\ out = [pt_raise_event ev; pt_algorithm_throw event]
                           ++ o ++ [event_free]).
Proof.
  intros He H. apply handler_returns in H.
  destruct H as [(_ & H & _)|(_ & _ & d0 & n & pre & Hsw & _ & _ & _ & Hcase)];
    [discriminate|].
  assert (exists ev, outcome_of options event = Some ev
                     /\ is_closing ev = false
                     /\ d0 = counted event d
                     /\ n = one_more options (counted event d)
                     /\ pre = [pt_raise_event ev])
    as (ev & Hev & Hcl & -> & -> & ->).
  { destruct event; try discriminate He; simpl in Hsw;
      inversion Hsw; eexists; (repeat split; try reflexivity).
    unfold is_closing, reply_event_type. simpl.
    repeat match goal with
           | |- context [if ?b then _ else _] => destruct b
           end; reflexivity. }
  exists ev. split; [exact Hev|]. split; [exact Hcl|]. cbv zeta.
  destruct (one_more_cases options (counted event d)) as [H1|H1].
  - left. destruct Hcase as [(-> & Hd & Hno & Hout)|(Hn & _)]; [|lia].
    injection Hd as ->. repeat split; auto.
  - destruct Hcase as [(-> & Hd & Hno & Hout)
                      |(Hn & o' & r & d2 & o & Ho & Hsum & Hb & Hd & ->)].
    + left. injection Hd as ->. repeat split; auto.
      destruct Hno as [|(o' & Ho & Hsum)]; [lia|].
      injection Ho as <-. auto.
    + right. injection Ho as <-. injection Hd as ->. rewrite H1 in *.
      repeat split; auto. exists r, d2, o. auto.
Qed.

(* ------------------------------------------------------------------ *)
(** ** The probes of an instance *)

Lemma recorded_clone_grows skel (mem fresh : @memory address_t) p :
  recorded_clone skel mem p -> recorded_clone skel (mem ++ fresh) p.
Proof.
  intros ((H1 & H2) & s & c & Hs & Hc & Hcopy). split.
  - rewrite length_app. lia.
  - exists s, c. unfold memory in *. rewrite !lookup_app_l by lia. auto.
Qed.

Lemma records_batch env mem d skel n r mem' d2 o old :
  0 < n ->
  send_ping_probes env mem d skel n = Ok (r, mem', d2, o) ->
  probes d = Some old ->
  NoDup old ->
  Forall (recorded_clone skel mem) old ->
  probes d2 = Some (old ++ sent o)
  /\ NoDup (old ++ sent o)
  /\ Forall (recorded_clone skel mem') (old ++ sent o).
Proof.
  intros Hn Hb Hold Hnd Hall.
  destruct (batch_facts _ _ _ _ _ _ _ _ _ Hn Hb)
    as (s & fresh & c & Hs & -> & Hfresh & Hsent & Hc & _ & Hps & _).
  split; [auto|]. rewrite Hsent.
  assert (Hlt : (skel < length mem)%nat) by (eapply lookup_lt_Some; eassumption).
  split.
  - apply NoDup_app. split; [exact Hnd|]. split; [|apply NoDup_seq].
    intros p Hp Hq. apply elem_of_seq in Hq.
    rewrite Forall_forall in Hall. destruct (Hall p Hp) as ((_ & ?) & _). lia.
  - apply Forall_app. split.
    + eapply Forall_impl; [exact Hall|]. intros p. apply recorded_clone_grows.
    + apply Forall_forall. intros p Hp. apply elem_of_seq in Hp.
      split; [rewrite length_app; lia|].
      destruct (lookup_lt_is_Some_2 fresh (p - length mem)) as (c0 & Hc0); [lia|].
      exists s, c0. unfold memory in *.
      split; [rewrite lookup_app_l by lia; exact Hs|].
      split; [rewrite lookup_app_r by lia; exact Hc0|].
      apply (Forall_lookup_1 _ fresh (p - length mem)); [|exact Hc0].
      rewrite Hfresh. apply clones_from_copies.
Qed.

Lemma counted_probes (event : @event_t address_t) d :
  probes (counted event d) = probes d.
Proof. destruct event; reflexivity. Qed.

Lemma running_records skel options events mem d out :
  running skel options events mem d out ->
  probes d = Some (sent out)
  /\ NoDup (sent out)
  /\ Forall (recorded_clone skel mem) (sent out).
Proof.
  induction 1 as [env mem mem' pdata data data' out Hh Hd
                 |env events event mem mem' data data1 data2 out out'
                    Hrun IH He Hf Hh Hd].
  - rewrite (deliver_probes _ _ _ _ Hd).
    apply init_step in Hh. destruct Hh as (q & Hcase). cbv zeta in Hcase.
    destruct Hcase as [(-> & -> & _ & ->)
                      |(Hn & _ & r & d2 & o & Hb & -> & ->)].
    + simpl. repeat split; constructor.
    + rewrite !sent_app. simpl. rewrite app_nil_r.
      apply (records_batch _ _ _ _ _ _ _ _ _ [] Hn Hb);
        [reflexivity|constructor|constructor].
  - destruct IH as (Hp & Hnd & Hall).
    rewrite (deliver_probes _ _ _ _ Hd).
    apply outcome_step in Hh; [|exact He].
    destruct Hh as (ev & _ & _ & Hcase). cbv zeta in Hcase.
    destruct Hcase as [(-> & -> & _ & Hout)
                      |(_ & _ & r & d2 & o & Hb & -> & ->)].
    + assert (sent out' = []) as Hs
        by (destruct Hout as [(_ & ->)|(_ & ->)]; reflexivity).
      rewrite sent_app, Hs, app_nil_r, counted_probes. auto.
    + rewrite !sent_app. simpl. rewrite app_nil_r.
      apply (records_batch env mem (counted event data) skel 1 r mem' d2 o);
        [lia|exact Hb|rewrite counted_probes; exact Hp|exact Hnd|exact Hall].
Qed.

(** X3. Every probe that an instance has handed to the framework is
    recorded in [probes], in the order of the calls and whatever failed
    on the way; it is stored once, at an address of its own that is not
    the one of the skeleton, and is a copy of the skeleton but for its
    delay. *)
Theorem probes_sent_are_recorded skel options events mem d out :
  running skel options events mem d out ->
  probes d = Some (sent out)
  /\ NoDup (sent out)
  /\ Forall (recorded_clone skel mem) (sent out).
Proof. apply running_records. Qed.

(* ------------------------------------------------------------------ *)
(** ** The budget of an instance *)

Lemma budget_init env mem pdata skel options mem' d d' out :
  0 <= count options < SIZE_MAX_plus_1 ->
  ping_loop_handler env mem ALGORITHM_INIT pdata skel (Some options)
    = Returned 0 mem' (Some d) out ->
  deliver env out d = Ok d' ->
  within_budget options d' out
  /\ num_replies d' = 0
  /\ ((forall x, fate env x = send_succeeds) ->
      Z.of_nat (length (sent out)) = num_replies d' + num_probes_in_flight d').
Proof.
  intros Hcount Hh Hd. unfold within_budget.
  destruct (deliver_counters _ _ _ _ Hd) as (-> & -> & ->).
  apply init_step in Hh. destruct Hh as (q & Hcase). cbv zeta in Hcase.
  destruct Hcase as [(-> & -> & _ & ->)
                    |(Hn & _ & r & d2 & o & Hb & -> & ->)].
  - simpl. lia.
  - destruct (batch_facts _ _ _ _ _ _ _ _ _ Hn Hb)
      as (s & fresh & c & _ & _ & _ & Hsent & Hc & Hlen & _
          & (Hr & Hl & Hf & _) & _ & _ & Hall).
    rewrite !sent_app. simpl. rewrite app_nil_r, Hsent, length_seq.
    rewrite Hr, Hl, Hf. simpl. unfold size_add.
    pose proof (to_size_t_range q) as Hq. unfold in_size_t in Hq.
    rewrite MIN_is_min in *.
    rewrite Z.add_0_l, to_size_t_small by lia.
    repeat split; try lia. intros Hok. apply Hall in Hok. lia.
Qed.

Lemma counted_counters (event : @event_t address_t) d :
  0 <= num_losses d <= num_replies d ->
  1 <= num_probes_in_flight d ->
  num_replies d + 1 < SIZE_MAX_plus_1 ->
  num_probes_in_flight d < SIZE_MAX_plus_1 ->
  num_replies (counted event d) = num_replies d + 1
  /\ num_probes_in_flight (counted event d) = num_probes_in_flight d - 1
  /\ 0 <= num_losses (counted event d) <= num_replies d + 1.
Proof.
  intros Hl Hf Hr Hf'.
  assert (size_add (num_replies d) 1 = num_replies d + 1) as Er
    by (apply to_size_t_small; lia).
  assert (size_sub (num_probes_in_flight d) 1 = num_probes_in_flight d - 1) as Ef
    by (apply to_size_t_small; lia).
  assert (size_add (num_losses d) 1 = num_losses d + 1) as El
    by (apply to_size_t_small; lia).
  destruct event; simpl; rewrite ?Er, ?Ef, ?El; lia.
Qed.

Lemma budget_step env mem event skel options d out mem' d1 d2 out' :
  0 <= count options < SIZE_MAX_plus_1 ->
  within_budget options d out ->
  expects_outcome event = true ->
  num_probes_in_flight d <> 0 ->
  ping_loop_handler env mem event (Some d) skel (Some options)
    = Returned 0 mem' (Some d1) out' ->
  deliver env out' d1 = Ok d2 ->
  within_budget options d2 (out ++ out')
  /\ num_replies d2 = num_replies d + 1
  /\ ((forall x, fate env x = send_succeeds) ->
      Z.of_nat (length (sent out)) = num_replies d + num_probes_in_flight d ->
      Z.of_nat (length (sent (out ++ out')))
      = num_replies d2 + num_probes_in_flight d2).
Proof.
  intros Hcount (Hs & Hsum & Hf0 & Hl0) He Hf Hh Hd. unfold within_budget.
  destruct (deliver_counters _ _ _ _ Hd) as (-> & -> & ->).
  destruct (counted_counters event d) as (Er & Ef & El); try lia.
  apply outcome_step in Hh; [|exact He].
  destruct Hh as (ev & _ & _ & Hcase). cbv zeta in Hcase.
  rewrite sent_app, length_app.
  destruct Hcase as [(-> & -> & _ & Hout)
                    |(_ & Hne & r & d3 & o & Hb & -> & ->)].
  - assert (sent out' = []) as ->
      by (destruct Hout as [(_ & ->)|(_ & ->)]; reflexivity).
    rewrite Er, Ef. simpl. repeat split; lia.
  - destruct (batch_facts env mem (counted event d) skel 1 r mem' d3 o)
      as (s & fresh & c & _ & _ & _ & Hsent & Hc & Hlen & _
          & (Hr & Hl & Hfl & _) & _ & _ & Hall); [lia|exact Hb|].
    rewrite !sent_app. simpl. rewrite app_nil_r, Hsent, length_seq.
    rewrite Hr, Hl, Hfl, Er, Ef.
    unfold size_add in Hne. rewrite Er, Ef in Hne.
    rewrite !to_size_t_small in Hne by lia.
    unfold size_add. rewrite to_size_t_small by lia.
    repeat split; try lia. intros Hok Heq. apply Hall in Hok. lia.
Qed.

Lemma running_budget skel options events mem d out :
  0 <= count options < SIZE_MAX_plus_1 ->
  running skel options events mem d out ->
  within_budget options d out
  /\ num_replies d = Z.of_nat (length events) - 1.
Proof.
  intros Hcount.
  induction 1 as [env mem mem' pdata data data' out Hh Hd
                 |env events event mem mem' data data1 data2 out out'
                    Hrun IH He Hf Hh Hd].
  - destruct (budget_init _ _ _ _ _ _ _ _ _ Hcount Hh Hd) as (Hb & -> & _).
    split; [exact Hb|reflexivity].
  - destruct IH as (Hb & Hr).
    destruct (budget_step _ _ _ _ _ _ _ _ _ _ _ Hcount Hb He Hf Hh Hd)
      as (Hb' & -> & _).
    split; [exact Hb'|]. rewrite length_app. simpl. lia.
Qed.

(** X4. An instance keeps within its budget. With a [count] that fits
    [size_t], the probes handed to the framework are never more than the
    probes counted (answered or in flight), which are never more than
    [count]; the losses are among the replies; and [num_replies] is the
    number of replies and timeouts handled, so that no more than [count]
    of them are. *)
Theorem probe_budget_is_kept skel options events mem d out :
  0 <= count options < SIZE_MAX_plus_1 ->
  running skel options events mem d out ->
  Z.of_nat (length (sent out)) <= num_replies d + num_probes_in_flight d
  /\ num_replies d + num_probes_in_flight d <= count options
  /\ 0 <= num_probes_in_flight d
  /\ 0 <= num_losses d <= num_replies d
  /\ num_replies d = Z.of_nat (length events) - 1.
Proof.
  intros Hcount Hrun.
  destruct (running_budget _ _ _ _ _ _ Hcount Hrun) as ((H1 & H2 & H3 & H4) & H5).
  auto.
Qed.

Lemma to_int_small z : 0 <= z <= INT_MAX -> to_int z = z.
Proof.
  unfold to_int, INT_MAX. intros H.
  rewrite Z.mod_small by lia. lia.
Qed.

Lemma running_ends_at_count skel options events mem d out :
  0 <= count options <= INT_MAX ->
  running skel options events mem d out ->
  (1 < length events)%nat ->
  num_probes_in_flight d = 0 ->
  num_replies d = count options
  /\ Z.of_nat (length events) = count options + 1.
Proof.
  intros Hcount Hrun Hlen Hzero.
  assert (Hsize : 0 <= count options < SIZE_MAX_plus_1)
    by (unfold INT_MAX, SIZE_MAX_plus_1 in *; lia).
  pose proof (running_budget _ _ _ _ _ _ Hsize Hrun) as (_ & Hreplies).
  cut (num_replies d = count options); [lia|].
  destruct Hrun as [env mem mem' pdata data data' out Hh Hd
                   |env events event mem mem' data data1 data2 out out'
                      Hrun He Hf Hh Hd].
  - simpl in Hlen. lia.
  - destruct (running_budget _ _ _ _ _ _ Hsize Hrun)
      as ((Hs & Hsum & Hf0 & Hl0) & _).
    destruct (deliver_counters _ _ _ _ Hd) as (Hr2 & _ & Hf2).
    rewrite Hf2 in Hzero. rewrite Hr2. clear Hreplies.
    destruct (counted_counters event data) as (Er & Ef & El); try lia.
    apply outcome_step in Hh; [|exact He].
    destruct Hh as (ev & _ & _ & Hcase). cbv zeta in Hcase.
    destruct Hcase as [(-> & -> & Hno & _)
                      |(_ & Hne & r & d3 & o & Hb & -> & ->)].
    + rewrite Er. rewrite Ef in Hzero.
      destruct Hno as [Hone|Hfull].
      * unfold one_more in Hone.
        destruct (Z.gtb_spec
                    (to_int (size_sub (count options)
                                      (num_replies (counted event data)))) 0)
          as [Hgt|Hle]; [discriminate|].
        rewrite Er in Hle. unfold size_sub in Hle.
        rewrite to_size_t_small, to_int_small in Hle by lia. lia.
      * unfold size_add in Hfull. rewrite Er, Ef in Hfull.
        rewrite !to_size_t_small in Hfull by lia. lia.
    + exfalso.
      destruct (batch_facts env mem (counted event data) skel 1 r mem' d3 o)
        as (s & fresh & c & _ & _ & _ & _ & _ & _ & _
            & (_ & _ & Hfl & _) & _); [lia|exact Hb|].
      simpl in Hzero. rewrite Hfl, Ef in Hzero. unfold size_add in Hzero.
      rewrite to_size_t_small in Hzero by lia. lia.
Qed.


(** X5. What the end of an instance means. With a [count] that fits
    [int], when no probe is in flight after a reply or a timeout (which
    is when [PING_ALL_PROBES_SENT] is raised), the instance has counted
    [count] outcomes, one for each of the events it handled. *)
Theorem none_in_flight_after_count_outcomes skel options events mem d out :
  0 <= count options <= INT_MAX ->
  running skel options events mem d out ->
  (1 < length events)%nat ->
  num_probes_in_flight d = 0 ->
  num_replies d = count options
  /\ Z.of_nat (length events) = count options + 1.
Proof. apply running_ends_at_count. Qed.

(* ------------------------------------------------------------------ *)
(** ** What the caller sees of an instance *)

(** X6. The caller sees every event the instance handles, and one outcome
    for each reply and each timeout: the events are forwarded with
    [pt_algorithm_throw] as they come, and the events raised, apart from
    [PING_WAIT] and [PING_ALL_PROBES_SENT], are the classifications of the
    replies and the [PING_TIMEOUT] of the timeouts, in the order of the
    events. *)
Theorem events_are_forwarded_and_classified skel options events mem d out :
  running skel options events mem d out ->
  thrown out = events
  /\ outcomes out = omap (outcome_of options) events.
Proof.
  induction 1 as [env mem mem' pdata data data' out Hh Hd
                 |env events event mem mem' data data1 data2 out out'
                    Hrun IH He Hf Hh Hd].
  - apply init_step in Hh. destruct Hh as (q & Hcase). cbv zeta in Hcase.
    destruct Hcase as [(-> & -> & _ & ->)
                      |(Hn & _ & r & d2 & o & Hb & -> & ->)].
    + split; reflexivity.
    + destruct (batch_facts _ _ _ _ _ _ _ _ _ Hn Hb)
        as (s & fresh & c & _ & _ & _ & _ & _ & _ & _ & _ & Hr & Ht & _).
      rewrite !thrown_app, !outcomes_app, Ht.
      unfold outcomes at 2. rewrite Hr. split; reflexivity.
  - destruct IH as (Ht & Ho).
    apply outcome_step in Hh; [|exact He].
    destruct Hh as (ev & Hev & Hcl & Hcase). cbv zeta in Hcase.
    rewrite thrown_app, outcomes_app, omap_app, Ht, Ho. simpl omap at 2.
    change (omap (outcome_of options) [event])
      with (match outcome_of options event with
            | Some e => [e] | None => [] end).
    rewrite Hev.
    destruct Hcase as [(-> & -> & _ & Hout)
                      |(_ & _ & r & d2 & o & Hb & -> & ->)].
    + destruct Hout as [(_ & ->)|(_ & ->)]; unfold outcomes; simpl;
        rewrite Hcl; split; reflexivity.
    + destruct (batch_facts env mem (counted event data) skel 1 r mem' d2 o)
        as (s & fresh & c & _ & _ & _ & _ & _ & _ & _ & _ & Hr & Hth & _);
        [lia|exact Hb|].
      rewrite !thrown_app, !outcomes_app, Hth.
      unfold outcomes. rewrite Hr. simpl. rewrite Hcl. split; reflexivity.
Qed.

(* ------------------------------------------------------------------ *)
(** ** An instance in a framework where nothing fails *)

Lemma run_events_invariant env skel options
    (P : @memory address_t -> ping_data_t -> list (@effect address_t) -> Prop) :
  (forall mem d out event mem' d1 d2 out',
     P mem d out ->
     expects_outcome event = true ->
     num_probes_in_flight d <> 0 ->
     ping_loop_handler env mem event (Some d) skel (Some options)
       = Returned 0 mem' (Some d1) out' ->
     deliver env out' d1 = Ok d2 ->
     P mem' d2 (out ++ out')) ->
  forall events mem d out mem' d' out',
    P mem d out ->
    run_events env skel options events mem d out = Some (mem', d', out') ->
    P mem' d' out'.
Proof.
  intros Hstep. induction events as [|event events IH];
    simpl; intros mem d out mem' d' out' HP H.
  - injection H as <- <- <-. exact HP.
  - destruct (expects_outcome event && negb (num_probes_in_flight d =? 0)) eqn:E;
      [|discriminate].
    apply andb_prop in E as (He & Hf).
    apply negb_true_iff, Z.eqb_neq in Hf.
    destruct (invoke env mem event (Some d) skel options) as [[[m1 d1] o1]|] eqn:Ei;
      [|discriminate].
    apply invoke_inv in Ei as (dx & Hh & Hd).
    apply (IH m1 d1 (out ++ o1)); [|exact H].
    exact (Hstep _ _ _ _ _ _ _ _ HP He Hf Hh Hd).
Qed.

(** X7. In a framework where no copy, no push and no send fails, the
    probes handed to the framework are exactly the probes counted, the
    ones answered and the ones in flight; so when an instance whose
    [count] fits [int] ends, with no probe in flight after a reply or a
    timeout, it has sent [count] probes. *)
Theorem run_sends_what_it_counts env mem skel options events mem' d out :
  (forall x, fate env x = send_succeeds) ->
  0 <= count options < SIZE_MAX_plus_1 ->
  run env mem skel options events = Some (mem', d, out) ->
  Z.of_nat (length (sent out)) = num_replies d + num_probes_in_flight d
  /\ (count options <= INT_MAX ->
      (1 < length events)%nat ->
      num_probes_in_flight d = 0 ->
      Z.of_nat (length (sent out)) = count options).
Proof.
  intros Hok Hcount Hrun.
  assert (Hsent : Z.of_nat (length (sent out))
                  = num_replies d + num_probes_in_flight d).
  { cut (within_budget options d out
         /\ Z.of_nat (length (sent out))
            = num_replies d + num_probes_in_flight d); [tauto|].
    unfold run in Hrun.
    destruct events as [|[] events]; try discriminate.
    destruct (invoke env mem ALGORITHM_INIT None skel options)
      as [[[m1 d1] o1]|] eqn:Ei; [|discriminate].
    apply invoke_inv in Ei as (dx & Hh & Hd).
    destruct (budget_init _ _ _ _ _ _ _ _ _ Hcount Hh Hd) as (Hb & _ & Hall).
    apply (run_events_invariant env skel options
             (fun _ d out =>
                within_budget options d out
                /\ Z.of_nat (length (sent out))
                   = num_replies d + num_probes_in_flight d))
      with (mem := m1) (d := d1) (out := o1) in Hrun; [exact Hrun| |split; auto].
    intros mem0 d0 out0 event mem0' d01 d02 out0' (Hb0 & Heq) He Hf Hh0 Hd0.
    destruct (budget_step _ _ _ _ _ _ _ _ _ _ _ Hcount Hb0 He Hf Hh0 Hd0)
      as (Hb' & _ & Hall').
    split; auto. }
  split; [exact Hsent|].
  intros Hint Hlen Hzero. apply run_running in Hrun.
  destruct (running_ends_at_count _ _ _ _ _ _ (conj (proj1 Hcount) Hint)
              Hrun Hlen Hzero) as (Hr & _).
  lia.
Qed.

(* ------------------------------------------------------------------ *)
(** ** The classification of a reply *)

Ltac unfold_icmp :=
  unfold destination_network_unreachable, destination_host_unreachable,
    destination_protocol_unreachable, destination_port_unreachable,
    ttl_exceeded, fragment_reassembly_time_exceeded, redirect,
    parameter_problem,
    ICMP_UNREACH, ICMP_UNREACH_NET, ICMP_UNREACH_HOST, ICMP_UNREACH_PROTOCOL,
    ICMP_UNREACH_PORT, ICMP_REDIRECT, ICMP_REDIRECT_NET, ICMP_TIMXCEED,
    ICMP_TIMXCEED_INTRANS, ICMP_TIMXCEED_REASS, ICMP_PARAMPROB,
    ICMP6_DST_UNREACH, ICMP6_DST_UNREACH_NOROUTE, ICMP6_DST_UNREACH_ADDR,
    ICMP6_DST_UNREACH_NOPORT, ICMP6_TIME_EXCEEDED, ICMP6_TIME_EXCEED_TRANSIT,
    ICMP6_TIME_EXCEED_REASSEMBLY, ICMP6_PARAM_PROB, ICMP6_PARAMPROB_HEADER,
    ICMP6_PARAMPROB_NEXTHEADER, ICMP6_PARAMPROB_OPTION, ND_REDIRECT in *.

Ltac split_eqb :=
  repeat match goal with
         | |- context [?a =? ?b] =>
             destruct (Z.eqb_spec a b); subst; simpl; try lia
         end.

(** X8. The eight ICMP tests of the handler exclude one another: a reply
    passes at most one of them, whatever its fields. So the order in
    which the handler makes them does not matter, and the event raised
    for a reply that is not from the destination is the one of the test
    it passes, or [PING_GEN_ERROR] when it passes none. *)
Theorem icmp_tests_are_exclusive options (reply : @probe_t address_t) :
  (length (icmp_errors reply) <= 1)%nat
  /\ reply_event_type options reply
     = (if destination_reached (dst_addr options) reply then PING_PROBE_REPLY
        else match icmp_errors reply with
             | [] => PING_GEN_ERROR
             | type :: _ => type
             end).
Proof.
  unfold reply_event_type, icmp_errors.
  destruct (destination_reached (dst_addr options) reply).
  - split; [|reflexivity]. unfold_icmp. cbv zeta.
    generalize (probe_extract_uint8 (field_version reply)) as v.
    generalize (probe_extract_uint8 (field_type reply)) as t.
    generalize (probe_extract_uint8 (field_code reply)) as c.
    intros c t v. split_eqb.
  - unfold_icmp. cbv zeta.
    generalize (probe_extract_uint8 (field_version reply)) as v.
    generalize (probe_extract_uint8 (field_type reply)) as t.
    generalize (probe_extract_uint8 (field_code reply)) as c.
    intros c t v. split_eqb; auto.
Qed.

(** X9. What a field that cannot be extracted does to the classification.
    A reply without "src_ip" is never taken for a reply of the
    destination. A reply whose "type" is missing, or is 0 as for an echo
    reply, and that is not from the destination is a [PING_GEN_ERROR]
    whatever its version and code. A version other than 4, a missing one
    among them, is read as IPv6. *)
Theorem classification_of_missing_fields options (reply : @probe_t address_t) :
  (field_src_ip reply = None ->
   reply_event_type options reply <> PING_PROBE_REPLY)
  /\ (probe_extract_uint8 (field_type reply) = 0 ->
      destination_reached (dst_addr options) reply = false ->
      reply_event_type options reply = PING_GEN_ERROR)
  /\ (probe_extract_uint8 (field_version reply) <> 4 ->
      reply_event_type options reply
      = reply_event_type options (with_version reply (Some 6))).
Proof.
  repeat split.
  - intros H. unfold reply_event_type, destination_reached. rewrite H.
    repeat match goal with
           | |- context [if ?b then _ else _] => destruct b
           end; discriminate.
  - intros Ht Hd. unfold reply_event_type. rewrite Hd.
    unfold_icmp. cbv zeta. rewrite Ht.
    generalize (probe_extract_uint8 (field_version reply)) as v.
    generalize (probe_extract_uint8 (field_code reply)) as c.
    intros c v. split_eqb; auto.
  - intros Hv. unfold reply_event_type, destination_reached.
    unfold_icmp. cbv zeta. simpl.
    change (6 mod 256 =? 4) with false.
    destruct (Z.eqb_spec (probe_extract_uint8 (field_version reply)) 4) as [|_];
      [contradiction|].
    reflexivity.
Qed.

(* ------------------------------------------------------------------ *)
(** ** Failures in a batch *)

(** X10. A batch stops at the first dispatch that fails and returns false,
    and nothing of what was done is undone: the [k] probes dispatched
    before stay recorded and sent; the copy made by the dispatch that
    fails stays in the memory unless it is [probe_dup] that failed, and
    stays recorded, and passed to [pt_send_probe], when it is the sending
    that failed; a message is printed in the other two cases. The
    counters are as they were. *)
Theorem batch_stops_at_first_failure k :
  forall n i env mem d skel s ps f,
  mem !! skel = Some s ->
  probes d = Some ps ->
  (k < n)%nat ->
  (forall j, (j < k)%nat -> fate env (i + 1 + Z.of_nat j) = send_succeeds) ->
  fate env (i + 1 + Z.of_nat k) = f ->
  f <> send_succeeds ->
  exists d',
    send_ping_probes_from n i env mem d skel
    = Ok (false, mem ++ clones_from s i (copies_until f k), d',
          map pt_send_probe (seq (length mem) (pushes_until f k))
          ++ message_until f)
    /\ probes d' = Some (ps ++ seq (length mem) (pushes_until f k))
    /\ same_counters d d'.
Proof.
  induction k as [|k IH]; intros n i env mem d skel s ps f Hs Hps Hk Hok Hf Hne;
    (destruct n as [|n]; [lia|]); simpl send_ping_probes_from; unfold_bind;
    rewrite (send_ping_probe_spec env mem d skel (i + 1) s ps Hs Hps).
  - simpl in Hf. rewrite Z.add_0_r in Hf. rewrite Hf.
    unfold same_counters.
    destruct f; [| | |contradiction];
      cbn [copies_until pushes_until message_until];
      rewrite ?clones_from_S; cbn [clones_from seq map app];
      rewrite ?app_nil_r; eexists; (split; [reflexivity|]);
      cbn [set_probes probes num_replies num_losses num_probes_in_flight
           rtt_results];
      rewrite ?app_nil_r; auto.
  - assert (H0 : fate env (i + 1) = send_succeeds).
    { rewrite <- (Hok 0%nat) by lia. f_equal. simpl. lia. }
    rewrite H0. cbv beta iota.
    assert (Hlt : (skel < length mem)%nat) by (eapply lookup_lt_Some; eassumption).
    destruct (IH n (i + 1) env (mem ++ [clone_of s (i + 1)])
                (set_probes d (Some (ps ++ [length mem]))) skel s
                (ps ++ [length mem]) f)
      as (d' & Hrun & Hp & Hr & Hl & Hfl & Hrtt).
    + unfold memory in *. rewrite lookup_app_l by lia. exact Hs.
    + reflexivity.
    + lia.
    + intros j Hj. rewrite <- (Hok (S j)) by lia. f_equal. lia.
    + rewrite <- Hf. f_equal. lia.
    + exact Hne.
    + rewrite Hrun. exists d'.
      assert (Hlen : length (mem ++ [clone_of s (i + 1)]) = S (length mem))
        by (rewrite length_app; simpl; lia).
      rewrite Hlen in *.
      assert (Hc : copies_until f (S k) = S (copies_until f k))
        by (destruct f; reflexivity).
      assert (Hpu : pushes_until f (S k) = S (pushes_until f k))
        by (destruct f; reflexivity).
      rewrite Hc, Hpu, clones_from_S, <- !app_assoc. simpl.
      split; [reflexivity|]. split.
      * rewrite Hp, <- app_assoc. reflexivity.
      * unfold same_counters. simpl in *. auto.
Qed.

Lemma best_effort_clones (s : @probe_t address_t) i k :
  double_neq (probe_get_delay s) DELAY_BEST_EFFORT = false ->
  clones_from s i k = replicate k s.
Proof.
  intros H. revert i. induction k as [|k IH]; intros i; [reflexivity|].
  rewrite clones_from_S, IH. unfold clone_of. rewrite H. reflexivity.
Qed.

(** X11. The clones of a skeleton whose delay is [DELAY_BEST_EFFORT] are
    not staggered: whatever the batch does, what it adds to the memory
    are copies of the skeleton as it is, at most one for each probe
    asked for, and the probes it sends are among them: they are the
    first of the cells added, in order, each of which holds the
    skeleton as it is. *)
Theorem best_effort_clones_are_the_skeleton
    env mem d skel num_probes s ret mem' d' out :
  mem !! skel = Some s ->
  double_neq (probe_get_delay s) DELAY_BEST_EFFORT = false ->
  send_ping_probes env mem d skel num_probes = Ok (ret, mem', d', out) ->
  exists k c,
    (c <= k <= Z.to_nat num_probes)%nat
    /\ mem' = mem ++ replicate k s
    /\ sent out = seq (length mem) c
    /\ Forall (fun p => (length mem <= p < length mem + k)%nat
                        /\ mem' !! p = Some s) (sent out).
Proof.
  intros Hs Hbe H. unfold send_ping_probes in H.
  apply send_ping_probes_from_allocates in H.
  destruct H as (fresh & -> & Hfresh & Hlen & (c & Hsent & Hc) & _).
  assert (Hrep : fresh = replicate (length fresh) s).
  { rewrite (Hfresh s Hs) at 1. apply best_effort_clones, Hbe. }
  exists (length fresh), c. split; [lia|]. split; [congruence|].
  split; [exact Hsent|].
  rewrite Hsent. apply Forall_forall. intros p Hp. apply elem_of_seq in Hp.
  split; [lia|].
  unfold memory in *. rewrite lookup_app_r by lia.
  rewrite Hrep. apply lookup_replicate_2. lia.
Qed.

Lemma handler_switch_env env1 env2 event pdata (opts : option (@ping_options_t address_t)) :
  options_network_get_timeout env1 = options_network_get_timeout env2 ->
  ping_data_create_succeeds env1 = ping_data_create_succeeds env2 ->
  handler_switch env1 event pdata opts = handler_switch env2 event pdata opts.
Proof.
  intros Ht Hc. unfold handler_switch, ping_data_create.
  rewrite Ht, Hc. reflexivity.
Qed.

(** X12. The counters and what the caller sees do not depend on the probes
    nor on what fails when they are sent. Two invocations of the handler
    on the same event, data and options that return, return the same
    value, raise and forward the same events, and leave the same
    counters and round-trip times, be the memories, the skeletons and
    the fates of the dispatches what they may: the result of
    [send_ping_probes] is not looked at, and the probes asked for are
    counted as in flight whether they were sent or not. *)
Theorem dispatch_failures_are_not_counted
    env1 env2 mem1 mem2 event pdata skel1 skel2 opts
    code1 code2 mem1' mem2' pdata1 pdata2 out1 out2 :
  options_network_get_timeout env1 = options_network_get_timeout env2 ->
  ping_data_create_succeeds env1 = ping_data_create_succeeds env2 ->
  ping_loop_handler env1 mem1 event pdata skel1 opts
    = Returned code1 mem1' pdata1 out1 ->
  ping_loop_handler env2 mem2 event pdata skel2 opts
    = Returned code2 mem2' pdata2 out2 ->
  code1 = code2
  /\ raised out1 = raised out2
  /\ thrown out1 = thrown out2
  /\ same_counters_opt pdata1 pdata2.
Proof.
  intros Ht Hc H1 H2.
  pose proof (handler_switch_env env1 env2 event pdata opts Ht Hc) as Hsw.
  assert (Hfails : fails env1 event opts = fails env2 event opts)
    by (unfold fails; rewrite Hc; reflexivity).
  assert (Hrefl : forall p : option (@ping_data_t), same_counters_opt p p)
    by (intros [p|]; simpl; unfold same_counters; auto).
  apply handler_returns in H1. apply handler_returns in H2.
  destruct H1 as [(F1 & -> & _ & -> & pre1 & -> & S1 & _)
                 |(F1 & -> & d1 & n1 & p1 & S1 & _ & _ & _ & C1)];
  destruct H2 as [(F2 & -> & _ & -> & pre2 & -> & S2 & _)
                 |(F2 & -> & d2 & n2 & p2 & S2 & _ & _ & _ & C2)];
    try congruence.
  - assert (pre1 = pre2) as -> by congruence.
    repeat split. apply Hrefl.
  - assert (d1 = d2 /\ n1 = n2 /\ p1 = p2) as (-> & -> & ->)
      by (rewrite Hsw, S2 in S1; injection S1; auto).
    split; [reflexivity|].
    destruct C1 as [(_ & -> & No1 & Out1)
                   |(Hn1 & o1 & r1 & da & oa & Ho1 & Hne1 & Hb1 & -> & ->)];
    destruct C2 as [(_ & -> & No2 & Out2)
                   |(Hn2 & o2 & r2 & db & ob & Ho2 & Hne2 & Hb2 & -> & ->)].
    + destruct Out1 as [(Z1 & ->)|(Z1 & ->)];
      destruct Out2 as [(Z2 & ->)|(Z2 & ->)]; try contradiction;
        repeat split; apply Hrefl.
    + exfalso. destruct No1 as [|(o & Ho & Hsum)]; [lia|]. congruence.
    + exfalso. destruct No2 as [|(o & Ho & Hsum)]; [lia|]. congruence.
    + pose proof (send_ping_probes_from_quiet _ _ _ _ _ _ _ _ _ _ Hb1)
        as (_ & Ra & La & Fa & Ta).
      pose proof (send_ping_probes_from_quiet _ _ _ _ _ _ _ _ _ _ Hb2)
        as (_ & Rb & Lb & Fb & Tb).
      destruct (batch_facts _ _ _ _ _ _ _ _ _ Hn1 Hb1)
        as (_ & _ & _ & _ & _ & _ & _ & _ & _ & _ & _ & Rsa & Tha & _).
      destruct (batch_facts _ _ _ _ _ _ _ _ _ Hn2 Hb2)
        as (_ & _ & _ & _ & _ & _ & _ & _ & _ & _ & _ & Rsb & Thb & _).
      rewrite !raised_app, !thrown_app, Rsa, Rsb, Tha, Thb.
      repeat split; simpl; congruence.
Qed.

(* ------------------------------------------------------------------ *)
(** ** A running instance goes on *)

Lemma running_samples skel options events mem d out :
  running skel options events mem d out ->
  rtt_results d = Some (flat_map (samples_of options) events).
Proof.
  induction 1 as [env mem mem' pdata data data' out Hh Hd
                 |env events event mem mem' data data1 data2 out out'
                    Hrun IH He Hf Hh Hd].
  - destruct (init_counts _ _ _ _ _ _ _ _ _ Hh Hd) as (_ & _ & ->). reflexivity.
  - destruct (event_counts _ _ _ _ _ _ _ _ _ _ _ He Hh Hd IH) as (_ & _ & ->).
    rewrite flat_map_app. simpl. rewrite app_nil_r. reflexivity.
Qed.

Lemma switch_outcome env (event : @event_t address_t) d options :
  expects_outcome event = true ->
  exists ev,
    outcome_of options event = Some ev
    /\ handler_switch env event (Some d) (Some options)
       = Break (Some (counted event d)) (Some (counted event d))
               (one_more options (counted event d)) [pt_raise_event ev].
Proof.
  destruct event; try discriminate; intros _; eexists; split; reflexivity.
Qed.

Lemma ping_handler_outcome env options (event : @event_t address_t) ev d rtt :
  outcome_of options event = Some ev ->
  rtt_results d = Some rtt ->
  if from_the_destination options event && negb (malloc_succeeds env)
  then ping_handler env ev d = Fault NullDereference
  else exists d', ping_handler env ev d = Ok d'.
Proof.
  destruct event; try discriminate; intros H; injection H as <-; intros Hr;
    simpl.
  - rewrite (ping_handler_reply env options probe_reply d rtt Hr).
    destruct (destination_reached (dst_addr options) (reply probe_reply));
      destruct (malloc_succeeds env); simpl; eauto.
  - eexists. reflexivity.
Qed.

Lemma deliver_outcome env options (event : @event_t address_t) ev d rtt out tail :
  outcome_of options event = Some ev ->
  rtt_results d = Some rtt ->
  raised out = ev :: tail ->
  tail = [] \/ tail = [all_probes_sent] \/ tail = [wait] ->
  if from_the_destination options event && negb (malloc_succeeds env)
  then deliver env out d = Fault NullDereference
  else exists d', deliver env out d = Ok d'.
Proof.
  intros Hev Hrtt Hraised Htail.
  pose proof (ping_handler_outcome env options event ev d rtt Hev Hrtt) as H.
  unfold deliver. rewrite Hraised. simpl. unfold_bind.
  destruct (from_the_destination options event && negb (malloc_succeeds env)).
  - rewrite H. reflexivity.
  - destruct H as (d' & ->). exists d'. apply deliver_closing. exact Htail.
Qed.

Lemma counted_rtt_results (event : @event_t address_t) d :
  rtt_results (counted event d) = rtt_results d.
Proof. destruct event; reflexivity. Qed.

(** X13. The handler of a running instance does not crash on a reply or
    on a timeout: whatever the framework fails at, as long as the
    skeleton is there, it returns 0 and leaves the data of the instance in
    place. Each event it has raised carries what [ping_handler] reads, so
    that [ping_handler] handles them, with one exception: for a reply
    from the destination whose [malloc] fails, it writes the round-trip
    time through NULL. *)
Theorem running_instance_goes_on skel options events mem d out env event s :
  running skel options events mem d out ->
  mem !! skel = Some s ->
  expects_outcome event = true ->
  exists mem' d1 out',
    ping_loop_handler env mem event (Some d) skel (Some options)
      = Returned 0 mem' (Some d1) out'
    /\ if from_the_destination options event && negb (malloc_succeeds env)
       then deliver env out' d1 = Fault NullDereference
       else exists d2, deliver env out' d1 = Ok d2.
Proof.
  intros Hrun Hs He.
  destruct (running_records _ _ _ _ _ _ Hrun) as (Hp & _).
  pose proof (running_samples _ _ _ _ _ _ Hrun) as Hrtt.
  destruct (switch_outcome env event d options He) as (ev & Hev & Hsw).
  unfold ping_loop_handler. rewrite Hsw.
  rewrite <- (counted_probes event) in Hp.
  rewrite <- (counted_rtt_results event) in Hrtt.
  set (dc := counted event d) in *.
  unfold handler_epilogue.
  destruct (0 <? one_more options dc) eqn:Hn.
  - destruct (negb (size_add (num_replies dc) (num_probes_in_flight dc)
                    =? to_size_t (count options))).
    + unfold send_ping_probes.
      destruct (send_ping_probes_from_spec (Z.to_nat (one_more options dc)) 0
                  env mem dc skel s _ Hs Hp)
        as (ret & mem' & d' & o & c & Hb & _ & Hleaves & _).
      rewrite Hb.
      destruct Hleaves as (_ & _ & _ & _ & _ & _ & _ & Hr').
      pose proof (send_ping_probes_from_raises_nothing _ _ _ _ _ _ _ _ _ _ Hb)
        as Hraised.
      rewrite <- Hr' in Hrtt.
      do 3 eexists. split; [reflexivity|].
      apply (deliver_outcome env options event ev
               (add_probes_in_flight d' (one_more options dc)) _ _ []
               Hev Hrtt); [|auto].
      rewrite !raised_app, Hraised. reflexivity.
    + destruct (num_probes_in_flight dc =? 0); do 3 eexists;
        (split; [reflexivity|]);
        [apply (deliver_outcome env options event ev _ _ _ [all_probes_sent]
                  Hev Hrtt)
        |apply (deliver_outcome env options event ev _ _ _ [wait] Hev Hrtt)];
        auto.
  - destruct (num_probes_in_flight dc =? 0); do 3 eexists;
      (split; [reflexivity|]);
      [apply (deliver_outcome env options event ev _ _ _ [all_probes_sent]
                Hev Hrtt)
      |apply (deliver_outcome env options event ev _ _ _ [wait] Hev Hrtt)];
      auto.
Qed.

(** X14. An instance none of whose probes was answered by the destination
    cannot print its statistics: it has no round-trip time, whatever
    the number of its replies and losses, and [ping_dump_statistics]
    reads the first element of an empty array. *)
Theorem statistics_of_an_unanswered_instance skel options events mem d out :
  running skel options events mem d out ->
  Forall (fun event => samples_of options event = []) events ->
  rtt_results d = Some []
  /\ ping_dump_statistics d = Fault InvalidRead.
Proof.
  intros Hrun Hall.
  assert (Hrtt : rtt_results d = Some []).
  { rewrite (running_samples _ _ _ _ _ _ Hrun). f_equal. clear Hrun.
    induction Hall as [|event events Hevent _ IH]; [reflexivity|].
    simpl. rewrite Hevent, IH. reflexivity. }
  split; [exact Hrtt|].
  unfold ping_dump_statistics. rewrite Hrtt. reflexivity.
Qed.

(* ------------------------------------------------------------------ *)
(** ** The statistics *)

Lemma SFltb_rank a b :
  SFltb a b = true
  <-> SFis_nan a = false /\ SFis_nan b = false /\ rank_lt (SFrank a) (SFrank b).
Proof.
  unfold SFltb.
  destruct a as [s1|s1| |s1 m1 e1], b as [s2|s2| |s2 m2 e2]; simpl;
    try destruct s1; try destruct s2; simpl;
    try (split; [discriminate|intros (? & ? & ?); try discriminate; lia]);
    try (split; [intros _; repeat split; lia|reflexivity]).
  - change (PosDef.Pos.compare_cont Eq m1 m2) with (Pos.compare m1 m2).
    destruct (Z.compare_spec e1 e2); [destruct (Pos.compare_spec m1 m2)| |];
      simpl; (split; [try discriminate; intros _; repeat split; lia
                     |try reflexivity; intros (_ & _ & ?); lia]).
  - change (PosDef.Pos.compare_cont Eq m1 m2) with (Pos.compare m1 m2).
    destruct (Z.compare_spec e1 e2); [destruct (Pos.compare_spec m1 m2)| |];
      simpl; (split; [try discriminate; intros _; repeat split; lia
                     |try reflexivity; intros (_ & _ & ?); lia]).
Qed.

Lemma rank_lt_trans a b c : rank_lt a b -> rank_lt b c -> rank_lt a c.
Proof.
  destruct a as [[a1 a2] a3], b as [[b1 b2] b3], c as [[c1 c2] c3].
  unfold rank_lt. lia.
Qed.

Lemma rank_lt_irrefl a : ~ rank_lt a a.
Proof. destruct a as [[a1 a2] a3]. unfold rank_lt. lia. Qed.

Lemma ltb_trans x y z :
  PrimFloat.ltb x y = true -> PrimFloat.ltb y z = true ->
  PrimFloat.ltb x z = true.
Proof.
  rewrite !ltb_spec, !SFltb_rank. intros (? & ? & ?) (? & ? & ?).
  repeat split; auto. eapply rank_lt_trans; eassumption.
Qed.

Lemma ltb_irrefl x : PrimFloat.ltb x x = false.
Proof.
  destruct (PrimFloat.ltb x x) eqn:E; [|reflexivity].
  rewrite ltb_spec, SFltb_rank in E. destruct E as (_ & _ & E).
  destruct (rank_lt_irrefl _ E).
Qed.

Lemma minimum_fold rest : forall seen current_min,
  current_min ∈ seen ->
  Forall (fun x => PrimFloat.ltb x current_min = false) seen ->
  let m := fold_left (fun current_min x =>
                        if PrimFloat.ltb x current_min then x else current_min)
                     rest current_min in
  m ∈ seen ++ rest
  /\ Forall (fun x => PrimFloat.ltb x m = false) (seen ++ rest).
Proof.
  induction rest as [|x rest IH]; intros seen cur Hin Hall; cbv zeta; simpl.
  - rewrite app_nil_r. auto.
  - replace (seen ++ x :: rest) with ((seen ++ [x]) ++ rest)
      by (rewrite <- app_assoc; reflexivity).
    destruct (PrimFloat.ltb x cur) eqn:E; apply IH.
    + apply elem_of_app. right. constructor.
    + apply Forall_app. split; [|constructor; [apply ltb_irrefl|constructor]].
      eapply Forall_impl; [exact Hall|]. intros y Hy. simpl in Hy.
      destruct (PrimFloat.ltb y x) eqn:Eyx; [|reflexivity].
      rewrite (ltb_trans _ _ _ Eyx E) in Hy. discriminate.
    + apply elem_of_app. left. exact Hin.
    + apply Forall_app. split; [exact Hall|].
      constructor; [exact E|constructor].
Qed.

Lemma maximum_fold rest : forall seen current_max,
  current_max ∈ seen ->
  Forall (fun x => PrimFloat.ltb current_max x = false) seen ->
  let m := fold_left (fun current_max x =>
                        if PrimFloat.ltb current_max x then x else current_max)
                     rest current_max in
  m ∈ seen ++ rest
  /\ Forall (fun x => PrimFloat.ltb m x = false) (seen ++ rest).
Proof.
  induction rest as [|x rest IH]; intros seen cur Hin Hall; cbv zeta; simpl.
  - rewrite app_nil_r. auto.
  - replace (seen ++ x :: rest) with ((seen ++ [x]) ++ rest)
      by (rewrite <- app_assoc; reflexivity).
    destruct (PrimFloat.ltb cur x) eqn:E; apply IH.
    + apply elem_of_app. right. constructor.
    + apply Forall_app. split; [|constructor; [apply ltb_irrefl|constructor]].
      eapply Forall_impl; [exact Hall|]. intros y Hy. simpl in Hy.
      destruct (PrimFloat.ltb x y) eqn:Exy; [|reflexivity].
      rewrite (ltb_trans _ _ _ E Exy) in Hy. discriminate.
    + apply elem_of_app. left. exact Hin.
    + apply Forall_app. split; [exact Hall|].
      constructor; [exact E|constructor].
Qed.

(** X15. The minimum and the maximum are samples, and extreme ones: when
    the array is not empty, [compute_minimum] returns one of its elements,
    which none of them is below, and [compute_maximum] one which none of
    them is above, whatever the doubles are, NaN among them. They read
    an element that does not exist only when the array is empty. *)
Theorem minimum_and_maximum_are_extreme_samples (array : dynarray_t double) :
  match compute_minimum array with
  | Ok m => m ∈ array /\ Forall (fun x => PrimFloat.ltb x m = false) array
  | Fault _ => array = []
  end
  /\ match compute_maximum array with
     | Ok m => m ∈ array /\ Forall (fun x => PrimFloat.ltb m x = false) array
     | Fault _ => array = []
     end.
Proof.
  destruct array as [|x0 rest]; [split; reflexivity|].
  split; simpl.
  - apply (minimum_fold rest [x0] x0); repeat constructor. apply ltb_irrefl.
  - apply (maximum_fold rest [x0] x0); repeat constructor. apply ltb_irrefl.
Qed.

Lemma digits2_pos_bound m : Zpos m < 2 ^ Zpos (digits2_pos m).
Proof.
  induction m as [m IH|m IH|]; simpl digits2_pos;
    rewrite ?Pos2Z.inj_succ, ?Z.pow_succ_r by lia; lia.
Qed.

(** A double of absolute value below 1 is cast to the [int] 0. *)
Lemma small_double_truncates y :
  PrimFloat.ltb (PrimFloat.abs y) 1 = true -> truncate y = Some 0.
Proof.
  rewrite ltb_spec, abs_spec. unfold truncate.
  pose proof (Prim2SF_valid y) as Hvalid.
  intros Hlt. apply SFltb_rank in Hlt as (Hnan & _ & Hlt).
  assert (Hone : SFrank (Prim2SF 1) = (1, -52, 2 ^ 52)) by reflexivity.
  rewrite Hone in Hlt. clear Hone.
  destruct (Prim2SF y) as [s|s| |s m e]; cbn [SFabs SFrank SFis_nan] in *;
    [reflexivity|unfold rank_lt in Hlt; lia|discriminate|].
  assert (Hm : Zpos m < 2 ^ (- e)).
  { unfold rank_lt in Hlt.
    destruct Hlt as [|(_ & [He|(-> & Hm)])]; [lia| |exact Hm].
    unfold SpecFloat.valid_binary, bounded, canonical_mantissa, fexp in Hvalid.
    apply andb_prop in Hvalid as (Hc & _). apply Z.eqb_eq in Hc.
    pose proof (digits2_pos_bound m) as Hd.
    assert (Zpos (digits2_pos m) <= 53) by (unfold prec in Hc; lia).
    eapply Z.lt_le_trans; [exact Hd|].
    apply Z.pow_le_mono_r; lia. }
  assert (He : e < 0).
  { unfold rank_lt in Hlt. lia. }
  clear Hlt Hvalid Hnan.
  destruct e as [|p|p]; try lia.
  rewrite Z.shiftr_div_pow2 by lia.
  change (- Z.neg p) with (Z.pos p) in Hm.
  rewrite Z.div_small by lia. destruct s; reflexivity.
Qed.

Lemma close_samples_add_nothing mean array :
  Forall (close_to mean) array ->
  fold_left (add_abs_deviation mean) array (Ok 0%float) = Ok 0%float.
Proof.
  induction 1 as [|x array Hx _ IH]; [reflexivity|].
  simpl. unfold double_to_int.
  rewrite (small_double_truncates _ Hx). exact IH.
Qed.

(** X16. The mean deviation of samples that are all less than one away
    from their mean is a zero: each deviation is cast to [int] before
    its absolute value is taken, so each adds 0 to the sum, which is
    then divided by the number of samples. *)
Theorem mean_deviation_of_close_samples (array : dynarray_t double) :
  Forall (close_to (compute_mean array)) array ->
  compute_mean_deviation array
  = Ok (PrimFloat.div 0 (Z_to_double (Z.of_nat (length array)))).
Proof.
  intros H. unfold compute_mean_deviation. cbv zeta.
  rewrite (close_samples_add_nothing _ _ H). reflexivity.
Qed.

(* ------------------------------------------------------------------ *)
(** ** The first burst, at the edges *)

Lemma double_to_int_range d q : double_to_int d = Ok q -> INT_MIN <= q <= INT_MAX.
Proof.
  unfold double_to_int. destruct (truncate d) as [z|]; [|discriminate].
  destruct ((INT_MIN <=? z) && (z <=? INT_MAX)) eqn:E; [|discriminate].
  intros H. injection H as <-. apply andb_prop in E as (H1 & H2).
  apply Z.leb_le in H1, H2. lia.
Qed.

(** X17. When the quotient of the timeout by the interval is negative, the
    first burst is of all the [count] probes: [MIN] compares the [int]
    with the [size_t] [count] as unsigned numbers, and a negative [int]
    is then above any [count] below 2^63. *)
Theorem negative_quotient_sends_every_probe env mem pdata skel options s q :
  ping_data_create_succeeds env = true ->
  double_to_int (PrimFloat.div (options_network_get_timeout env)
                               (interval options)) = Ok q ->
  q < 0 ->
  0 <= count options < 2 ^ 63 ->
  mem !! skel = Some s ->
  exists mem' d out,
    ping_loop_handler env mem ALGORITHM_INIT pdata skel (Some options)
      = Returned 0 mem' (Some d) out
    /\ num_probes_in_flight d = count options
    /\ ((forall i, fate env i = send_succeeds) ->
        Z.of_nat (length (sent out)) = count options).
Proof.
  intros Hcreate Hint Hq Hcount Hs.
  pose proof (double_to_int_range _ _ Hint) as Hrange.
  assert (Hbig : to_size_t q = q + SIZE_MAX_plus_1).
  { unfold to_size_t. rewrite <- (Z_mod_plus_full q 1 SIZE_MAX_plus_1).
    apply Z.mod_small. unfold INT_MIN, SIZE_MAX_plus_1 in *. lia. }
  assert (Hmin : MIN (to_size_t q) (count options) = count options).
  { rewrite MIN_is_min, Hbig. unfold INT_MIN, SIZE_MAX_plus_1 in *. lia. }
  assert (Hsize : 0 <= count options < SIZE_MAX_plus_1)
    by (unfold SIZE_MAX_plus_1; lia).
  unfold ping_loop_handler, handler_switch, ping_data_create.
  rewrite Hcreate, Hint, Hmin.
  unfold handler_epilogue. cbn [num_probes_in_flight num_replies].
  change (size_add 0 0) with 0. rewrite (to_size_t_small _ Hsize).
  destruct (Z.ltb_spec 0 (count options)) as [Hpos|Hzero].
  - destruct (Z.eqb_spec 0 (count options)) as [|_]; [lia|]. simpl negb. cbv iota.
    unfold send_ping_probes.
    destruct (send_ping_probes_from_spec (Z.to_nat (count options)) 0 env mem
                {| num_replies := 0; num_losses := 0; num_probes_in_flight := 0;
                   probes := Some []; rtt_results := Some [] |} skel s [] Hs eq_refl)
      as (ret & mem' & d' & out & c & E & Hc & L & Hall).
    rewrite E.
    destruct L as (_ & _ & _ & Lsent & _ & _ & Lflight & _).
    eexists _, _, _. split; [reflexivity|]. split.
    + simpl. rewrite Lflight. unfold size_add. simpl.
      apply to_size_t_small. exact Hsize.
    + intros Hok. destruct (Hall Hok) as (_ & ->).
      rewrite !sent_app, Lsent. simpl. rewrite app_nil_r, length_seq. lia.
  - assert (count options = 0) as -> by lia.
    change (0 =? 0) with true. cbv iota.
    eexists _, _, _. split; [reflexivity|]. split; [reflexivity|].
    intros _. reflexivity.
Qed.

(** X18. An interval of zero makes the first burst undefined, whatever the
    timeout: the quotient is an infinity or a NaN, which has no value as
    an [int]. *)
Theorem zero_interval_is_undefined env mem pdata skel options :
  ping_data_create_succeeds env = true ->
  PrimFloat.eqb (interval options) 0 = true ->
  ping_loop_handler env mem ALGORITHM_INIT pdata skel (Some options)
  = Crashed UndefinedConversion [].
Proof.
  intros Hcreate Hzero.
  assert (Hcast : double_to_int (PrimFloat.div (options_network_get_timeout env)
                                               (interval options))
                  = Fault UndefinedConversion).
  { unfold double_to_int, truncate. rewrite div_spec.
    rewrite FloatAxioms.eqb_spec in Hzero. unfold SFeqb in Hzero.
    change (Prim2SF 0) with (S754_zero false) in Hzero.
    destruct (Prim2SF (interval options)) as [si|si| |si mi ei];
      try (simpl in Hzero; destruct si; discriminate Hzero);
      try discriminate Hzero.
    destruct (Prim2SF (options_network_get_timeout env)); reflexivity. }
  unfold ping_loop_handler, handler_switch, ping_data_create.
  rewrite Hcreate, Hcast. reflexivity.
Qed.

(* ------------------------------------------------------------------ *)
(** ** The probe sent after an outcome *)

(** X19. After a reply or a timeout the handler adds at most one probe,
    and it is the first clone of a batch, of index 1, whatever the number
    of probes sent before: the indices, and with them the delays, start
    again with each call of [send_ping_probes]. *)
Theorem refill_is_the_first_clone env mem event d skel options s mem' d1 out :
  expects_outcome event = true ->
  mem !! skel = Some s ->
  ping_loop_handler env mem event (Some d) skel (Some options)
    = Returned 0 mem' (Some d1) out ->
  (mem' = mem /\ sent out = [])
  \/ (mem' = mem ++ [clone_of s 1]
      /\ (sent out = [] \/ sent out = [length mem])).
Proof.
  intros He Hs Hh. apply outcome_step in Hh; [|exact He].
  destruct Hh as (ev & _ & _ & Hcase). cbv zeta in Hcase.
  destruct Hcase as [(-> & _ & _ & Hout)|(_ & _ & r & d2 & o & Hb & _ & ->)].
  - left. split; [reflexivity|].
    destruct Hout as [(_ & ->)|(_ & ->)]; reflexivity.
  - destruct (batch_facts env mem (counted event d) skel 1 r mem' d2 o)
      as (s' & fresh & c & Hs' & -> & Hfresh & Hsent & Hc & Hlen & _);
      [lia|exact Hb|].
    assert (s' = s) as -> by congruence.
    rewrite !sent_app, Hsent. simpl. rewrite app_nil_r.
    destruct fresh as [|x [|y fresh]]; simpl in Hlen, Hc; [| |lia].
    + left. rewrite app_nil_r. destruct c; [auto|lia].
    + right. simpl in Hfresh. rewrite clones_from_S in Hfresh.
      injection Hfresh as ->. split; [reflexivity|].
      destruct c as [|[|c]]; [auto|auto|lia].
Qed.

(* ------------------------------------------------------------------ *)
(** ** What the statistics count *)

Lemma running_counts skel options events mem d out :
  0 <= count options < SIZE_MAX_plus_1 ->
  running skel options events mem d out ->
  num_replies d = count_events expects_outcome events
  /\ num_losses d = count_events is_timeout events.
Proof.
  intros Hcount.
  induction 1 as [env mem mem' pdata data data' out Hh Hd
                 |env events event mem mem' data data1 data2 out out'
                    Hrun IH He Hf Hh Hd].
  - destruct (init_counts _ _ _ _ _ _ _ _ _ Hh Hd) as (-> & -> & _).
    split; reflexivity.
  - destruct IH as (IHr & IHl).
    destruct (running_budget _ _ _ _ _ _ Hcount Hrun)
      as ((_ & Hsum & Hf0 & Hl0) & _).
    pose proof (running_samples _ _ _ _ _ _ Hrun) as Hrtt.
    destruct (event_counts _ _ _ _ _ _ _ _ _ _ _ He Hh Hd Hrtt) as (-> & -> & _).
    rewrite !count_events_app, <- IHr, <- IHl. unfold count_events. simpl.
    rewrite He. simpl. split.
    + unfold size_add. apply to_size_t_small. lia.
    + destruct (is_timeout event); simpl; [|lia].
      unfold size_add. apply to_size_t_small. lia.
Qed.

Lemma count_outcomes (events : list (@event_t address_t)) :
  count_events expects_outcome events
  = count_events is_reply events + count_events is_timeout events.
Proof.
  unfold count_events. induction events as [|[] events IH]; simpl in *; lia.
Qed.

(** X20. What the statistics of an instance count. "transmitted" is the
    number of replies and timeouts handled, not the number of probes
    sent; "received" is the number of replies, those that are ICMP
    errors among them, so that the round-trip times are as many as
    "received" only when no reply is an error. *)
Theorem statistics_count_error_replies skel options events mem d out
    transmitted received loss max min avg mdev :
  0 <= count options < SIZE_MAX_plus_1 ->
  running skel options events mem d out ->
  ping_dump_statistics d
    = Ok (statistics transmitted received loss max min avg mdev) ->
  transmitted = count_events expects_outcome events
  /\ received = count_events is_reply events
  /\ exists rtt,
       rtt_results d = Some rtt
       /\ Z.of_nat (length rtt)
          = received - count_events (is_error_reply options) events.
Proof.
  intros Hcount Hrun Hst.
  destruct (running_budget _ _ _ _ _ _ Hcount Hrun)
    as ((_ & Hsum & Hf0 & Hl0) & _).
  destruct (running_counts _ _ _ _ _ _ Hcount Hrun) as (Hout & Hlosses).
  pose proof (running_samples _ _ _ _ _ _ Hrun) as Hrtt.
  symmetry in Hout.
  unfold ping_dump_statistics in Hst. rewrite Hrtt in Hst. unfold_bind.
  repeat match type of Hst with
         | match ?x with _ => _ end = _ => destruct x; [|discriminate]
         end.
  injection Hst as <- <- _ _ _ _ _.
  split; [auto|].
  rewrite count_outcomes in Hout.
  assert (Hrec : size_sub (num_replies d) (num_losses d)
                 = count_events is_reply events).
  { unfold size_sub. rewrite to_size_t_small by lia. lia. }
  split; [exact Hrec|].
  exists (flat_map (samples_of options) events). split; [exact Hrtt|].
  rewrite Hrec, samples_count, count_outcomes. lia.
Qed.

(* ------------------------------------------------------------------ *)
(** ** The end of an instance *)

(** [ALGORITHM_INIT] leaves no probe in flight only when it has no burst
    to send. *)
Lemma init_without_burst env mem mem' pdata skel options d out :
  ping_loop_handler env mem ALGORITHM_INIT pdata skel (Some options)
    = Returned 0 mem' (Some d) out ->
  num_probes_in_flight d = 0 ->
  sent out = [] /\ num_replies d = 0.
Proof.
  intros Hh Hzero. apply init_step in Hh. destruct Hh as (q & Hcase).
  cbv zeta in Hcase.
  destruct Hcase as [(_ & -> & _ & ->)|(Hn & _ & r & d2 & o & Hb & -> & ->)].
  - split; reflexivity.
  - exfalso.
    destruct (batch_facts _ _ _ _ _ _ _ _ _ Hn Hb)
      as (_ & _ & _ & _ & _ & _ & _ & _ & _ & _ & (_ & _ & Hf & _) & _).
    simpl in Hzero. rewrite Hf in Hzero. simpl in Hzero.
    unfold size_add in Hzero. rewrite Z.add_0_l in Hzero.
    pose proof (to_size_t_range q) as Hq. unfold in_size_t in Hq.
    rewrite MIN_is_min in *.
    rewrite to_size_t_small in Hzero by lia. lia.
Qed.

(** An invocation that does not call [send_ping_probes] sends no probe. *)
Lemma event_sent env mem event skel options d :
  expects_outcome event = true ->
  refills options (counted event d) (one_more options (counted event d)) = false ->
  sent (effects_of (ping_loop_handler env mem event (Some d) skel (Some options)))
  = [].
Proof.
  intros He Hno.
  destruct (switch_outcome env event d options He) as (ev & _ & Hsw).
  unfold ping_loop_handler. rewrite Hsw.
  destruct (epilogue_cases env mem event skel options (counted event d)
              (one_more options (counted event d)) [pt_raise_event ev])
    as [(R & _) | [(_ & _ & ->) | (_ & _ & ->)]];
    [congruence|reflexivity|reflexivity].
Qed.

(** C4, as the code has it. Over the events delivered to an instance
    ([ALGORITHM_INIT], then replies and timeouts, each for a probe in
    flight), [PING_ALL_PROBES_SENT] is raised at most once, followed by the
    termination signal, and it has been raised exactly when no probe is
    in flight, after which no reply or timeout is left to deliver; until
    then neither of the two is raised. When it is raised for a reply or
    a timeout, and [count] is one that an [int] holds, the last of the
    [count] probes has been accounted for: [num_replies] is [count], and
    no further probe is needed. [ALGORITHM_INIT] raises it when it has no
    burst to send, and then no probe is sent nor accounted for. Every
    invocation for a reply or a timeout raises the outcome of the event,
    then nothing more when it calls [send_ping_probes], whether a probe
    is dispatched or not; when it does not, it sends no probe, and raises
    [PING_ALL_PROBES_SENT] when no probe is in flight and [PING_WAIT]
    when probes are in flight. *)
Theorem all_probes_sent_when_none_in_flight skel options events mem d out :
  running skel options events mem d out ->
  marks out = (if num_probes_in_flight d =? 0
               then [AllProbesSent; Terminated] else [])
  /\ (events = [ALGORITHM_INIT] ->
      raised out = (if num_probes_in_flight d =? 0 then [all_probes_sent] else [])
      /\ (num_probes_in_flight d = 0 -> sent out = [] /\ num_replies d = 0))
  /\ (0 <= count options <= INT_MAX ->
      (1 < length events)%nat ->
      num_probes_in_flight d = 0 ->
      num_replies d = count options
      /\ Z.of_nat (length events) = count options + 1
      /\ one_more options d = 0)
  /\ (forall env event,
        expects_outcome event = true ->
        exists outcome,
          raised (effects_of (ping_loop_handler env mem event (Some d) skel
                                (Some options)))
          = outcome :: (if refills options (counted event d)
                             (one_more options (counted event d))
                        then []
                        else if num_probes_in_flight (counted event d) =? 0
                             then [all_probes_sent]
                             else [wait])
          /\ is_all_probes_sent outcome = false
          /\ (refills options (counted event d)
                 (one_more options (counted event d)) = false ->
              sent (effects_of (ping_loop_handler env mem event (Some d) skel
                                  (Some options))) = [])).
Proof.
  intros Hrun. split; [|split; [|split]].
  - apply (running_marks _ _ _ _ _ _ Hrun).
  - intros Hinit.
    destruct Hrun as [env mem mem' pdata d d' out Hh Hd
                     |env evs ev mem mem' d d1 d2 out out' Hr Hev Hfl Hh Hd].
    + apply deliver_counters in Hd. destruct Hd as (Hr & _ & Hf).
      rewrite Hf, Hr. split.
      * apply init_marks in Hh. apply Hh.
      * apply (init_without_burst _ _ _ _ _ _ _ _ Hh).
    + exfalso. destruct (running_starts _ _ _ _ _ _ Hr) as (rest & ->).
      simpl in Hinit. destruct rest; discriminate.
  - intros Hcount Hlen Hzero.
    destruct (running_ends_at_count _ _ _ _ _ _ Hcount Hrun Hlen Hzero)
      as (Hreplies & Hevents).
    split; [exact Hreplies|]. split; [exact Hevents|].
    unfold one_more, size_sub. rewrite Hreplies, Z.sub_diag. reflexivity.
  - intros env event Hev.
    destruct (event_raised env mem event skel options d Hev)
      as (outcome & Hraised & Hout).
    exists outcome. split; [exact Hraised|]. split; [exact Hout|].
    apply event_sent. exact Hev.
Qed.

End Properties.

(* ------------------------------------------------------------------ *)
(** ** The handler at work *)

Example reply_timeout_reply_raised :
  final_raised (ping three_probes 3%float 0.5%float reply_timeout_reply)
  = Some [PING_PROBE_REPLY; PING_WAIT; PING_TIMEOUT; PING_WAIT;
          PING_PROBE_REPLY; PING_ALL_PROBES_SENT].
Proof. vm_compute. reflexivity. Qed.

Example reply_timeout_reply_data :
  final_data (ping three_probes 3%float 0.5%float reply_timeout_reply)
  = Some {| num_replies := 3; num_losses := 1; num_probes_in_flight := 0;
            probes := Some [1; 2; 3]%nat;
            rtt_results := Some [0.25; 0.75]%float |}.
Proof. vm_compute. reflexivity. Qed.

Example ttl_exceeded_on_the_way_raised :
  final_raised (ping one_probe 3%float 0.5%float ttl_exceeded_on_the_way)
  = Some [PING_TTL_EXCEEDED_TRANSIT; PING_ALL_PROBES_SENT].
Proof. vm_compute. reflexivity. Qed.

Example one_probe_at_a_time :
  final_raised (ping three_probes 1%float 0.5%float
                  [ALGORITHM_INIT;
                   PROBE_TIMEOUT (skeleton 0.5%float);
                   PROBE_TIMEOUT (skeleton 0.5%float);
                   PROBE_TIMEOUT (skeleton 0.5%float)])
  = Some [PING_TIMEOUT; PING_TIMEOUT; PING_TIMEOUT; PING_ALL_PROBES_SENT].
Proof. vm_compute. reflexivity. Qed.

Example statistics_of_two_samples :
  ping_dump_statistics
    {| num_replies := 3; num_losses := 1; num_probes_in_flight := 0;
       probes := Some [1; 2; 3]%nat; rtt_results := Some [0.25; 0.75]%float |}
  = Ok (statistics 3 2 33 0.75%float 0.25%float 0.5%float 0%float).
Proof. vm_compute. reflexivity. Qed.

(* ------------------------------------------------------------------ *)
(** ** The properties at work *)

(** A reply from the destination that carries a redirect raises
    [PING_PROBE_REPLY]. *)
Lemma redirect_from_the_destination :
  field_src_ip (reply redirect_reply) = Some destination
  /\ address_compare (dst_addr three_probes) destination = 0
  /\ raises_first (framework 3%float)
       [skeleton 0.5%float] redirect_reply one_in_flight 0 three_probes
       PING_PROBE_REPLY.
Proof.
  split; [reflexivity|]. split; [reflexivity|].
  apply (destination_reached_raises_probe_reply
           (framework 3%float) [skeleton 0.5%float] redirect_reply
           one_in_flight 0%nat three_probes destination); reflexivity.
Defined.

(** From a router, over IPv4: "host unreachable" raises
    [PING_DST_NET_UNREACHABLE] and "network unreachable" raises
    [PING_DST_HOST_UNREACHABLE]. *)
Lemma unreachable_from_a_router :
  raises_first (framework 3%float) [skeleton 0.5%float]
    (reply_from router 4 ICMP_UNREACH ICMP_UNREACH_HOST 1%float 1.25%float)
    one_in_flight 0 three_probes PING_DST_NET_UNREACHABLE
  /\ raises_first (framework 3%float) [skeleton 0.5%float]
       (reply_from router 4 ICMP_UNREACH ICMP_UNREACH_NET 1%float 1.25%float)
       one_in_flight 0 three_probes PING_DST_HOST_UNREACHABLE.
Proof.
  split.
  - apply (ipv4_unreachable_mapping (framework 3%float)
             [skeleton 0.5%float]
             (reply_from router 4 ICMP_UNREACH ICMP_UNREACH_HOST 1%float 1.25%float)
             one_in_flight 0%nat three_probes); reflexivity.
  - apply (ipv4_unreachable_mapping (framework 3%float)
             [skeleton 0.5%float]
             (reply_from router 4 ICMP_UNREACH ICMP_UNREACH_NET 1%float 1.25%float)
             one_in_flight 0%nat three_probes); reflexivity.
Defined.

(** From a router, over IPv6: a parameter problem on the next header
    raises [PING_DST_PROT_UNREACHABLE]. *)
Lemma next_header_from_a_router :
  raises_first (framework 3%float) [skeleton 0.5%float]
    next_header_reply one_in_flight 0 three_probes PING_DST_PROT_UNREACHABLE
  /\ raised_types
       (effects_of (ping_loop_handler (framework 3%float)
                      [skeleton 0.5%float] (PROBE_REPLY next_header_reply)
                      (Some one_in_flight) 0 (Some three_probes)))
     = [PING_DST_PROT_UNREACHABLE].
Proof.
  split; [|vm_compute; reflexivity].
  apply (ipv6_next_header_is_protocol_unreachable
           (framework 3%float) [skeleton 0.5%float] next_header_reply
           one_in_flight 0%nat three_probes); try reflexivity.
  vm_compute. discriminate.
Defined.



(** Four clones of a skeleton of delay 0.5 s. *)
Lemma four_clones_half_a_second_apart :
  [skeleton 0.5%float] !! 0%nat = Some (skeleton 0.5%float)
  /\ double_neq (probe_get_delay (skeleton 0.5%float)) DELAY_BEST_EFFORT = true
  /\ exists ret mem' d' out clones,
       send_ping_probes (framework 3%float) [skeleton 0.5%float]
         {| num_replies := 0; num_losses := 0; num_probes_in_flight := 0;
            probes := Some []; rtt_results := Some [] |} 0 4
       = Ok (ret, mem', d', out)
       /\ mem' !! 0%nat = Some (skeleton 0.5%float)
       /\ probes d' = Some clones
       /\ sent out = clones
       /\ recorded_delays mem' clones
          = [Some 0.5; Some 1; Some 1.5; Some 2]%float.
Proof.
  split; [reflexivity|]. split; [reflexivity|].
  destruct (clones_are_staggered (library := ipv4_library) (framework 3%float)
              [skeleton 0.5%float]
              {| num_replies := 0; num_losses := 0; num_probes_in_flight := 0;
                 probes := Some []; rtt_results := Some [] |}
              0%nat 4 (skeleton 0.5%float) [] eq_refl eq_refl eq_refl)
    as (ret & mem' & d' & out & clones & E & Hskel & Hps & _ & _ & Hall & Hfour).
  exists ret, mem', d', out, clones.
  destruct (Hall (fun _ => eq_refl)) as (_ & _ & Hsent).
  repeat split; auto.
Defined.

(** Five probes, three at once and two as the first replies come:
    [PING_ALL_PROBES_SENT] and the termination close the instance, once,
    when the five probes are accounted for. *)
Lemma all_probes_sent_after_five_outcomes :
  exists mem d out,
    running 0 five_probes five_replies mem d out
    /\ num_probes_in_flight d = 0
    /\ marks out = [AllProbesSent; Terminated]
    /\ num_replies d = count five_probes
    /\ one_more five_probes d = 0
    /\ sent out = [1; 2; 3; 4; 5]%nat.
Proof.
  destruct (ping five_probes 3%float 0.5%float five_replies)
    as [[[mem d] out]|] eqn:E; [|vm_compute in E; discriminate E].
  pose proof (run_running _ _ _ _ _ _ _ _ E) as R.
  destruct (all_probes_sent_when_none_in_flight 0%nat
              five_probes five_replies mem d out R) as (M & _ & C & _).
  exists mem, d, out.
  assert (F : num_probes_in_flight d = 0)
    by (vm_compute in E; injection E as <- <- <-; reflexivity).
  assert (S : sent out = [1; 2; 3; 4; 5]%nat)
    by (vm_compute in E; injection E as <- <- <-; reflexivity).
  rewrite F in M.
  destruct C as (Hr & _ & Hone);
    [unfold INT_MAX; simpl; lia|simpl; lia|exact F|].
  auto 10.
Defined.

(** [PING_ALL_PROBES_SENT] is not always raised when the last of the
    [count] probes is accounted for, an instance does not raise it on
    every list of events, and [PING_WAIT] is not raised in every other
    invocation that dispatches no probe. With an interval of 2 s and a
    timeout of 1 s, [ALGORITHM_INIT] sends none of the 3 probes and
    raises [PING_ALL_PROBES_SENT] at once: no probe has been accounted
    for. An instance that is given the first of three replies only has
    not raised it. And when [probe_dup] fails for the probe that the
    first reply to a burst of three asks for, no probe is dispatched,
    three are still counted as in flight, and neither [PING_WAIT] nor
    [PING_ALL_PROBES_SENT] is raised. *)
Lemma all_probes_sent_without_a_probe :
  ping too_slow 1%float 0.5%float [ALGORITHM_INIT]
  = Some ([skeleton 0.5%float],
          {| num_replies := 0; num_losses := 0; num_probes_in_flight := 0;
             probes := Some []; rtt_results := Some [] |},
          [pt_algorithm_throw ALGORITHM_INIT; pt_raise_event all_probes_sent;
           pt_raise_terminated; event_free])
  /\ final_raised
       (ping three_probes 3%float 0.5%float
          [ALGORITHM_INIT;
           PROBE_REPLY (reply_from destination 4 0 0 1%float 1.25%float)])
     = Some [PING_PROBE_REPLY; PING_WAIT]
  /\ ping_loop_handler no_copy after_the_burst first_reply
       (Some three_in_flight) 0 (Some five_probes)
     = Returned 0 after_the_burst
         (Some {| num_replies := 1; num_losses := 0; num_probes_in_flight := 3;
                  probes := Some [1; 2; 3]%nat; rtt_results := Some [] |})
         [pt_raise_event
            (event_create PING_PROBE_REPLY
               (data_probe_reply
                  (reply_from destination 4 0 0 1%float 1.25%float)));
          pt_algorithm_throw first_reply;
          fprintf_stderr "Error in send_ping_probe"; event_free].
Proof. repeat split; vm_compute; reflexivity. Qed.

(** Two samples for two replies from the destination and a timeout. *)
Lemma two_samples_for_two_replies :
  exists mem d out,
    running 0 three_probes reply_timeout_reply mem d out
    /\ rtt_results d = Some [0.25; 0.75]%float
    /\ num_replies d = 3
    /\ num_losses d = 1.
Proof.
  destruct (ping three_probes 3%float 0.5%float reply_timeout_reply)
    as [[[mem d] out]|] eqn:E; [|vm_compute in E; discriminate E].
  pose proof (run_running _ _ _ _ _ _ _ _ E) as R.
  destruct (rtt_samples_are_destination_replies 0%nat
              three_probes reply_timeout_reply mem d out R)
    as (Hrtt & Hrep & Hlos & _).
  exists mem, d, out. repeat split; assumption.
Defined.

(** The samples are fewer than [num_replies - num_losses] when a reply
    is an ICMP error. After a single reply, which a router sent ("time
    exceeded in transit"), [num_replies] is 1 and [num_losses] is 0, and
    no round-trip time is stored; the same holds when the handler returns,
    before the event it raised reaches [ping_handler]. *)
Lemma no_sample_for_an_error_reply :
  final_data (ping one_probe 3%float 0.5%float ttl_exceeded_on_the_way)
  = Some {| num_replies := 1; num_losses := 0; num_probes_in_flight := 0;
            probes := Some [1%nat]; rtt_results := Some [] |}
  /\ (ping_loop_handler (framework 3%float)
        [skeleton 0.5%float; skeleton 0.5%float]
        (PROBE_REPLY (reply_from router 4 ICMP_TIMXCEED ICMP_TIMXCEED_INTRANS
                                 1%float 1.25%float))
        (Some one_in_flight) 0 (Some one_probe)
      = Returned 0 [skeleton 0.5%float; skeleton 0.5%float]
          (Some {| num_replies := 1; num_losses := 0; num_probes_in_flight := 0;
                   probes := Some [1%nat]; rtt_results := Some [] |})
          [pt_raise_event
             (event_create PING_TTL_EXCEEDED_TRANSIT
                (data_probe_reply
                   (reply_from router 4 ICMP_TIMXCEED ICMP_TIMXCEED_INTRANS
                               1%float 1.25%float)));
           pt_algorithm_throw
             (PROBE_REPLY (reply_from router 4 ICMP_TIMXCEED ICMP_TIMXCEED_INTRANS
                                      1%float 1.25%float));
           pt_raise_event all_probes_sent; pt_raise_terminated; event_free]).
Proof. split; vm_compute; reflexivity. Qed.


(** The probes of the three-probe instance are recorded. *)
Lemma three_probes_recorded :
  exists mem d out,
    running 0 three_probes reply_timeout_reply mem d out
    /\ probes d = Some (sent out)
    /\ sent out = [1; 2; 3]%nat.
Proof.
  destruct (ping three_probes 3%float 0.5%float reply_timeout_reply)
    as [[[mem d] out]|] eqn:E; [|vm_compute in E; discriminate E].
  pose proof (run_running _ _ _ _ _ _ _ _ E) as R.
  destruct (probes_sent_are_recorded 0%nat
              three_probes reply_timeout_reply mem d out R) as (Hp & _).
  exists mem, d, out.
  assert (F : sent out = [1; 2; 3]%nat)
    by (vm_compute in E; injection E as <- <- <-; reflexivity).
  auto.
Defined.

(** The three-probe instance keeps within its budget. *)
Lemma three_probes_within_budget :
  exists mem d out,
    running 0 three_probes reply_timeout_reply mem d out
    /\ 0 <= count three_probes < SIZE_MAX_plus_1
    /\ Z.of_nat (length (sent out)) <= num_replies d + num_probes_in_flight d
    /\ num_replies d + num_probes_in_flight d <= 3
    /\ num_replies d = 3.
Proof.
  destruct (ping three_probes 3%float 0.5%float reply_timeout_reply)
    as [[[mem d] out]|] eqn:E; [|vm_compute in E; discriminate E].
  pose proof (run_running _ _ _ _ _ _ _ _ E) as R.
  assert (Hc : 0 <= count three_probes < SIZE_MAX_plus_1)
    by (unfold SIZE_MAX_plus_1; simpl; lia).
  destruct (probe_budget_is_kept 0%nat
              three_probes reply_timeout_reply mem d out Hc R)
    as (H1 & H2 & _ & _ & H5).
  exists mem, d, out. auto.
Defined.

(** The three-probe instance ends after three outcomes. *)
Lemma three_outcomes_for_three_probes :
  exists mem d out,
    running 0 three_probes reply_timeout_reply mem d out
    /\ 0 <= count three_probes <= INT_MAX
    /\ (1 < length reply_timeout_reply)%nat
    /\ num_probes_in_flight d = 0
    /\ num_replies d = 3.
Proof.
  destruct (ping three_probes 3%float 0.5%float reply_timeout_reply)
    as [[[mem d] out]|] eqn:E; [|vm_compute in E; discriminate E].
  pose proof (run_running _ _ _ _ _ _ _ _ E) as R.
  assert (Hc : 0 <= count three_probes <= INT_MAX)
    by (unfold INT_MAX; simpl; lia).
  assert (Hl : (1 < length reply_timeout_reply)%nat) by (simpl; lia).
  assert (F : num_probes_in_flight d = 0)
    by (vm_compute in E; injection E as <- <- <-; reflexivity).
  destruct (none_in_flight_after_count_outcomes 0%nat
              three_probes reply_timeout_reply mem d out Hc R Hl F) as (Hr & _).
  exists mem, d, out. auto.
Defined.

(** The events of the three-probe instance, as its caller sees them. *)
Lemma three_probes_forwarded :
  exists mem d out,
    running 0 three_probes reply_timeout_reply mem d out
    /\ thrown out = reply_timeout_reply
    /\ map ping_event_type (outcomes out)
       = [PING_PROBE_REPLY; PING_TIMEOUT; PING_PROBE_REPLY].
Proof.
  destruct (ping three_probes 3%float 0.5%float reply_timeout_reply)
    as [[[mem d] out]|] eqn:E; [|vm_compute in E; discriminate E].
  pose proof (run_running _ _ _ _ _ _ _ _ E) as R.
  destruct (events_are_forwarded_and_classified 0%nat
              three_probes reply_timeout_reply mem d out R) as (Ht & Ho).
  exists mem, d, out. rewrite Ho. auto.
Defined.

(** The three-probe instance has sent three probes when it ends. *)
Lemma three_probes_sent :
  exists mem d out,
    ping three_probes 3%float 0.5%float reply_timeout_reply = Some (mem, d, out)
    /\ Z.of_nat (length (sent out)) = 3.
Proof.
  destruct (ping three_probes 3%float 0.5%float reply_timeout_reply)
    as [[[mem d] out]|] eqn:E; [|vm_compute in E; discriminate E].
  assert (Hc : 0 <= count three_probes < SIZE_MAX_plus_1)
    by (unfold SIZE_MAX_plus_1; simpl; lia).
  destruct (run_sends_what_it_counts (framework 3%float) [skeleton 0.5%float]
              0%nat three_probes reply_timeout_reply mem d out
              (fun _ => eq_refl) Hc E) as (_ & Hs).
  exists mem, d, out. split; [reflexivity|].
  apply Hs.
  - unfold INT_MAX; simpl; lia.
  - simpl; lia.
  - vm_compute in E; injection E as <- <- <-; reflexivity.
Defined.


(** A reply without "src_ip" and without "type", of version 0. *)
Lemma reply_without_fields :
  reply_event_type three_probes (skeleton 0.5%float) = PING_GEN_ERROR
  /\ reply_event_type three_probes (skeleton 0.5%float)
     = reply_event_type three_probes (with_version (skeleton 0.5%float) (Some 6)).
Proof.
  destruct (classification_of_missing_fields (library := ipv4_library)
              three_probes (skeleton 0.5%float)) as (_ & H2 & H3).
  split.
  - apply H2; reflexivity.
  - apply H3. vm_compute. discriminate.
Defined.


(** Five probes asked for, when the third cannot be pushed. *)
Lemma two_of_five_when_the_third_fails :
  exists d',
    send_ping_probes third_push_fails [skeleton 0.5%float] initial_data 0 5
    = Ok (false,
          [skeleton 0.5%float; skeleton 0.5%float; skeleton 1%float;
           skeleton 1.5%float],
          d', [pt_send_probe 1%nat; pt_send_probe 2%nat;
               fprintf_stderr "Error in send_ping_probe"])
    /\ probes d' = Some [1; 2]%nat.
Proof.
  destruct (batch_stops_at_first_failure (library := ipv4_library) 2 5 0
              third_push_fails [skeleton 0.5%float] initial_data 0%nat
              (skeleton 0.5%float) [] push_element_fails)
    as (d' & Hrun & Hp & _).
  - reflexivity.
  - reflexivity.
  - lia.
  - intros [|[|j]] Hj; [reflexivity|reflexivity|lia].
  - reflexivity.
  - discriminate.
  - exists d'. split; [|exact Hp].
    unfold send_ping_probes. change (Z.to_nat 5) with 5%nat.
    rewrite Hrun. vm_compute. reflexivity.
Defined.

(** Three clones of a best-effort skeleton. *)
Lemma three_best_effort_clones :
  exists ret mem' d' out,
    send_ping_probes (framework 3%float) [best_effort_skeleton] initial_data 0 3
    = Ok (ret, mem', d', out)
    /\ mem' = replicate 4 best_effort_skeleton
    /\ sent out = [1; 2; 3]%nat
    /\ Forall (fun p => mem' !! p = Some best_effort_skeleton) (sent out).
Proof.
  destruct (send_ping_probes (framework 3%float) [best_effort_skeleton]
              initial_data 0 3) as [[[[ret mem'] d'] out]|] eqn:E;
    [|vm_compute in E; discriminate E].
  destruct (best_effort_clones_are_the_skeleton (library := ipv4_library)
              (framework 3%float) [best_effort_skeleton] initial_data 0%nat 3
              best_effort_skeleton ret mem' d' out) as (k & c & _ & _ & _ & Hall).
  - reflexivity.
  - vm_compute. reflexivity.
  - exact E.
  - exists ret, mem', d', out. split; [reflexivity|].
    split; [vm_compute in E; injection E as _ <- _ _; reflexivity|].
    split; [vm_compute in E; injection E as _ _ _ <-; reflexivity|].
    eapply Forall_impl; [exact Hall|]. intros p (_ & Hp). exact Hp.
Defined.

(** [ALGORITHM_INIT] in the framework where nothing fails and in the one
    where the third push fails. *)
Lemma same_counters_when_the_third_push_fails :
  exists code1 mem1 d1 out1 code2 mem2 d2 out2,
    ping_loop_handler (framework 3%float) [skeleton 0.5%float] ALGORITHM_INIT
      None 0 (Some five_probes) = Returned code1 mem1 (Some d1) out1
    /\ ping_loop_handler third_push_fails [skeleton 0.5%float] ALGORITHM_INIT
         None 0 (Some five_probes) = Returned code2 mem2 (Some d2) out2
    /\ num_probes_in_flight d1 = 3
    /\ num_probes_in_flight d2 = 3
    /\ length (sent out1) = 3%nat
    /\ length (sent out2) = 2%nat.
Proof.
  destruct (ping_loop_handler (framework 3%float) [skeleton 0.5%float]
              ALGORITHM_INIT None 0 (Some five_probes))
    as [code1 mem1 [d1|] out1|] eqn:E1; try (vm_compute in E1; discriminate E1).
  destruct (ping_loop_handler third_push_fails [skeleton 0.5%float]
              ALGORITHM_INIT None 0 (Some five_probes))
    as [code2 mem2 [d2|] out2|] eqn:E2; try (vm_compute in E2; discriminate E2).
  destruct (dispatch_failures_are_not_counted (library := ipv4_library)
              (framework 3%float) third_push_fails
              [skeleton 0.5%float] [skeleton 0.5%float] ALGORITHM_INIT None
              0%nat 0%nat (Some five_probes)
              code1 code2 mem1 mem2 (Some d1) (Some d2) out1 out2
              eq_refl eq_refl E1 E2) as (_ & _ & _ & (_ & _ & Hf & _)).
  exists code1, mem1, d1, out1, code2, mem2, d2, out2.
  assert (F1 : num_probes_in_flight d1 = 3)
    by (vm_compute in E1; injection E1 as <- <- <- <-; reflexivity).
  assert (S1 : length (sent out1) = 3%nat)
    by (vm_compute in E1; injection E1 as <- <- <- <-; reflexivity).
  assert (S2 : length (sent out2) = 2%nat)
    by (vm_compute in E2; injection E2 as <- <- <- <-; reflexivity).
  repeat split; auto. congruence.
Defined.


(** The first reply to a burst of three probes, in a framework where
    nothing fails and in one that is out of memory: the handler returns
    in both, [ping_handler] only in the first. *)
Lemma first_reply_without_memory :
  exists mem d out mem' d1 out' d2 mem'' d1' out'',
    running 0 five_probes [ALGORITHM_INIT] mem d out
    /\ ping_loop_handler (framework 3%float) mem first_reply (Some d) 0
         (Some five_probes) = Returned 0 mem' (Some d1) out'
    /\ deliver (framework 3%float) out' d1 = Ok d2
    /\ ping_loop_handler out_of_memory mem first_reply (Some d) 0
         (Some five_probes) = Returned 0 mem'' (Some d1') out''
    /\ deliver out_of_memory out'' d1' = Fault NullDereference.
Proof.
  destruct (ping five_probes 3%float 0.5%float [ALGORITHM_INIT])
    as [[[mem d] out]|] eqn:E; [|vm_compute in E; discriminate E].
  pose proof (run_running _ _ _ _ _ _ _ _ E) as R.
  assert (Hs : mem !! 0%nat = Some (skeleton 0.5%float))
    by (vm_compute in E; injection E as <- <- <-; reflexivity).
  destruct (running_instance_goes_on 0%nat five_probes [ALGORITHM_INIT]
              mem d out (framework 3%float) first_reply
              (skeleton 0.5%float) R Hs eq_refl)
    as (mem' & d1 & out' & Hh & Hd).
  destruct (running_instance_goes_on 0%nat five_probes [ALGORITHM_INIT]
              mem d out out_of_memory first_reply
              (skeleton 0.5%float) R Hs eq_refl)
    as (mem'' & d1' & out'' & Hh' & Hd').
  assert (Hyes : from_the_destination five_probes first_reply
                 && negb (malloc_succeeds (framework 3%float)) = false)
    by reflexivity.
  assert (Hno : from_the_destination five_probes first_reply
                && negb (malloc_succeeds out_of_memory) = true)
    by reflexivity.
  rewrite Hyes in Hd. rewrite Hno in Hd'. destruct Hd as (d2 & Hd).
  exists mem, d, out, mem', d1, out', d2, mem'', d1', out''. auto 10.
Defined.

(** A single probe answered by a router: no statistics. *)
Lemma no_statistics_for_a_router_reply :
  exists mem d out,
    running 0 one_probe ttl_exceeded_on_the_way mem d out
    /\ num_replies d = 1
    /\ ping_dump_statistics d = Fault InvalidRead.
Proof.
  destruct (ping one_probe 3%float 0.5%float ttl_exceeded_on_the_way)
    as [[[mem d] out]|] eqn:E; [|vm_compute in E; discriminate E].
  pose proof (run_running _ _ _ _ _ _ _ _ E) as R.
  destruct (statistics_of_an_unanswered_instance 0%nat one_probe
              ttl_exceeded_on_the_way mem d out R) as (_ & Hst).
  - repeat constructor.
  - exists mem, d, out.
    assert (F : num_replies d = 1)
      by (vm_compute in E; injection E as <- <- <-; reflexivity).
    auto.
Defined.


(** Three round-trip times around 0.5. *)
Lemma no_deviation_of_three_close_samples :
  compute_mean_deviation [0.25; 0.5; 0.75]%float = Ok 0%float.
Proof.
  rewrite (mean_deviation_of_close_samples [0.25; 0.5; 0.75]%float).
  - vm_compute. reflexivity.
  - repeat constructor.
Defined.


(** A timeout of 3 s and an interval of -1 s: the five probes at once. *)
Lemma five_at_once_with_a_negative_interval :
  exists mem' d out,
    ping_loop_handler (framework 3%float) [skeleton 0.5%float] ALGORITHM_INIT
      None 0 (Some backwards) = Returned 0 mem' (Some d) out
    /\ num_probes_in_flight d = 5
    /\ Z.of_nat (length (sent out)) = 5.
Proof.
  destruct (negative_quotient_sends_every_probe (framework 3%float)
              [skeleton 0.5%float] None 0%nat backwards (skeleton 0.5%float) (-3))
    as (mem' & d & out & E & Hflight & Hsent);
    try reflexivity; try (vm_compute; intuition discriminate).
  exists mem', d, out. split; [exact E|]. split; [exact Hflight|].
  apply Hsent. reflexivity.
Defined.

(** No interval between the probes. *)
Lemma no_interval_is_undefined :
  ping_loop_handler (framework 3%float) [skeleton 0.5%float] ALGORITHM_INIT
    None 0 (Some no_interval) = Crashed UndefinedConversion [].
Proof.
  apply (zero_interval_is_undefined (framework 3%float) [skeleton 0.5%float]
           None 0%nat no_interval); reflexivity.
Defined.

(** The fourth of five probes, after the first reply: its delay is the
    one of the first probe of the burst. *)
Lemma fourth_probe_is_a_first_clone :
  exists mem' d1 out,
    ping_loop_handler (framework 3%float) after_the_burst first_reply
      (Some three_in_flight) 0 (Some five_probes)
    = Returned 0 mem' (Some d1) out
    /\ mem' = after_the_burst ++ [skeleton 0.5%float]
    /\ sent out = [4%nat].
Proof.
  destruct (ping_loop_handler (framework 3%float) after_the_burst first_reply
              (Some three_in_flight) 0 (Some five_probes))
    as [code mem' [d1|] out|] eqn:E; try (vm_compute in E; discriminate E).
  assert (code = 0) as -> by (vm_compute in E; injection E as <- _ _ _; reflexivity).
  destruct (refill_is_the_first_clone (library := ipv4_library)
              (framework 3%float) after_the_burst first_reply three_in_flight
              0%nat five_probes (skeleton 0.5%float) mem' d1 out
              eq_refl eq_refl E)
    as [(Hm & Hs)|(Hm & Hs)].
  - exfalso. vm_compute in E. injection E as <- _ _. discriminate Hm.
  - exists mem', d1, out. split; [reflexivity|]. split.
    + rewrite Hm. vm_compute. reflexivity.
    + vm_compute in E. injection E as _ _ <-. reflexivity.
Defined.

(** The statistics of the three-probe instance: three transmitted, two
    received. *)
Lemma statistics_of_the_three_probes :
  exists mem d out,
    running 0 three_probes reply_timeout_reply mem d out
    /\ ping_dump_statistics d
       = Ok (statistics 3 2 33 0.75%float 0.25%float 0.5%float 0%float)
    /\ count_events expects_outcome reply_timeout_reply = 3
    /\ count_events is_reply reply_timeout_reply = 2.
Proof.
  destruct (ping three_probes 3%float 0.5%float reply_timeout_reply)
    as [[[mem d] out]|] eqn:E; [|vm_compute in E; discriminate E].
  pose proof (run_running _ _ _ _ _ _ _ _ E) as R.
  assert (Hc : 0 <= count three_probes < SIZE_MAX_plus_1)
    by (unfold SIZE_MAX_plus_1; simpl; lia).
  assert (Hst : ping_dump_statistics d
                = Ok (statistics 3 2 33 0.75%float 0.25%float 0.5%float 0%float))
    by (vm_compute in E; injection E as <- <- <-; vm_compute; reflexivity).
  destruct (statistics_count_error_replies 0%nat three_probes
              reply_timeout_reply mem d out _ _ _ _ _ _ _ Hc R Hst)
    as (Ht & Hr & _).
  exists mem, d, out. auto.
Defined.
